(** * Wireless LED prop: receiver and remote control loops

    A shallow embedding of the two Arduino sketches of the repository:
    the receiver (RadioHead receiver sketch, version 8.4) and the handheld remote
    (uno_remote_radiohead, version 7.3).  Globals become record fields, [loop()]
    becomes a function from one iteration's inputs and the state to the next state,
    the interrupt handler is a separate transition, and the peripherals (LED strip,
    OLED, EEPROM, radio) are modelled at the level of the calls the sketches make.

    Integers are [Z] with the wrap-around of the C types written out:
    [uint8_t], [uint16_t] and [unsigned long]/[uint32_t] (32 bits on both boards). *)

From Stdlib Require Import ZArith List Bool Lia.
Import ListNotations.
Open Scope Z_scope.

(** ** Machine integers *)

Definition u8  (x : Z) : Z := x mod 256.
Definition u16 (x : Z) : Z := x mod 65536.
Definition u32 (x : Z) : Z := x mod 4294967296.

(** [millis() - since] on [unsigned long]: the difference wraps modulo 2^32. *)
Definition elapsed (now since : Z) : Z := u32 (now - since).

(** The struct sent over the air; it is declared identically in both sketches. *)
Module Wire.
Record RadioPacket := { packetCounter : Z; sequenceId : Z }.
End Wire.

(** ** NeoPixel strip

    The pixel buffer is kept as the list of packed 0xRRGGBB colours that
    [strip.getPixelColor] reads back.  The colour conversions of the driver
    library are not part of the sketches and are taken as an interface. *)

Class NeoPixelColor := { ColorHSV : Z -> Z; gamma32 : Z -> Z }.

Definition NUM_LEDS : Z := 120.

Definition Color (r g b : Z) : Z :=
  Z.lor (Z.shiftl (u8 r) 16) (Z.lor (Z.shiftl (u8 g) 8) (u8 b)).

(** [strip.setPixelColor(n, c)]: the driver ignores an index past the strip;
    the index parameter is a [uint16_t]. *)
Fixpoint setNth (n : nat) (c : Z) (px : list Z) : list Z :=
  match px with
  | [] => []
  | p :: rest => match n with
                 | O => c :: rest
                 | S n' => p :: setNth n' c rest
                 end
  end.

Definition setPixelColor (n c : Z) (px : list Z) : list Z :=
  let n16 := u16 n in
  if n16 <? Z.of_nat (length px) then setNth (Z.to_nat n16) c px else px.

Definition clearPixels (px : list Z) : list Z := map (fun _ => 0) px.

Module Receiver.

Import Wire.

(** *** Status readout on the OLED *)

Inductive ModeLabel := LblDiagnostic | LblSetup | LblTest | LblNoSignal | LblReady.

Record Readout := { ro_id : Z; ro_seq : Z; ro_rssi : Z; ro_mode : ModeLabel }.

(** *** Globals of the sketch

    [last_interrupt_time] is the static of [button_isr]; [pos] and [dir] are the
    statics of [animationCylon].  [pixels] is the strip's buffer, [shown] the frames
    latched by [strip.show()] (newest first), [oled] the last readout drawn by
    [updateDisplay] (none before the first call). *)

Record State := {
  propID : Z;
  inTestMode : bool;
  inSetupMode : bool;
  inDiagnosticMode : bool;
  currentSequence : Z;
  buttonPressFlag : bool;
  buttonPressTime : Z;
  lastPacketTime : Z;
  lastActiveAnimationTime : Z;
  animationStep : Z;
  lastAnimationTime : Z;
  lastDisplayUpdateTime : Z;
  lastRSSI : Z;
  frameDirty : bool;
  stripIsOff : bool;
  last_interrupt_time : Z;
  pos : Z;
  dir : Z;
  pixels : list Z;
  shown : list (list Z);
  oled : option Readout
}.

Definition set_propID (v : Z) (s : State) : State :=
  {| propID := v; inTestMode := inTestMode s; inSetupMode := inSetupMode s;
     inDiagnosticMode := inDiagnosticMode s; currentSequence := currentSequence s;
     buttonPressFlag := buttonPressFlag s; buttonPressTime := buttonPressTime s;
     lastPacketTime := lastPacketTime s;
     lastActiveAnimationTime := lastActiveAnimationTime s; animationStep := animationStep s;
     lastAnimationTime := lastAnimationTime s;
     lastDisplayUpdateTime := lastDisplayUpdateTime s; lastRSSI := lastRSSI s;
     frameDirty := frameDirty s; stripIsOff := stripIsOff s;
     last_interrupt_time := last_interrupt_time s; pos := pos s; dir := dir s;
     pixels := pixels s; shown := shown s; oled := oled s |}.

Definition set_inTestMode (v : bool) (s : State) : State :=
  {| propID := propID s; inTestMode := v; inSetupMode := inSetupMode s;
     inDiagnosticMode := inDiagnosticMode s; currentSequence := currentSequence s;
     buttonPressFlag := buttonPressFlag s; buttonPressTime := buttonPressTime s;
     lastPacketTime := lastPacketTime s;
     lastActiveAnimationTime := lastActiveAnimationTime s; animationStep := animationStep s;
     lastAnimationTime := lastAnimationTime s;
     lastDisplayUpdateTime := lastDisplayUpdateTime s; lastRSSI := lastRSSI s;
     frameDirty := frameDirty s; stripIsOff := stripIsOff s;
     last_interrupt_time := last_interrupt_time s; pos := pos s; dir := dir s;
     pixels := pixels s; shown := shown s; oled := oled s |}.

Definition set_inSetupMode (v : bool) (s : State) : State :=
  {| propID := propID s; inTestMode := inTestMode s; inSetupMode := v;
     inDiagnosticMode := inDiagnosticMode s; currentSequence := currentSequence s;
     buttonPressFlag := buttonPressFlag s; buttonPressTime := buttonPressTime s;
     lastPacketTime := lastPacketTime s;
     lastActiveAnimationTime := lastActiveAnimationTime s; animationStep := animationStep s;
     lastAnimationTime := lastAnimationTime s;
     lastDisplayUpdateTime := lastDisplayUpdateTime s; lastRSSI := lastRSSI s;
     frameDirty := frameDirty s; stripIsOff := stripIsOff s;
     last_interrupt_time := last_interrupt_time s; pos := pos s; dir := dir s;
     pixels := pixels s; shown := shown s; oled := oled s |}.

Definition set_inDiagnosticMode (v : bool) (s : State) : State :=
  {| propID := propID s; inTestMode := inTestMode s; inSetupMode := inSetupMode s;
     inDiagnosticMode := v; currentSequence := currentSequence s;
     buttonPressFlag := buttonPressFlag s; buttonPressTime := buttonPressTime s;
     lastPacketTime := lastPacketTime s;
     lastActiveAnimationTime := lastActiveAnimationTime s; animationStep := animationStep s;
     lastAnimationTime := lastAnimationTime s;
     lastDisplayUpdateTime := lastDisplayUpdateTime s; lastRSSI := lastRSSI s;
     frameDirty := frameDirty s; stripIsOff := stripIsOff s;
     last_interrupt_time := last_interrupt_time s; pos := pos s; dir := dir s;
     pixels := pixels s; shown := shown s; oled := oled s |}.

Definition set_currentSequence (v : Z) (s : State) : State :=
  {| propID := propID s; inTestMode := inTestMode s; inSetupMode := inSetupMode s;
     inDiagnosticMode := inDiagnosticMode s; currentSequence := v;
     buttonPressFlag := buttonPressFlag s; buttonPressTime := buttonPressTime s;
     lastPacketTime := lastPacketTime s;
     lastActiveAnimationTime := lastActiveAnimationTime s; animationStep := animationStep s;
     lastAnimationTime := lastAnimationTime s;
     lastDisplayUpdateTime := lastDisplayUpdateTime s; lastRSSI := lastRSSI s;
     frameDirty := frameDirty s; stripIsOff := stripIsOff s;
     last_interrupt_time := last_interrupt_time s; pos := pos s; dir := dir s;
     pixels := pixels s; shown := shown s; oled := oled s |}.

Definition set_buttonPressFlag (v : bool) (s : State) : State :=
  {| propID := propID s; inTestMode := inTestMode s; inSetupMode := inSetupMode s;
     inDiagnosticMode := inDiagnosticMode s; currentSequence := currentSequence s;
     buttonPressFlag := v; buttonPressTime := buttonPressTime s;
     lastPacketTime := lastPacketTime s;
     lastActiveAnimationTime := lastActiveAnimationTime s; animationStep := animationStep s;
     lastAnimationTime := lastAnimationTime s;
     lastDisplayUpdateTime := lastDisplayUpdateTime s; lastRSSI := lastRSSI s;
     frameDirty := frameDirty s; stripIsOff := stripIsOff s;
     last_interrupt_time := last_interrupt_time s; pos := pos s; dir := dir s;
     pixels := pixels s; shown := shown s; oled := oled s |}.

Definition set_buttonPressTime (v : Z) (s : State) : State :=
  {| propID := propID s; inTestMode := inTestMode s; inSetupMode := inSetupMode s;
     inDiagnosticMode := inDiagnosticMode s; currentSequence := currentSequence s;
     buttonPressFlag := buttonPressFlag s; buttonPressTime := v;
     lastPacketTime := lastPacketTime s;
     lastActiveAnimationTime := lastActiveAnimationTime s; animationStep := animationStep s;
     lastAnimationTime := lastAnimationTime s;
     lastDisplayUpdateTime := lastDisplayUpdateTime s; lastRSSI := lastRSSI s;
     frameDirty := frameDirty s; stripIsOff := stripIsOff s;
     last_interrupt_time := last_interrupt_time s; pos := pos s; dir := dir s;
     pixels := pixels s; shown := shown s; oled := oled s |}.

Definition set_lastPacketTime (v : Z) (s : State) : State :=
  {| propID := propID s; inTestMode := inTestMode s; inSetupMode := inSetupMode s;
     inDiagnosticMode := inDiagnosticMode s; currentSequence := currentSequence s;
     buttonPressFlag := buttonPressFlag s; buttonPressTime := buttonPressTime s;
     lastPacketTime := v; lastActiveAnimationTime := lastActiveAnimationTime s;
     animationStep := animationStep s; lastAnimationTime := lastAnimationTime s;
     lastDisplayUpdateTime := lastDisplayUpdateTime s; lastRSSI := lastRSSI s;
     frameDirty := frameDirty s; stripIsOff := stripIsOff s;
     last_interrupt_time := last_interrupt_time s; pos := pos s; dir := dir s;
     pixels := pixels s; shown := shown s; oled := oled s |}.

Definition set_lastActiveAnimationTime (v : Z) (s : State) : State :=
  {| propID := propID s; inTestMode := inTestMode s; inSetupMode := inSetupMode s;
     inDiagnosticMode := inDiagnosticMode s; currentSequence := currentSequence s;
     buttonPressFlag := buttonPressFlag s; buttonPressTime := buttonPressTime s;
     lastPacketTime := lastPacketTime s; lastActiveAnimationTime := v;
     animationStep := animationStep s; lastAnimationTime := lastAnimationTime s;
     lastDisplayUpdateTime := lastDisplayUpdateTime s; lastRSSI := lastRSSI s;
     frameDirty := frameDirty s; stripIsOff := stripIsOff s;
     last_interrupt_time := last_interrupt_time s; pos := pos s; dir := dir s;
     pixels := pixels s; shown := shown s; oled := oled s |}.

Definition set_animationStep (v : Z) (s : State) : State :=
  {| propID := propID s; inTestMode := inTestMode s; inSetupMode := inSetupMode s;
     inDiagnosticMode := inDiagnosticMode s; currentSequence := currentSequence s;
     buttonPressFlag := buttonPressFlag s; buttonPressTime := buttonPressTime s;
     lastPacketTime := lastPacketTime s;
     lastActiveAnimationTime := lastActiveAnimationTime s; animationStep := v;
     lastAnimationTime := lastAnimationTime s;
     lastDisplayUpdateTime := lastDisplayUpdateTime s; lastRSSI := lastRSSI s;
     frameDirty := frameDirty s; stripIsOff := stripIsOff s;
     last_interrupt_time := last_interrupt_time s; pos := pos s; dir := dir s;
     pixels := pixels s; shown := shown s; oled := oled s |}.

Definition set_lastAnimationTime (v : Z) (s : State) : State :=
  {| propID := propID s; inTestMode := inTestMode s; inSetupMode := inSetupMode s;
     inDiagnosticMode := inDiagnosticMode s; currentSequence := currentSequence s;
     buttonPressFlag := buttonPressFlag s; buttonPressTime := buttonPressTime s;
     lastPacketTime := lastPacketTime s;
     lastActiveAnimationTime := lastActiveAnimationTime s; animationStep := animationStep s;
     lastAnimationTime := v; lastDisplayUpdateTime := lastDisplayUpdateTime s;
     lastRSSI := lastRSSI s; frameDirty := frameDirty s; stripIsOff := stripIsOff s;
     last_interrupt_time := last_interrupt_time s; pos := pos s; dir := dir s;
     pixels := pixels s; shown := shown s; oled := oled s |}.

Definition set_lastDisplayUpdateTime (v : Z) (s : State) : State :=
  {| propID := propID s; inTestMode := inTestMode s; inSetupMode := inSetupMode s;
     inDiagnosticMode := inDiagnosticMode s; currentSequence := currentSequence s;
     buttonPressFlag := buttonPressFlag s; buttonPressTime := buttonPressTime s;
     lastPacketTime := lastPacketTime s;
     lastActiveAnimationTime := lastActiveAnimationTime s; animationStep := animationStep s;
     lastAnimationTime := lastAnimationTime s; lastDisplayUpdateTime := v;
     lastRSSI := lastRSSI s; frameDirty := frameDirty s; stripIsOff := stripIsOff s;
     last_interrupt_time := last_interrupt_time s; pos := pos s; dir := dir s;
     pixels := pixels s; shown := shown s; oled := oled s |}.

Definition set_lastRSSI (v : Z) (s : State) : State :=
  {| propID := propID s; inTestMode := inTestMode s; inSetupMode := inSetupMode s;
     inDiagnosticMode := inDiagnosticMode s; currentSequence := currentSequence s;
     buttonPressFlag := buttonPressFlag s; buttonPressTime := buttonPressTime s;
     lastPacketTime := lastPacketTime s;
     lastActiveAnimationTime := lastActiveAnimationTime s; animationStep := animationStep s;
     lastAnimationTime := lastAnimationTime s;
     lastDisplayUpdateTime := lastDisplayUpdateTime s; lastRSSI := v;
     frameDirty := frameDirty s; stripIsOff := stripIsOff s;
     last_interrupt_time := last_interrupt_time s; pos := pos s; dir := dir s;
     pixels := pixels s; shown := shown s; oled := oled s |}.

Definition set_frameDirty (v : bool) (s : State) : State :=
  {| propID := propID s; inTestMode := inTestMode s; inSetupMode := inSetupMode s;
     inDiagnosticMode := inDiagnosticMode s; currentSequence := currentSequence s;
     buttonPressFlag := buttonPressFlag s; buttonPressTime := buttonPressTime s;
     lastPacketTime := lastPacketTime s;
     lastActiveAnimationTime := lastActiveAnimationTime s; animationStep := animationStep s;
     lastAnimationTime := lastAnimationTime s;
     lastDisplayUpdateTime := lastDisplayUpdateTime s; lastRSSI := lastRSSI s;
     frameDirty := v; stripIsOff := stripIsOff s;
     last_interrupt_time := last_interrupt_time s; pos := pos s; dir := dir s;
     pixels := pixels s; shown := shown s; oled := oled s |}.

Definition set_stripIsOff (v : bool) (s : State) : State :=
  {| propID := propID s; inTestMode := inTestMode s; inSetupMode := inSetupMode s;
     inDiagnosticMode := inDiagnosticMode s; currentSequence := currentSequence s;
     buttonPressFlag := buttonPressFlag s; buttonPressTime := buttonPressTime s;
     lastPacketTime := lastPacketTime s;
     lastActiveAnimationTime := lastActiveAnimationTime s; animationStep := animationStep s;
     lastAnimationTime := lastAnimationTime s;
     lastDisplayUpdateTime := lastDisplayUpdateTime s; lastRSSI := lastRSSI s;
     frameDirty := frameDirty s; stripIsOff := v;
     last_interrupt_time := last_interrupt_time s; pos := pos s; dir := dir s;
     pixels := pixels s; shown := shown s; oled := oled s |}.

Definition set_last_interrupt_time (v : Z) (s : State) : State :=
  {| propID := propID s; inTestMode := inTestMode s; inSetupMode := inSetupMode s;
     inDiagnosticMode := inDiagnosticMode s; currentSequence := currentSequence s;
     buttonPressFlag := buttonPressFlag s; buttonPressTime := buttonPressTime s;
     lastPacketTime := lastPacketTime s;
     lastActiveAnimationTime := lastActiveAnimationTime s; animationStep := animationStep s;
     lastAnimationTime := lastAnimationTime s;
     lastDisplayUpdateTime := lastDisplayUpdateTime s; lastRSSI := lastRSSI s;
     frameDirty := frameDirty s; stripIsOff := stripIsOff s; last_interrupt_time := v;
     pos := pos s; dir := dir s; pixels := pixels s; shown := shown s; oled := oled s |}.

Definition set_pos (v : Z) (s : State) : State :=
  {| propID := propID s; inTestMode := inTestMode s; inSetupMode := inSetupMode s;
     inDiagnosticMode := inDiagnosticMode s; currentSequence := currentSequence s;
     buttonPressFlag := buttonPressFlag s; buttonPressTime := buttonPressTime s;
     lastPacketTime := lastPacketTime s;
     lastActiveAnimationTime := lastActiveAnimationTime s; animationStep := animationStep s;
     lastAnimationTime := lastAnimationTime s;
     lastDisplayUpdateTime := lastDisplayUpdateTime s; lastRSSI := lastRSSI s;
     frameDirty := frameDirty s; stripIsOff := stripIsOff s;
     last_interrupt_time := last_interrupt_time s; pos := v; dir := dir s;
     pixels := pixels s; shown := shown s; oled := oled s |}.

Definition set_dir (v : Z) (s : State) : State :=
  {| propID := propID s; inTestMode := inTestMode s; inSetupMode := inSetupMode s;
     inDiagnosticMode := inDiagnosticMode s; currentSequence := currentSequence s;
     buttonPressFlag := buttonPressFlag s; buttonPressTime := buttonPressTime s;
     lastPacketTime := lastPacketTime s;
     lastActiveAnimationTime := lastActiveAnimationTime s; animationStep := animationStep s;
     lastAnimationTime := lastAnimationTime s;
     lastDisplayUpdateTime := lastDisplayUpdateTime s; lastRSSI := lastRSSI s;
     frameDirty := frameDirty s; stripIsOff := stripIsOff s;
     last_interrupt_time := last_interrupt_time s; pos := pos s; dir := v;
     pixels := pixels s; shown := shown s; oled := oled s |}.

Definition set_pixels (v : list Z) (s : State) : State :=
  {| propID := propID s; inTestMode := inTestMode s; inSetupMode := inSetupMode s;
     inDiagnosticMode := inDiagnosticMode s; currentSequence := currentSequence s;
     buttonPressFlag := buttonPressFlag s; buttonPressTime := buttonPressTime s;
     lastPacketTime := lastPacketTime s;
     lastActiveAnimationTime := lastActiveAnimationTime s; animationStep := animationStep s;
     lastAnimationTime := lastAnimationTime s;
     lastDisplayUpdateTime := lastDisplayUpdateTime s; lastRSSI := lastRSSI s;
     frameDirty := frameDirty s; stripIsOff := stripIsOff s;
     last_interrupt_time := last_interrupt_time s; pos := pos s; dir := dir s; pixels := v;
     shown := shown s; oled := oled s |}.

Definition set_shown (v : list (list Z)) (s : State) : State :=
  {| propID := propID s; inTestMode := inTestMode s; inSetupMode := inSetupMode s;
     inDiagnosticMode := inDiagnosticMode s; currentSequence := currentSequence s;
     buttonPressFlag := buttonPressFlag s; buttonPressTime := buttonPressTime s;
     lastPacketTime := lastPacketTime s;
     lastActiveAnimationTime := lastActiveAnimationTime s; animationStep := animationStep s;
     lastAnimationTime := lastAnimationTime s;
     lastDisplayUpdateTime := lastDisplayUpdateTime s; lastRSSI := lastRSSI s;
     frameDirty := frameDirty s; stripIsOff := stripIsOff s;
     last_interrupt_time := last_interrupt_time s; pos := pos s; dir := dir s;
     pixels := pixels s; shown := v; oled := oled s |}.

Definition set_oled (v : option Readout) (s : State) : State :=
  {| propID := propID s; inTestMode := inTestMode s; inSetupMode := inSetupMode s;
     inDiagnosticMode := inDiagnosticMode s; currentSequence := currentSequence s;
     buttonPressFlag := buttonPressFlag s; buttonPressTime := buttonPressTime s;
     lastPacketTime := lastPacketTime s;
     lastActiveAnimationTime := lastActiveAnimationTime s; animationStep := animationStep s;
     lastAnimationTime := lastAnimationTime s;
     lastDisplayUpdateTime := lastDisplayUpdateTime s; lastRSSI := lastRSSI s;
     frameDirty := frameDirty s; stripIsOff := stripIsOff s;
     last_interrupt_time := last_interrupt_time s; pos := pos s; dir := dir s;
     pixels := pixels s; shown := shown s; oled := v |}.

Definition PACKET_TIMEOUT_MS : Z := 3000.
Definition STRIP_TIMEOUT_MS : Z := 1800000.

(** *** Inputs of one pass through [loop()]

    [millis()] is read at several places of one pass; each place has its own
    reading.  [radio] is [Some (packet, rssi)] when [driver.available()] and
    [driver.recv] both succeed; [pinLow] is [digitalRead(CONFIG_BUTTON_PIN) == LOW];
    [rnd] is the value returned by [random(strip.numPixels())]. *)

Inductive Site :=
  | AtRecv | AtActive | AtNoSignal | AtIdle | AtButton
  | AtPace | AtAnimStamp | AtDisplayCheck | AtDisplayLabel | AtDisplayStamp.

Record Input := {
  radio : option (RadioPacket * Z);
  pinLow : bool;
  millis : Site -> Z;
  rnd : Z
}.

(** *** Frame change tracking *)

Definition markDirty (s : State) : State := set_stripIsOff false (set_frameDirty true s).
Definition markAllOff (s : State) : State := set_frameDirty true (set_stripIsOff true s).

Definition numPixels (s : State) : Z := Z.of_nat (length (pixels s)).
Definition strip_show (s : State) : State := set_shown (pixels s :: shown s) s.
Definition strip_clear (s : State) : State := set_pixels (clearPixels (pixels s)) s.

Definition showIfDirty (s : State) : State :=
  if frameDirty s then set_frameDirty false (strip_show s) else s.

(** *** Interrupt service routine (falling edge of the button) *)

Definition button_isr (interrupt_time : Z) (s : State) : State :=
  let s' :=
    if 200 <? elapsed interrupt_time (last_interrupt_time s)
    then set_buttonPressTime interrupt_time (set_buttonPressFlag true s)
    else s in
  set_last_interrupt_time interrupt_time s'.

(** *** Utils: the identifier byte kept in EEPROM

    The emulated EEPROM is a map from addresses to bytes; [EEPROM.write]
    followed by [EEPROM.commit] stores one byte. *)

Definition EEPROM := Z -> Z.

Definition EEPROM_read (addr : Z) (e : EEPROM) : Z := e addr.
Definition EEPROM_write (addr v : Z) (e : EEPROM) : EEPROM :=
  fun a => if a =? addr then u8 v else e a.

Definition savePropID (id : Z) (e : EEPROM) : EEPROM := EEPROM_write 0 id e.

Definition loadPropID (e : EEPROM) : Z * EEPROM :=
  let id := EEPROM_read 0 e in
  if (id <? 1) || (18 <? id) then (1, savePropID 1 e) else (id, e).

(** *** Animations *)

Definition animationOff (s : State) : State :=
  if negb (stripIsOff s) then markAllOff (strip_clear s) else s.

Definition fadeChannel (amount ch : Z) : Z := u8 (Z.shiftr (ch * (255 - amount)) 8).

Definition fadePixel (amount c : Z) : Z :=
  let r := Z.land (Z.shiftr c 16) 255 in
  let g := Z.land (Z.shiftr c 8) 255 in
  let b := Z.land c 255 in
  Color (fadeChannel amount r) (fadeChannel amount g) (fadeChannel amount b).

(** The loop of [fadeAll] reads and rewrites every index once.  [pixels] holds
    the colours the sketch writes, and [strip.getPixelColor] is taken to return
    them as written: the scaling of the stored bytes that follows
    [strip.setBrightness(100)] in [setup()] belongs to the driver and is not
    represented. *)
Definition fadeAll (amount : Z) (s : State) : State :=
  markDirty (set_pixels (map (fadePixel amount) (pixels s)) s).

Definition paced (i : Input) (s : State) : bool :=
  elapsed (millis i AtPace) (lastAnimationTime s) <? 16.

Definition stampAnimation (i : Input) (s : State) : State :=
  set_lastAnimationTime (millis i AtAnimStamp) s.

Section WithDriver.
Context {drv : NeoPixelColor}.

Definition rainbowPixel (n step idx : Z) : Z :=
  gamma32 (ColorHSV (u16 (idx * 65536 / n + step * 256))).

Definition animationRainbow (i : Input) (s : State) : State :=
  if paced i s then s else
  let s := stampAnimation i s in
  let s := set_animationStep (u16 (animationStep s + 1)) s in
  let n := numPixels s in
  let frame := map (fun k => rainbowPixel n (animationStep s) (Z.of_nat k))
                   (seq 0 (Z.to_nat n)) in
  markDirty (set_pixels frame s).

Definition animationChase (i : Input) (s : State) : State :=
  if paced i s then s else
  let s := stampAnimation i s in
  let s := fadeAll 200 s in
  let s := set_pixels (setPixelColor (animationStep s) (Color 255 0 0) (pixels s)) s in
  let s := set_animationStep (u16 ((animationStep s + 1) mod numPixels s)) s in
  markDirty s.

Definition animationWipe (i : Input) (s : State) : State :=
  if paced i s then s else
  let s := stampAnimation i s in
  let n := numPixels s in
  let s :=
    if animationStep s <? n
    then set_pixels (setPixelColor (animationStep s) (Color 0 0 255) (pixels s)) s
    else if animationStep s <? 2 * n
    then set_pixels (setPixelColor (animationStep s - n) 0 (pixels s)) s
    else s in
  let s := set_animationStep (u16 (animationStep s + 1)) s in
  let s := if 2 * n <=? animationStep s then set_animationStep 0 s else s in
  markDirty s.

Definition animationSparkle (i : Input) (s : State) : State :=
  if paced i s then s else
  let s := stampAnimation i s in
  let s := fadeAll 100 s in
  let s := set_pixels (setPixelColor (rnd i) (Color 255 255 255) (pixels s)) s in
  markDirty s.

Definition animationCylon (i : Input) (s : State) : State :=
  if paced i s then s else
  let s := stampAnimation i s in
  let s := fadeAll 40 s in
  let s := set_pixels (setPixelColor (pos s) (Color 255 0 0) (pixels s)) s in
  let s := set_pos (pos s + dir s) s in
  let s := if (pos s <=? 0) || (numPixels s - 1 <=? pos s) then set_dir (- dir s) s else s in
  markDirty s.

Definition runSequence (i : Input) (s : State) : State :=
  match currentSequence s with
  | 0 => animationOff s
  | 1 => animationRainbow i s
  | 2 => animationChase i s
  | 3 => animationWipe i s
  | 4 => animationSparkle i s
  | 5 => animationCylon i s
  | _ => animationOff s
  end.

(** *** System and UI *)

Definition updateDisplay (now : Z) (s : State) : State :=
  let label :=
    if inDiagnosticMode s then LblDiagnostic
    else if inSetupMode s then LblSetup
    else if inTestMode s then LblTest
    else if PACKET_TIMEOUT_MS <? elapsed now (lastPacketTime s)
    then LblNoSignal
    else LblReady in
  set_oled (Some {| ro_id := propID s; ro_seq := currentSequence s;
                    ro_rssi := lastRSSI s; ro_mode := label |}) s.

(** *** The five numbered parts of [loop()] *)

(** 1. Handle Radio Input *)
Definition handleRadioInput (i : Input) (s : State) : State :=
  match radio i with
  | None => s
  | Some (packet, rssi) =>
      let s := set_lastPacketTime (millis i AtRecv) s in
      let s := set_lastRSSI rssi s in
      if negb (currentSequence s =? sequenceId packet) then
        let s := set_currentSequence (sequenceId packet) s in
        let s := set_animationStep 0 s in
        let s := markDirty (strip_clear s) in
        if 0 <? currentSequence s
        then set_lastActiveAnimationTime (millis i AtActive) s
        else s
      else s
  end.

(** 2. Handle System State & Timeouts *)
Definition noSignalTimeout (i : Input) (s : State) : State :=
  if PACKET_TIMEOUT_MS <? elapsed (millis i AtNoSignal) (lastPacketTime s) then
    if negb (currentSequence s =? 0)
    then set_animationStep 0 (set_currentSequence 0 s)
    else s
  else s.

Definition stripTimeout (i : Input) (s : State) : State :=
  if negb (currentSequence s =? 0)
     && (STRIP_TIMEOUT_MS <? elapsed (millis i AtIdle) (lastActiveAnimationTime s))
  then set_animationStep 0 (set_currentSequence 0 s)
  else s.

Definition handleTimeouts (i : Input) (s : State) : State :=
  stripTimeout i (noSignalTimeout i s).

(** 3. Handle Button Input *)
Definition handleButtonInput (i : Input) (s : State) : State :=
  if buttonPressFlag s then
    if pinLow i then
      if negb (inDiagnosticMode s) && (5000 <=? elapsed (millis i AtButton) (buttonPressTime s))
      then
        let s := set_inTestMode false (set_inDiagnosticMode true s) in
        let s := set_currentSequence 0 s in
        set_buttonPressFlag false s
      else s
    else
      let s :=
        if inDiagnosticMode s
        then set_inDiagnosticMode false s
        else set_currentSequence 0 (set_inTestMode (negb (inTestMode s)) s) in
      let s := set_animationStep 0 s in
      set_buttonPressFlag false s
  else s.

(** 4. Run LEDs *)
Definition runLEDs (i : Input) (s : State) : State :=
  if inDiagnosticMode s then animationOff s
  else if inTestMode s then animationRainbow i s
  else runSequence i s.

(** 5. Update Display (throttled to 4Hz) *)
Definition refreshDisplay (i : Input) (s : State) : State :=
  if 250 <? elapsed (millis i AtDisplayCheck) (lastDisplayUpdateTime s)
  then set_lastDisplayUpdateTime (millis i AtDisplayStamp) (updateDisplay (millis i AtDisplayLabel) s)
  else s.

Definition loop (i : Input) (s : State) : State :=
  let s := handleRadioInput i s in
  let s := handleTimeouts i s in
  let s := handleButtonInput i s in
  let s := runLEDs i s in
  let s := showIfDirty s in
  refreshDisplay i s.

(** *** Reading the state: operating mode and button gesture

    The mode shown by [updateDisplay] and the branch of part 3 of [loop()]
    that a pass takes. *)

Inductive OperatingMode := Ready | Test | Diagnostic | Setup.

Definition modeOf (s : State) : OperatingMode :=
  if inDiagnosticMode s then Diagnostic
  else if inSetupMode s then Setup
  else if inTestMode s then Test
  else Ready.

Inductive PressGesture := NoGesture | ShortPress | LongHoldConfirmed.

Definition gestureOf (i : Input) (s : State) : PressGesture :=
  if buttonPressFlag s then
    if pinLow i then
      if negb (inDiagnosticMode s) && (5000 <=? elapsed (millis i AtButton) (buttonPressTime s))
      then LongHoldConfirmed
      else NoGesture
    else ShortPress
  else NoGesture.

(** *** Runs of the main loop

    Between two passes of [loop()] the falling-edge interrupt may fire.  Parts 1,
    2, 4 and 5 do not touch the two variables the handler writes, so an interrupt
    during one of them acts as one before or after the pass; an interrupt in the
    middle of part 3 is not represented. *)

Inductive Event :=
  | Pass (i : Input)
  | ButtonEdge (interrupt_time : Z).

Definition step (e : Event) (s : State) : State :=
  match e with
  | Pass i => loop i s
  | ButtonEdge t => button_isr t s
  end.

Fixpoint run (es : list Event) (s : State) : State :=
  match es with
  | [] => s
  | e :: rest => run rest (step e s)
  end.

Definition passes (l : list Input) : list Event := map Pass l.

(** The gestures handled by the successive passes of a run. *)
Fixpoint gestures (es : list Event) (s : State) : list PressGesture :=
  match es with
  | [] => []
  | Pass i :: rest => gestureOf i s :: gestures rest (loop i s)
  | ButtonEdge t :: rest => gestures rest (button_isr t s)
  end.

End WithDriver.

(** *** Setup mode: [handleSetupMode()]

    One iteration of the [while (true)] body.  The locals [tempPropID],
    [pressStartTime] and [lastIsPressed] are carried from one iteration to the
    next; [isPressed] is sampled afresh.  The save branch ends with
    [watchdog_reboot], after which the device restarts: the iteration then
    yields the identifier and the EEPROM contents the restart will see. *)

Record SetupLocals := {
  tempPropID : Z;
  pressStartTime : Z;
  lastIsPressed : bool
}.

Record SetupInput := {
  isPressed : bool;      (* digitalRead(CONFIG_BUTTON_PIN) == LOW *)
  millisAtPress : Z;     (* millis() where the press is first seen *)
  millisAtHold : Z       (* millis() in the long-hold check *)
}.

Inductive SetupStep :=
  | Polling (l : SetupLocals) (e : EEPROM)
  | Rebooting (id : Z) (e : EEPROM).

Definition setupIteration (i : SetupInput) (l : SetupLocals) (e : EEPROM) : SetupStep :=
  let start :=
    if isPressed i && negb (lastIsPressed l) then millisAtPress i else pressStartTime l in
  let temp :=
    if negb (isPressed i) && lastIsPressed l then
      let t := u8 (tempPropID l + 1) in
      if 18 <? t then 1 else t
    else tempPropID l in
  if isPressed i && (3000 <? elapsed (millisAtHold i) start)
  then Rebooting temp (savePropID temp e)
  else Polling {| tempPropID := temp; pressStartTime := start;
                  lastIsPressed := isPressed i |} e.

Definition setupEntry (propID : Z) : SetupLocals :=
  {| tempPropID := propID; pressStartTime := 0; lastIsPressed := false |}.

(** The loop itself, driven by the samples of successive iterations; it leaves
    only through the restart. *)
Fixpoint setupLoop (polls : list SetupInput) (l : SetupLocals) (e : EEPROM) : SetupStep :=
  match polls with
  | [] => Polling l e
  | i :: rest =>
      match setupIteration i l e with
      | Polling l' e' => setupLoop rest l' e'
      | Rebooting id e' => Rebooting id e'
      end
  end.

Definition handleSetupMode (polls : list SetupInput) (propID : Z) (e : EEPROM) : SetupStep :=
  setupLoop polls (setupEntry propID) e.


(** *** [setup()]

    The display and strip initialisation ([strip.begin()],
    [strip.setBrightness(100)]) acts on the drivers only; of it the model keeps the
    blank frame that [strip.clear(); markAllOff(); showIfDirty()] puts on the
    strip. *)

Definition initial : State :=
  {| propID := 1; inTestMode := false; inSetupMode := false; inDiagnosticMode := false;
     currentSequence := 0; buttonPressFlag := false; buttonPressTime := 0;
     lastPacketTime := 0; lastActiveAnimationTime := 0; animationStep := 0;
     lastAnimationTime := 0; lastDisplayUpdateTime := 0; lastRSSI := 0;
     frameDirty := false; stripIsOff := true; last_interrupt_time := 0;
     pos := 0; dir := 1; pixels := repeat 0 (Z.to_nat NUM_LEDS); shown := [];
     oled := None |}.

Record BootInput := {
  bootPinLow : bool;              (* button held at power-on *)
  bootPolls : list SetupInput;    (* samples seen by the setup-mode loop *)
  radioInitOk : bool;             (* driver.init() *)
  radioFreqOk : bool;             (* driver.setFrequency(RF69_FREQ) *)
  bootMillis : Z                  (* millis() inside the closing updateDisplay() *)
}.

Inductive BootResult :=
  | InSetupMode (r : SetupStep)
  | Halted
  | Running (s : State) (e : EEPROM).

Definition setup (b : BootInput) (e : EEPROM) : BootResult :=
  let s := showIfDirty (markAllOff (strip_clear initial)) in
  let (id, e) := loadPropID e in
  let s := set_propID id s in
  if bootPinLow b then InSetupMode (handleSetupMode (bootPolls b) (propID s) e)
  else if negb (radioInitOk b) then Halted
  else if negb (radioFreqOk b) then Halted
  else Running (updateDisplay (bootMillis b) s) e.

(** *** Predicates on states and inputs used in the statements *)

(** The variables of the controller, as opposed to those of the animation
    engine, the frame tracking and the display. *)
Definition control (s : State) :=
  (propID s, inTestMode s, inSetupMode s, inDiagnosticMode s, currentSequence s,
   buttonPressFlag s, buttonPressTime s, lastPacketTime s, lastActiveAnimationTime s,
   last_interrupt_time s).

(** Test and Diagnostic are never flagged together, and the setup flag is down. *)
Definition modes_exclusive (s : State) : Prop :=
  inTestMode s && inDiagnosticMode s = false /\ inSetupMode s = false.

(** A pass or an interrupt without a packet. *)
Definition silent (e : Event) : Prop :=
  match e with
  | Pass i => radio i = None
  | ButtonEdge _ => True
  end.

(** The pass receives a packet carrying sequence [k]. *)
Definition carries (k : Z) (i : Input) : Prop :=
  exists p rssi, radio i = Some (p, rssi) /\ sequenceId p = k.

(** One [NoGesture] for each pass of the run. *)
Fixpoint idlePasses (es : list Event) : list PressGesture :=
  match es with
  | [] => []
  | Pass _ :: rest => NoGesture :: idlePasses rest
  | ButtonEdge _ :: rest => idlePasses rest
  end.

(** Every falling edge of the run comes within the 200 ms re-arm window of the
    edge before it ([prev] for the first), as the edges of a bouncing contact do:
    the handler rejects them. *)
Fixpoint edgesRejected (prev : Z) (es : list Event) : Prop :=
  match es with
  | [] => True
  | Pass _ :: rest => edgesRejected prev rest
  | ButtonEdge t :: rest => elapsed t prev <= 200 /\ edgesRejected t rest
  end.

(** In a pass of the run the button is down and the press begun at [tp] is
    younger than 5000 ms. *)
Definition heldBelow (tp : Z) (e : Event) : Prop :=
  match e with
  | Pass i => pinLow i = true /\ elapsed (millis i AtButton) tp < 5000
  | ButtonEdge _ => True
  end.

(** A pass that receives a packet carrying [k] in time: the no-signal check
    reads at most 3000 ms after the reception and the idle check at most 30
    minutes after [ta]. *)
Definition sustains (k ta : Z) (i : Input) : Prop :=
  carries k i
  /\ elapsed (millis i AtNoSignal) (millis i AtRecv) <= PACKET_TIMEOUT_MS
  /\ elapsed (millis i AtIdle) ta <= STRIP_TIMEOUT_MS.

(** The pass ending in [s] rendered Off: Diagnostic, or neither Diagnostic nor
    Test with a sequence index that [runSequence] maps to Off. *)
Definition rendersOff (s : State) : Prop :=
  inDiagnosticMode s = true
  \/ (inTestMode s = false /\ (currentSequence s < 1 \/ 5 < currentSequence s)).

(** Between passes: nothing is waiting to be flushed, the strip has latched the
    buffer, and a strip marked off has a blank buffer. *)
Definition coalesced (s : State) : Prop :=
  frameDirty s = false
  /\ (exists older, shown s = pixels s :: older)
  /\ (stripIsOff s = true -> pixels s = clearPixels (pixels s)).

(** *** Sample inputs

    Concrete passes on which the model is run: every reading of [millis()] in the
    pass returns [now].  [refDriver] stands in for the colour conversions of the
    strip driver. *)

Definition refDriver : NeoPixelColor :=
  {| ColorHSV := fun hue => hue; gamma32 := fun c => c |}.

Definition idle (now : Z) : Input :=
  {| radio := None; pinLow := false; millis := fun _ => now; rnd := 0 |}.

Definition held (now : Z) : Input :=
  {| radio := None; pinLow := true; millis := fun _ => now; rnd := 0 |}.

Definition receive (now k : Z) : Input :=
  {| radio := Some ({| packetCounter := 1; sequenceId := k |}, -40);
     pinLow := false; millis := fun _ => now; rnd := 0 |}.

Definition receiveHeld (now k : Z) : Input :=
  {| radio := Some ({| packetCounter := 1; sequenceId := k |}, -40);
     pinLow := true; millis := fun _ => now; rnd := 0 |}.

Definition erased : EEPROM := fun _ => 255.

Definition powerOn : BootInput :=
  {| bootPinLow := false; bootPolls := []; radioInitOk := true; radioFreqOk := true;
     bootMillis := 1200 |}.

(** The state in which [loop()] starts after a power-on with the button released. *)
Definition booted : State :=
  match setup powerOn erased with
  | Running s _ => s
  | _ => initial
  end.

(** [count] passes, [period] ms apart from [first] on, each receiving a packet
    with the same sequence: the heartbeat of a remote left alone. *)
Definition heartbeats (first period : Z) (count : nat) (k : Z) : list Input :=
  map (fun n => receive (first + period * Z.of_nat n) k) (seq 0 count).

(** A run that leaves the receiver in Diagnostic with a stored sequence: the
    button is pressed at 2000 ms and still held at 7000 ms, released, pressed again
    at 9000 ms, and while it is down a packet with sequence 3 arrives. *)
Definition toDiagnostic : list Event :=
  [ButtonEdge 2000; Pass (held 7000); Pass (idle 8000); ButtonEdge 9000;
   Pass (receiveHeld 9100 3)].

Definition inDiagnostic : State := run (drv := refDriver) toDiagnostic booted.

(** The receiver in Diagnostic with the button released: pressed at 2000 ms,
    still held at 7000 ms, released by 8000 ms. *)
Definition diagnosticIdle : State :=
  run (drv := refDriver) [ButtonEdge 2000; Pass (held 7000); Pass (idle 8000)] booted.

(** A tap that switches to Test: pressed at 2000 ms, released by 2100 ms. *)
Definition toTest : list Event := [ButtonEdge 2000; Pass (idle 2100)].

(** A run that enters Diagnostic from Test: after that tap the button is
    pressed at 3000 ms and still held at 8000 ms, released by 8100 ms, and pressed
    again at 9000 ms. *)
Definition testToDiagnostic : list Event :=
  [ButtonEdge 2000; Pass (idle 2100); ButtonEdge 3000; Pass (held 8000);
   Pass (idle 8100); ButtonEdge 9000].

(** *** Sample polls of the setup loop *)


(** *** Shape of the strip and of the animation cursors *)

(** The buffer and every frame latched so far hold [NUM_LEDS] pixels. *)
Definition stripGeometry (s : State) : Prop :=
  length (pixels s) = Z.to_nat NUM_LEDS
  /\ Forall (fun frame => length frame = Z.to_nat NUM_LEDS) (shown s).

(** The cursor of Chase and of Wipe, when one of them is the animation selected
    outside Test, and the position and direction of Cylon. *)
Definition cursorsInRange (s : State) : Prop :=
  (inTestMode s = false -> currentSequence s = 2 -> 0 <= animationStep s < NUM_LEDS)
  /\ (inTestMode s = false -> currentSequence s = 3 ->
      0 <= animationStep s < 2 * NUM_LEDS)
  /\ 0 <= pos s <= NUM_LEDS - 1
  /\ (dir s = 1 \/ dir s = -1)
  /\ (pos s = 0 -> dir s = 1)
  /\ (pos s = NUM_LEDS - 1 -> dir s = -1).

(** *** Colour channels

    The three bytes [fadeAll] takes out of a packed colour. *)

Definition redOf (c : Z) : Z := Z.land (Z.shiftr c 16) 255.
Definition greenOf (c : Z) : Z := Z.land (Z.shiftr c 8) 255.
Definition blueOf (c : Z) : Z := Z.land c 255.

(** A read-back that returns, channel by channel, no more than was written. *)
Definition dimmer (readBack : Z -> Z) : Prop :=
  forall c,
    redOf (readBack c) <= redOf c /\ greenOf (readBack c) <= greenOf c
    /\ blueOf (readBack c) <= blueOf c.

(** One pass of the loop of [fadeAll] over colours that come back through
    [readBack]. *)
Definition fadeThrough (readBack : Z -> Z) (amount : Z) (px : list Z) : list Z :=
  map (fun c => fadePixel amount (readBack c)) px.

(** A lossy read-back for the concrete runs: every channel scaled into a byte at
    brightness 100 and back, [(((ch * 101) >> 8) << 8) / 101]. *)
Definition scaledChannel (ch : Z) : Z := Z.shiftl (Z.shiftr (ch * 101) 8) 8 / 101.

Definition scaledReadBack (c : Z) : Z :=
  Color (scaledChannel (redOf c)) (scaledChannel (greenOf c)) (scaledChannel (blueOf c)).

(** The variables that part 3 of [loop()] and the interrupt handler read and
    write, with the identifier. *)
Definition buttonView (s : State) :=
  (propID s, inTestMode s, inSetupMode s, inDiagnosticMode s, buttonPressFlag s,
   buttonPressTime s, last_interrupt_time s).

(** Two events that agree on the button: the same pin level and the same reading
    of [millis()] in part 3, or the same falling edge. *)
Definition sameButton (e e' : Event) : Prop :=
  match e, e' with
  | Pass i, Pass i' => pinLow i = pinLow i' /\ millis i AtButton = millis i' AtButton
  | ButtonEdge t, ButtonEdge t' => t = t'
  | _, _ => False
  end.

(** Two deliveries of the radio that differ at most in [packetCounter]. *)
Definition sameDelivery (a b : option (RadioPacket * Z)) : Prop :=
  match a, b with
  | None, None => True
  | Some (p, r), Some (p', r') => sequenceId p = sequenceId p' /\ r = r'
  | _, _ => False
  end.

Definition sameUpToCounter (e e' : Event) : Prop :=
  match e, e' with
  | Pass i, Pass i' =>
      sameDelivery (radio i) (radio i') /\ pinLow i = pinLow i'
      /\ millis i = millis i' /\ rnd i = rnd i'
  | ButtonEdge t, ButtonEdge t' => t = t'
  | _, _ => False
  end.

(** The display shows identifier [id] and a label of the main loop. *)
Definition readoutShows (id : Z) (s : State) : Prop :=
  exists r, oled s = Some r /\ ro_id r = id /\ ro_mode r <> LblSetup.

(** The frame of Wipe after [k] steps on a strip of [n] pixels: during the
    first [n] steps blue fills the strip from pixel 0, during the next [n] black
    follows it. *)
Definition wipePixel (n k idx : Z) : Z :=
  if k <=? n
  then (if idx <? k then Color 0 0 255 else 0)
  else (if idx <? k - n then 0 else Color 0 0 255).

Definition wipeFrame (n k : Z) : list Z :=
  map (fun idx => wipePixel n k (Z.of_nat idx)) (seq 0 (Z.to_nat n)).

(** Wipe is the animation selected and rendered. *)
Definition wiping (s : State) : Prop :=
  inDiagnosticMode s = false /\ inTestMode s = false /\ currentSequence s = 3.

(** What holds of the buffer when a pass renders: a strip marked off is blank,
    and under Wipe the buffer is the frame of the current step. *)
Definition wipeRendering (s : State) : Prop :=
  length (pixels s) = Z.to_nat NUM_LEDS
  /\ inTestMode s && inDiagnosticMode s = false
  /\ (stripIsOff s = true -> pixels s = clearPixels (pixels s))
  /\ (wiping s ->
      0 <= animationStep s < 2 * NUM_LEDS
      /\ pixels s = wipeFrame NUM_LEDS (animationStep s)).

(** Between passes the buffer is moreover blank in Diagnostic. *)
Definition wipeInvariant (s : State) : Prop :=
  wipeRendering s
  /\ (inDiagnosticMode s = true -> pixels s = clearPixels (pixels s)).


End Receiver.

(** * The handheld remote *)

Module Remote.

Inductive PinLevel := LOW | HIGH.

Definition level_eqb (a b : PinLevel) : bool :=
  match a, b with
  | LOW, LOW | HIGH, HIGH => true
  | _, _ => false
  end.

Definition HEARTBEAT_INTERVAL : Z := 500.
Definition LCD_TIMEOUT_MS : Z := 300000.
Definition DEBOUNCE_DELAY_MS : Z := 50.

Definition RadioPacket := Wire.RadioPacket.

(** *** Globals of the sketch

    [sent] lists the packets handed to [driver.send], newest first; [lcd] holds the
    sequence and the packet count last printed by [updateDisplay]. *)

Record State := {
  currentSequence : Z;
  lastHeartbeatTime : Z;
  packetCounter : Z;
  displayNeedsUpdate : bool;
  lastActivityTime : Z;
  lcdBacklightOn : bool;
  cycleButtonState : PinLevel;
  lastCycleButtonState : PinLevel;
  lastCycleDebounceTime : Z;
  offButtonState : PinLevel;
  lastOffButtonState : PinLevel;
  lastOffDebounceTime : Z;
  ledIsOn : bool;
  ledOnTime : Z;
  sent : list RadioPacket;
  lcd : Z * Z
}.

Definition set_currentSequence (v : Z) (s : State) : State :=
  {| currentSequence := v; lastHeartbeatTime := lastHeartbeatTime s;
     packetCounter := packetCounter s; displayNeedsUpdate := displayNeedsUpdate s;
     lastActivityTime := lastActivityTime s; lcdBacklightOn := lcdBacklightOn s;
     cycleButtonState := cycleButtonState s; lastCycleButtonState := lastCycleButtonState s;
     lastCycleDebounceTime := lastCycleDebounceTime s; offButtonState := offButtonState s;
     lastOffButtonState := lastOffButtonState s;
     lastOffDebounceTime := lastOffDebounceTime s; ledIsOn := ledIsOn s;
     ledOnTime := ledOnTime s; sent := sent s; lcd := lcd s |}.

Definition set_lastHeartbeatTime (v : Z) (s : State) : State :=
  {| currentSequence := currentSequence s; lastHeartbeatTime := v;
     packetCounter := packetCounter s; displayNeedsUpdate := displayNeedsUpdate s;
     lastActivityTime := lastActivityTime s; lcdBacklightOn := lcdBacklightOn s;
     cycleButtonState := cycleButtonState s; lastCycleButtonState := lastCycleButtonState s;
     lastCycleDebounceTime := lastCycleDebounceTime s; offButtonState := offButtonState s;
     lastOffButtonState := lastOffButtonState s;
     lastOffDebounceTime := lastOffDebounceTime s; ledIsOn := ledIsOn s;
     ledOnTime := ledOnTime s; sent := sent s; lcd := lcd s |}.

Definition set_packetCounter (v : Z) (s : State) : State :=
  {| currentSequence := currentSequence s; lastHeartbeatTime := lastHeartbeatTime s;
     packetCounter := v; displayNeedsUpdate := displayNeedsUpdate s;
     lastActivityTime := lastActivityTime s; lcdBacklightOn := lcdBacklightOn s;
     cycleButtonState := cycleButtonState s; lastCycleButtonState := lastCycleButtonState s;
     lastCycleDebounceTime := lastCycleDebounceTime s; offButtonState := offButtonState s;
     lastOffButtonState := lastOffButtonState s;
     lastOffDebounceTime := lastOffDebounceTime s; ledIsOn := ledIsOn s;
     ledOnTime := ledOnTime s; sent := sent s; lcd := lcd s |}.

Definition set_displayNeedsUpdate (v : bool) (s : State) : State :=
  {| currentSequence := currentSequence s; lastHeartbeatTime := lastHeartbeatTime s;
     packetCounter := packetCounter s; displayNeedsUpdate := v;
     lastActivityTime := lastActivityTime s; lcdBacklightOn := lcdBacklightOn s;
     cycleButtonState := cycleButtonState s; lastCycleButtonState := lastCycleButtonState s;
     lastCycleDebounceTime := lastCycleDebounceTime s; offButtonState := offButtonState s;
     lastOffButtonState := lastOffButtonState s;
     lastOffDebounceTime := lastOffDebounceTime s; ledIsOn := ledIsOn s;
     ledOnTime := ledOnTime s; sent := sent s; lcd := lcd s |}.

Definition set_lastActivityTime (v : Z) (s : State) : State :=
  {| currentSequence := currentSequence s; lastHeartbeatTime := lastHeartbeatTime s;
     packetCounter := packetCounter s; displayNeedsUpdate := displayNeedsUpdate s;
     lastActivityTime := v; lcdBacklightOn := lcdBacklightOn s;
     cycleButtonState := cycleButtonState s; lastCycleButtonState := lastCycleButtonState s;
     lastCycleDebounceTime := lastCycleDebounceTime s; offButtonState := offButtonState s;
     lastOffButtonState := lastOffButtonState s;
     lastOffDebounceTime := lastOffDebounceTime s; ledIsOn := ledIsOn s;
     ledOnTime := ledOnTime s; sent := sent s; lcd := lcd s |}.

Definition set_lcdBacklightOn (v : bool) (s : State) : State :=
  {| currentSequence := currentSequence s; lastHeartbeatTime := lastHeartbeatTime s;
     packetCounter := packetCounter s; displayNeedsUpdate := displayNeedsUpdate s;
     lastActivityTime := lastActivityTime s; lcdBacklightOn := v;
     cycleButtonState := cycleButtonState s; lastCycleButtonState := lastCycleButtonState s;
     lastCycleDebounceTime := lastCycleDebounceTime s; offButtonState := offButtonState s;
     lastOffButtonState := lastOffButtonState s;
     lastOffDebounceTime := lastOffDebounceTime s; ledIsOn := ledIsOn s;
     ledOnTime := ledOnTime s; sent := sent s; lcd := lcd s |}.

Definition set_cycleButtonState (v : PinLevel) (s : State) : State :=
  {| currentSequence := currentSequence s; lastHeartbeatTime := lastHeartbeatTime s;
     packetCounter := packetCounter s; displayNeedsUpdate := displayNeedsUpdate s;
     lastActivityTime := lastActivityTime s; lcdBacklightOn := lcdBacklightOn s;
     cycleButtonState := v; lastCycleButtonState := lastCycleButtonState s;
     lastCycleDebounceTime := lastCycleDebounceTime s; offButtonState := offButtonState s;
     lastOffButtonState := lastOffButtonState s;
     lastOffDebounceTime := lastOffDebounceTime s; ledIsOn := ledIsOn s;
     ledOnTime := ledOnTime s; sent := sent s; lcd := lcd s |}.

Definition set_lastCycleButtonState (v : PinLevel) (s : State) : State :=
  {| currentSequence := currentSequence s; lastHeartbeatTime := lastHeartbeatTime s;
     packetCounter := packetCounter s; displayNeedsUpdate := displayNeedsUpdate s;
     lastActivityTime := lastActivityTime s; lcdBacklightOn := lcdBacklightOn s;
     cycleButtonState := cycleButtonState s; lastCycleButtonState := v;
     lastCycleDebounceTime := lastCycleDebounceTime s; offButtonState := offButtonState s;
     lastOffButtonState := lastOffButtonState s;
     lastOffDebounceTime := lastOffDebounceTime s; ledIsOn := ledIsOn s;
     ledOnTime := ledOnTime s; sent := sent s; lcd := lcd s |}.

Definition set_lastCycleDebounceTime (v : Z) (s : State) : State :=
  {| currentSequence := currentSequence s; lastHeartbeatTime := lastHeartbeatTime s;
     packetCounter := packetCounter s; displayNeedsUpdate := displayNeedsUpdate s;
     lastActivityTime := lastActivityTime s; lcdBacklightOn := lcdBacklightOn s;
     cycleButtonState := cycleButtonState s; lastCycleButtonState := lastCycleButtonState s;
     lastCycleDebounceTime := v; offButtonState := offButtonState s;
     lastOffButtonState := lastOffButtonState s;
     lastOffDebounceTime := lastOffDebounceTime s; ledIsOn := ledIsOn s;
     ledOnTime := ledOnTime s; sent := sent s; lcd := lcd s |}.

Definition set_offButtonState (v : PinLevel) (s : State) : State :=
  {| currentSequence := currentSequence s; lastHeartbeatTime := lastHeartbeatTime s;
     packetCounter := packetCounter s; displayNeedsUpdate := displayNeedsUpdate s;
     lastActivityTime := lastActivityTime s; lcdBacklightOn := lcdBacklightOn s;
     cycleButtonState := cycleButtonState s; lastCycleButtonState := lastCycleButtonState s;
     lastCycleDebounceTime := lastCycleDebounceTime s; offButtonState := v;
     lastOffButtonState := lastOffButtonState s;
     lastOffDebounceTime := lastOffDebounceTime s; ledIsOn := ledIsOn s;
     ledOnTime := ledOnTime s; sent := sent s; lcd := lcd s |}.

Definition set_lastOffButtonState (v : PinLevel) (s : State) : State :=
  {| currentSequence := currentSequence s; lastHeartbeatTime := lastHeartbeatTime s;
     packetCounter := packetCounter s; displayNeedsUpdate := displayNeedsUpdate s;
     lastActivityTime := lastActivityTime s; lcdBacklightOn := lcdBacklightOn s;
     cycleButtonState := cycleButtonState s; lastCycleButtonState := lastCycleButtonState s;
     lastCycleDebounceTime := lastCycleDebounceTime s; offButtonState := offButtonState s;
     lastOffButtonState := v; lastOffDebounceTime := lastOffDebounceTime s;
     ledIsOn := ledIsOn s; ledOnTime := ledOnTime s; sent := sent s; lcd := lcd s |}.

Definition set_lastOffDebounceTime (v : Z) (s : State) : State :=
  {| currentSequence := currentSequence s; lastHeartbeatTime := lastHeartbeatTime s;
     packetCounter := packetCounter s; displayNeedsUpdate := displayNeedsUpdate s;
     lastActivityTime := lastActivityTime s; lcdBacklightOn := lcdBacklightOn s;
     cycleButtonState := cycleButtonState s; lastCycleButtonState := lastCycleButtonState s;
     lastCycleDebounceTime := lastCycleDebounceTime s; offButtonState := offButtonState s;
     lastOffButtonState := lastOffButtonState s; lastOffDebounceTime := v;
     ledIsOn := ledIsOn s; ledOnTime := ledOnTime s; sent := sent s; lcd := lcd s |}.

Definition set_ledIsOn (v : bool) (s : State) : State :=
  {| currentSequence := currentSequence s; lastHeartbeatTime := lastHeartbeatTime s;
     packetCounter := packetCounter s; displayNeedsUpdate := displayNeedsUpdate s;
     lastActivityTime := lastActivityTime s; lcdBacklightOn := lcdBacklightOn s;
     cycleButtonState := cycleButtonState s; lastCycleButtonState := lastCycleButtonState s;
     lastCycleDebounceTime := lastCycleDebounceTime s; offButtonState := offButtonState s;
     lastOffButtonState := lastOffButtonState s;
     lastOffDebounceTime := lastOffDebounceTime s; ledIsOn := v; ledOnTime := ledOnTime s;
     sent := sent s; lcd := lcd s |}.

Definition set_ledOnTime (v : Z) (s : State) : State :=
  {| currentSequence := currentSequence s; lastHeartbeatTime := lastHeartbeatTime s;
     packetCounter := packetCounter s; displayNeedsUpdate := displayNeedsUpdate s;
     lastActivityTime := lastActivityTime s; lcdBacklightOn := lcdBacklightOn s;
     cycleButtonState := cycleButtonState s; lastCycleButtonState := lastCycleButtonState s;
     lastCycleDebounceTime := lastCycleDebounceTime s; offButtonState := offButtonState s;
     lastOffButtonState := lastOffButtonState s;
     lastOffDebounceTime := lastOffDebounceTime s; ledIsOn := ledIsOn s; ledOnTime := v;
     sent := sent s; lcd := lcd s |}.

Definition set_sent (v : list RadioPacket) (s : State) : State :=
  {| currentSequence := currentSequence s; lastHeartbeatTime := lastHeartbeatTime s;
     packetCounter := packetCounter s; displayNeedsUpdate := displayNeedsUpdate s;
     lastActivityTime := lastActivityTime s; lcdBacklightOn := lcdBacklightOn s;
     cycleButtonState := cycleButtonState s; lastCycleButtonState := lastCycleButtonState s;
     lastCycleDebounceTime := lastCycleDebounceTime s; offButtonState := offButtonState s;
     lastOffButtonState := lastOffButtonState s;
     lastOffDebounceTime := lastOffDebounceTime s; ledIsOn := ledIsOn s;
     ledOnTime := ledOnTime s; sent := v; lcd := lcd s |}.

Definition set_lcd (v : Z * Z) (s : State) : State :=
  {| currentSequence := currentSequence s; lastHeartbeatTime := lastHeartbeatTime s;
     packetCounter := packetCounter s; displayNeedsUpdate := displayNeedsUpdate s;
     lastActivityTime := lastActivityTime s; lcdBacklightOn := lcdBacklightOn s;
     cycleButtonState := cycleButtonState s; lastCycleButtonState := lastCycleButtonState s;
     lastCycleDebounceTime := lastCycleDebounceTime s; offButtonState := offButtonState s;
     lastOffButtonState := lastOffButtonState s;
     lastOffDebounceTime := lastOffDebounceTime s; ledIsOn := ledIsOn s;
     ledOnTime := ledOnTime s; sent := sent s; lcd := v |}.

Definition initial : State :=
  {| currentSequence := 0; lastHeartbeatTime := 0; packetCounter := 0;
     displayNeedsUpdate := true; lastActivityTime := 0; lcdBacklightOn := true;
     cycleButtonState := HIGH; lastCycleButtonState := HIGH; lastCycleDebounceTime := 0;
     offButtonState := HIGH; lastOffButtonState := HIGH; lastOffDebounceTime := 0;
     ledIsOn := false; ledOnTime := 0; sent := []; lcd := (0, 0) |}.

(** *** Inputs of one pass through [loop()]: the two pin levels and the
    readings of [millis()], one per place where it is called. *)

Inductive Site :=
  | CycleEdge | CycleSettle | CycleActivity | CycleLed | CycleBeat
  | OffEdge | OffSettle | OffActivity | OffLed | OffBeat
  | BeatCheck | BeatStamp | BeatLed
  | LcdCheck | LedCheck.

Record Input := {
  cycleReading : PinLevel;
  offReading : PinLevel;
  millis : Site -> Z
}.

(** *** Transmission

    [ledTime] is the reading of [millis()] taken inside the call. *)

Definition transmitSequence (ledTime : Z) (s : State) : State :=
  let counter := u32 (packetCounter s + 1) in
  let s := set_packetCounter counter s in
  let packet := {| Wire.packetCounter := packetCounter s;
                   Wire.sequenceId := currentSequence s |} in
  let s := set_sent (packet :: sent s) s in
  set_ledOnTime ledTime (set_ledIsOn true s).

Definition updateDisplay (s : State) : State :=
  set_displayNeedsUpdate false (set_lcd (currentSequence s, packetCounter s) s).

(** *** Button handling *)

Definition checkCycleButtonPress (i : Input) (s : State) : bool * State :=
  let reading := cycleReading i in
  let s :=
    if negb (level_eqb reading (lastCycleButtonState s))
    then set_lastCycleDebounceTime (millis i CycleEdge) s
    else s in
  let ps :=
    if DEBOUNCE_DELAY_MS <? elapsed (millis i CycleSettle) (lastCycleDebounceTime s) then
      if negb (level_eqb reading (cycleButtonState s)) then
        let s := set_cycleButtonState reading s in
        (level_eqb (cycleButtonState s) LOW, s)
      else (false, s)
    else (false, s) in
  (fst ps, set_lastCycleButtonState reading (snd ps)).

Definition checkOffButtonPress (i : Input) (s : State) : bool * State :=
  let reading := offReading i in
  let s :=
    if negb (level_eqb reading (lastOffButtonState s))
    then set_lastOffDebounceTime (millis i OffEdge) s
    else s in
  let ps :=
    if DEBOUNCE_DELAY_MS <? elapsed (millis i OffSettle) (lastOffDebounceTime s) then
      if negb (level_eqb reading (offButtonState s)) then
        let s := set_offButtonState reading s in
        (level_eqb (offButtonState s) LOW, s)
      else (false, s)
    else (false, s) in
  (fst ps, set_lastOffButtonState reading (snd ps)).

(** *** [loop()] *)

(** 1. Handle Input: the cycle button *)
Definition onCyclePress (i : Input) (s : State) : State :=
  let s := set_lastActivityTime (millis i CycleActivity) s in
  let s := if negb (lcdBacklightOn s) then set_lcdBacklightOn true s else s in
  let s := set_currentSequence (u8 (currentSequence s + 1)) s in
  let s := if 5 <? currentSequence s then set_currentSequence 0 s else s in
  let s := transmitSequence (millis i CycleLed) s in
  let s := set_lastHeartbeatTime (millis i CycleBeat) s in
  set_displayNeedsUpdate true s.

Definition handleCycleButton (i : Input) (s : State) : State :=
  let ps := checkCycleButtonPress i s in
  if fst ps then onCyclePress i (snd ps) else snd ps.

(** 1. Handle Input: the off button *)
Definition onOffPress (i : Input) (s : State) : State :=
  let s := set_lastActivityTime (millis i OffActivity) s in
  let s := if negb (lcdBacklightOn s) then set_lcdBacklightOn true s else s in
  if negb (currentSequence s =? 0) then
    let s := set_currentSequence 0 s in
    let s := transmitSequence (millis i OffLed) s in
    let s := set_lastHeartbeatTime (millis i OffBeat) s in
    set_displayNeedsUpdate true s
  else s.

Definition handleOffButton (i : Input) (s : State) : State :=
  let ps := checkOffButtonPress i s in
  if fst ps then onOffPress i (snd ps) else snd ps.

(** 2. Handle Timed Actions *)
Definition heartbeatDue (i : Input) (s : State) : bool :=
  HEARTBEAT_INTERVAL <=? elapsed (millis i BeatCheck) (lastHeartbeatTime s).

Definition handleHeartbeat (i : Input) (s : State) : State :=
  if heartbeatDue i s then
    let s := set_lastHeartbeatTime (millis i BeatStamp) s in
    let s := transmitSequence (millis i BeatLed) s in
    set_displayNeedsUpdate true s
  else s.

Definition handleBacklight (i : Input) (s : State) : State :=
  if lcdBacklightOn s && (LCD_TIMEOUT_MS <? elapsed (millis i LcdCheck) (lastActivityTime s))
  then set_lcdBacklightOn false s
  else s.

Definition handleLed (i : Input) (s : State) : State :=
  if ledIsOn s && (50 <=? elapsed (millis i LedCheck) (ledOnTime s))
  then set_ledIsOn false s
  else s.

(** 3. Update Display (if needed) *)
Definition refreshDisplay (s : State) : State :=
  if displayNeedsUpdate s then updateDisplay s else s.

Definition loop (i : Input) (s : State) : State :=
  let s := handleCycleButton i s in
  let s := handleOffButton i s in
  let s := handleHeartbeat i s in
  let s := handleBacklight i s in
  let s := handleLed i s in
  refreshDisplay s.

Fixpoint run (l : list Input) (s : State) : State :=
  match l with
  | [] => s
  | i :: rest => run rest (loop i s)
  end.

(** *** [setup()]: with the radio initialised, [loop()] starts from here;
    [now] is the reading of [millis()]. *)
Definition setup (now : Z) : State := updateDisplay (set_lastActivityTime now initial).

(** The sequence chosen by a press of the cycle button, as the specification
    puts it: the next of 0..5, wrapping to 0. *)
Definition nextSequence (k : Z) : Z := if k =? 5 then 0 else k + 1.

(** *** Sample inputs: every reading of [millis()] in the pass returns [now]. *)

Definition sample (cycle off : PinLevel) (now : Z) : Input :=
  {| cycleReading := cycle; offReading := off; millis := fun _ => now |}.

Definition booted : State := setup 1100.

(** What the two debounce routines report in the successive passes of a run:
    the cycle button first, then the off button. *)
Fixpoint presses (l : list Input) (s : State) : list (bool * bool) :=
  match l with
  | [] => []
  | i :: rest =>
      (fst (checkCycleButtonPress i s),
       fst (checkOffButtonPress i (handleCycleButton i s)))
      :: presses rest (loop i s)
  end.

(** Every packet of the log carries its rank in the order of sending, counted
    from 1, as a 32-bit number. *)
Fixpoint numbered (log : list RadioPacket) : Prop :=
  match log with
  | [] => True
  | p :: older =>
      Wire.packetCounter p = u32 (Z.of_nat (length log)) /\ numbered older
  end.

(** The sequence is one of 0..5 and so is that of every packet sent; the newest
    packet carries the current sequence; the counter is the number of packets
    sent. *)
Definition wellFormed (s : State) : Prop :=
  0 <= currentSequence s <= 5
  /\ Forall (fun p => 0 <= Wire.sequenceId p <= 5) (sent s)
  /\ (forall p older, sent s = p :: older -> Wire.sequenceId p = currentSequence s)
  /\ numbered (sent s)
  /\ packetCounter s = u32 (Z.of_nat (length (sent s))).

(** The LCD shows the current sequence and packet count. *)
Definition lcdFresh (s : State) : Prop :=
  displayNeedsUpdate s = false /\ lcd s = (currentSequence s, packetCounter s).

(** Unless a redraw is pending, the LCD shows the current values. *)
Definition lcdPending (s : State) : Prop :=
  displayNeedsUpdate s = false -> lcd s = (currentSequence s, packetCounter s).

(** The variables of each debounce routine. *)
Definition cycleView (s : State) :=
  (cycleButtonState s, lastCycleButtonState s, lastCycleDebounceTime s).

Definition offView (s : State) :=
  (offButtonState s, lastOffButtonState s, lastOffDebounceTime s).


End Remote.

(** * Properties of the receiver *)

Module ReceiverFacts.

Import Wire Receiver.

Ltac split_ifs :=
  repeat match goal with
         | |- context [if ?b then _ else _] => destruct b eqn:?
         end.

Ltac unfold_animations :=
  unfold animationOff, animationRainbow, animationChase, animationWipe,
    animationSparkle, animationCylon, fadeAll, stampAnimation, markAllOff,
    markDirty, strip_clear.

Section WithDriver.
Context {drv : NeoPixelColor}.

Lemma runSequence_cases (i : Input) (s : State) :
  runSequence i s = animationOff s \/ runSequence i s = animationRainbow i s \/
  runSequence i s = animationChase i s \/ runSequence i s = animationWipe i s \/
  runSequence i s = animationSparkle i s \/ runSequence i s = animationCylon i s.
Proof.
  unfold runSequence.
  destruct (currentSequence s) as [|p|p]; auto;
    repeat (destruct p as [p|p|]; auto 10).
Qed.

Lemma runLEDs_cases (i : Input) (s : State) :
  runLEDs i s = animationOff s \/ runLEDs i s = animationRainbow i s \/
  runLEDs i s = animationChase i s \/ runLEDs i s = animationWipe i s \/
  runLEDs i s = animationSparkle i s \/ runLEDs i s = animationCylon i s.
Proof.
  unfold runLEDs. split_ifs; auto. apply runSequence_cases.
Qed.

(** The rendering half of a pass (parts 4 and 5 and the flush) leaves the
    controller's variables alone. *)
Lemma control_runLEDs (i : Input) (s : State) : control (runLEDs i s) = control s.
Proof.
  destruct (runLEDs_cases i s) as [H|[H|[H|[H|[H|H]]]]]; rewrite H;
    unfold_animations; split_ifs; reflexivity.
Qed.

Lemma control_showIfDirty (s : State) : control (showIfDirty s) = control s.
Proof. unfold showIfDirty. split_ifs; reflexivity. Qed.

Lemma control_refreshDisplay (i : Input) (s : State) :
  control (refreshDisplay i s) = control s.
Proof. unfold refreshDisplay. split_ifs; reflexivity. Qed.

Lemma control_loop (i : Input) (s : State) :
  control (loop i s)
  = control (handleButtonInput i (handleTimeouts i (handleRadioInput i s))).
Proof.
  unfold loop.
  now rewrite control_refreshDisplay, control_showIfDirty, control_runLEDs.
Qed.

Ltac control_field :=
  match goal with
  | H : control ?a = control ?b |- _ =>
      unfold control in H; injection H; intros; congruence
  end.

Lemma currentSequence_loop (i : Input) (s : State) :
  currentSequence (loop i s)
  = currentSequence (handleButtonInput i (handleTimeouts i (handleRadioInput i s))).
Proof. pose proof (control_loop i s). control_field. Qed.

Lemma lastPacketTime_loop (i : Input) (s : State) :
  lastPacketTime (loop i s) = lastPacketTime (handleRadioInput i s).
Proof.
  pose proof (control_loop i s) as H.
  assert (lastPacketTime (handleButtonInput i (handleTimeouts i (handleRadioInput i s)))
          = lastPacketTime (handleRadioInput i s)) as E.
  { unfold handleButtonInput, handleTimeouts, stripTimeout, noSignalTimeout.
    split_ifs; reflexivity. }
  rewrite <- E. control_field.
Qed.

(** *** The sequence index only moves to zero outside part 1 *)

Lemma noSignalTimeout_seq (i : Input) (s : State) :
  currentSequence (noSignalTimeout i s) = 0
  \/ currentSequence (noSignalTimeout i s) = currentSequence s.
Proof. unfold noSignalTimeout. split_ifs; auto. Qed.

Lemma noSignalTimeout_fires (i : Input) (s : State) :
  PACKET_TIMEOUT_MS < elapsed (millis i AtNoSignal) (lastPacketTime s) ->
  currentSequence (noSignalTimeout i s) = 0.
Proof.
  intros H. unfold noSignalTimeout.
  apply Z.ltb_lt in H. rewrite H.
  destruct (currentSequence s =? 0) eqn:E; simpl; auto.
  now apply Z.eqb_eq in E.
Qed.

Lemma noSignalTimeout_inert (i : Input) (s : State) :
  elapsed (millis i AtNoSignal) (lastPacketTime s) <= PACKET_TIMEOUT_MS ->
  noSignalTimeout i s = s.
Proof.
  intros H. unfold noSignalTimeout.
  destruct (Z.ltb_spec PACKET_TIMEOUT_MS (elapsed (millis i AtNoSignal) (lastPacketTime s)));
    [lia | reflexivity].
Qed.

Lemma stripTimeout_seq (i : Input) (s : State) :
  currentSequence (stripTimeout i s) = 0
  \/ currentSequence (stripTimeout i s) = currentSequence s.
Proof. unfold stripTimeout. split_ifs; auto. Qed.

Lemma handleButtonInput_seq (i : Input) (s : State) :
  currentSequence (handleButtonInput i s) = 0
  \/ currentSequence (handleButtonInput i s) = currentSequence s.
Proof. unfold handleButtonInput. split_ifs; auto. Qed.

Lemma after_radio_seq (i : Input) (s : State) :
  currentSequence (handleButtonInput i (handleTimeouts i s)) = 0
  \/ currentSequence (handleButtonInput i (handleTimeouts i s)) = currentSequence s.
Proof.
  unfold handleTimeouts.
  destruct (handleButtonInput_seq i (stripTimeout i (noSignalTimeout i s))) as [H|H];
    [now left | rewrite H].
  destruct (stripTimeout_seq i (noSignalTimeout i s)) as [H1|H1];
    [now left | rewrite H1].
  apply noSignalTimeout_seq.
Qed.

Lemma handleRadioInput_silent (i : Input) (s : State) :
  radio i = None -> handleRadioInput i s = s.
Proof. intros H. unfold handleRadioInput. now rewrite H. Qed.

Lemma button_isr_frame (t : Z) (s : State) :
  currentSequence (button_isr t s) = currentSequence s
  /\ lastPacketTime (button_isr t s) = lastPacketTime s
  /\ lastActiveAnimationTime (button_isr t s) = lastActiveAnimationTime s
  /\ inDiagnosticMode (button_isr t s) = inDiagnosticMode s
  /\ inTestMode (button_isr t s) = inTestMode s
  /\ inSetupMode (button_isr t s) = inSetupMode s.
Proof. unfold button_isr. split_ifs; repeat split; reflexivity. Qed.

Lemma silent_step_keeps_off (e : Event) (s : State) :
  silent e -> currentSequence s = 0 -> currentSequence (step e s) = 0.
Proof.
  destruct e as [i|t]; cbn [step silent]; intros Hq Hz.
  - rewrite currentSequence_loop, (handleRadioInput_silent i s Hq).
    destruct (after_radio_seq i s); congruence.
  - now rewrite (proj1 (button_isr_frame t s)).
Qed.

Lemma silent_run_keeps_off (es : list Event) (s : State) :
  Forall silent es -> currentSequence s = 0 -> currentSequence (run es s) = 0.
Proof.
  revert s. induction es as [|e es IH]; cbn [run]; intros s Hq Hz; auto.
  inversion Hq; subst. apply IH; auto using silent_step_keeps_off.
Qed.

Lemma silent_step_lastPacketTime (e : Event) (s : State) :
  silent e -> lastPacketTime (step e s) = lastPacketTime s.
Proof.
  destruct e as [i|t]; cbn [step silent]; intros Hq.
  - now rewrite lastPacketTime_loop, (handleRadioInput_silent i s Hq).
  - apply button_isr_frame.
Qed.

Lemma silent_run_lastPacketTime (es : list Event) (s : State) :
  Forall silent es -> lastPacketTime (run es s) = lastPacketTime s.
Proof.
  revert s. induction es as [|e es IH]; cbn [run]; intros s Hq; auto.
  inversion Hq; subst. rewrite IH; auto using silent_step_lastPacketTime.
Qed.

Lemma run_app (es fs : list Event) (s : State) :
  run (es ++ fs) s = run fs (run es s).
Proof. revert s. induction es; cbn [run app]; auto. Qed.

Lemma no_signal_pass (i : Input) (s : State) :
  radio i = None ->
  PACKET_TIMEOUT_MS < elapsed (millis i AtNoSignal) (lastPacketTime s) ->
  currentSequence (loop i s) = 0.
Proof.
  intros Hq Ht.
  rewrite currentSequence_loop, (handleRadioInput_silent i s Hq).
  unfold handleTimeouts.
  destruct (handleButtonInput_seq i (stripTimeout i (noSignalTimeout i s))) as [H|H];
    [assumption | rewrite H].
  destruct (stripTimeout_seq i (noSignalTimeout i s)) as [H1|H1];
    [assumption | rewrite H1].
  now apply noSignalTimeout_fires.
Qed.

(** C1 (amended).  Let [t0] be the time of the last received packet, kept in
    [lastPacketTime].  However many passes and button interrupts follow without a
    packet, the pass whose no-signal check reads the clock strictly more than
    3000 ms after [t0] ends with the sequence index at 0, and the index is still 0
    after any further passes and interrupts that bring no packet.  In a pass that
    reads 3000 ms or less after [t0] the no-signal rule changes nothing. *)
Theorem no_signal_forces_off
    (s : State) (before : list Event) (fire : Input) (after : list Event) :
  Forall silent before ->
  radio fire = None ->
  PACKET_TIMEOUT_MS < elapsed (millis fire AtNoSignal) (lastPacketTime s) ->
  Forall silent after ->
  currentSequence (run (before ++ [Pass fire]) s) = 0
  /\ currentSequence (run (before ++ Pass fire :: after) s) = 0
  /\ (forall i s',
        elapsed (millis i AtNoSignal) (lastPacketTime s') <= PACKET_TIMEOUT_MS ->
        noSignalTimeout i s' = s').
Proof.
  intros Hb Hq Ht Ha.
  assert (currentSequence (loop fire (run before s)) = 0) as Hz.
  { apply no_signal_pass; auto. now rewrite silent_run_lastPacketTime. }
  split; [|split].
  - rewrite run_app. exact Hz.
  - rewrite run_app. cbn [run step]. now apply silent_run_keeps_off.
  - apply noSignalTimeout_inert.
Qed.


(** *** Button handling *)

Lemma before_button_frame (i : Input) (s : State) :
  let s' := handleTimeouts i (handleRadioInput i s) in
  buttonPressFlag s' = buttonPressFlag s /\ buttonPressTime s' = buttonPressTime s
  /\ inDiagnosticMode s' = inDiagnosticMode s /\ inTestMode s' = inTestMode s
  /\ inSetupMode s' = inSetupMode s.
Proof.
  unfold handleTimeouts, stripTimeout, noSignalTimeout, handleRadioInput.
  destruct (radio i) as [[p r]|]; cbv zeta; split_ifs; repeat split; reflexivity.
Qed.

Lemma gestureOf_before_button (i : Input) (s : State) :
  gestureOf i (handleTimeouts i (handleRadioInput i s)) = gestureOf i s.
Proof.
  destruct (before_button_frame i s) as (Hf & Ht & Hd & _).
  unfold gestureOf. now rewrite Hf, Ht, Hd.
Qed.

(** [gestureOf] names the branch that part 3 takes. *)
Lemma handleButtonInput_gesture (i : Input) (s : State) :
  handleButtonInput i s =
  match gestureOf i s with
  | NoGesture => s
  | LongHoldConfirmed =>
      set_buttonPressFlag false
        (set_currentSequence 0 (set_inTestMode false (set_inDiagnosticMode true s)))
  | ShortPress =>
      set_buttonPressFlag false
        (set_animationStep 0
           (if inDiagnosticMode s then set_inDiagnosticMode false s
            else set_currentSequence 0 (set_inTestMode (negb (inTestMode s)) s)))
  end.
Proof. unfold handleButtonInput, gestureOf. split_ifs; reflexivity. Qed.

Lemma buttons_loop (i : Input) (s : State) :
  let s' := handleButtonInput i (handleTimeouts i (handleRadioInput i s)) in
  buttonPressFlag (loop i s) = buttonPressFlag s'
  /\ buttonPressTime (loop i s) = buttonPressTime s'
  /\ inDiagnosticMode (loop i s) = inDiagnosticMode s'
  /\ inTestMode (loop i s) = inTestMode s'
  /\ inSetupMode (loop i s) = inSetupMode s'.
Proof.
  cbv zeta. pose proof (control_loop i s) as H. unfold control in H.
  injection H; intros. repeat split; congruence.
Qed.

(** What one pass does to the mode flags and the press flag, by gesture. *)
Lemma loop_gesture (i : Input) (s : State) :
  match gestureOf i s with
  | NoGesture =>
      buttonPressFlag (loop i s) = buttonPressFlag s
      /\ buttonPressTime (loop i s) = buttonPressTime s
      /\ inDiagnosticMode (loop i s) = inDiagnosticMode s
      /\ inTestMode (loop i s) = inTestMode s
  | LongHoldConfirmed =>
      buttonPressFlag (loop i s) = false
      /\ inDiagnosticMode (loop i s) = true
      /\ inTestMode (loop i s) = false
      /\ currentSequence (loop i s) = 0
  | ShortPress =>
      buttonPressFlag (loop i s) = false
      /\ inDiagnosticMode (loop i s) = false
      /\ inTestMode (loop i s)
         = (if inDiagnosticMode s then inTestMode s else negb (inTestMode s))
  end.
Proof.
  destruct (buttons_loop i s) as (Hf & Ht & Hd & Hm & _).
  pose proof (currentSequence_loop i s) as Hs.
  destruct (before_button_frame i s) as (Bf & Bt & Bd & Bm & _).
  pose proof (gestureOf_before_button i s) as Hg.
  cbv zeta in *.
  remember (handleTimeouts i (handleRadioInput i s)) as s1 eqn:E1. clear E1.
  rewrite Hf, Ht, Hd, Hm, Hs, handleButtonInput_gesture, Hg.
  destruct (gestureOf i s).
  - repeat split; assumption.
  - rewrite <- Bd, <- Bm.
    destruct (inDiagnosticMode s1) eqn:D; cbn; rewrite ?D; repeat split; reflexivity.
  - repeat split; reflexivity.
Qed.

Lemma inSetupMode_loop (i : Input) (s : State) :
  inSetupMode (loop i s) = inSetupMode s.
Proof.
  destruct (buttons_loop i s) as (_ & _ & _ & _ & H).
  destruct (before_button_frame i s) as (_ & _ & _ & _ & B).
  cbv zeta in *. rewrite H, <- B.
  unfold handleButtonInput. split_ifs; reflexivity.
Qed.

(** C2 (amended).  A pass that handles a ShortPress (press flag set, button
    released) clears the press flag and resets [animationStep] to 0 in part 3, from
    every mode.  Outside Diagnostic it toggles [inTestMode] and forces the sequence
    index to 0, which is still 0 when the pass ends.  From Diagnostic it only
    leaves Diagnostic: [inTestMode] and the stored sequence index are kept, so the
    pass ends with the index that parts 1 and 2 left. *)
Theorem short_press_transition (i : Input) (s : State) :
  gestureOf i s = ShortPress ->
  let s1 := handleTimeouts i (handleRadioInput i s) in
  let s2 := handleButtonInput i s1 in
  animationStep s2 = 0 /\ buttonPressFlag s2 = false /\ inDiagnosticMode s2 = false
  /\ (inDiagnosticMode s = false ->
      inTestMode s2 = negb (inTestMode s) /\ currentSequence s2 = 0
      /\ currentSequence (loop i s) = 0)
  /\ (inDiagnosticMode s = true ->
      inTestMode s2 = inTestMode s /\ currentSequence s2 = currentSequence s1
      /\ currentSequence (loop i s) = currentSequence s1).
Proof.
  intros Hg s1 s2.
  destruct (before_button_frame i s) as (_ & _ & Bd & Bm & _).
  pose proof (gestureOf_before_button i s) as Hg1. rewrite Hg in Hg1.
  pose proof (currentSequence_loop i s) as Hl.
  cbv zeta in *. fold s1 in Bd, Bm, Hg1, Hl. fold s2 in Hl.
  assert (s2 = set_buttonPressFlag false
                 (set_animationStep 0
                    (if inDiagnosticMode s1 then set_inDiagnosticMode false s1
                     else set_currentSequence 0
                            (set_inTestMode (negb (inTestMode s1)) s1)))) as E
      by (unfold s2; now rewrite handleButtonInput_gesture, Hg1).
  clearbody s1. rewrite Hl, E, <- Bd, <- Bm.
  destruct (inDiagnosticMode s1) eqn:D; cbn; rewrite ?D;
    repeat split; intros; try reflexivity; discriminate.
Qed.

(** *** A press held past five seconds *)

Lemma gestures_app (es fs : list Event) (s : State) :
  gestures (es ++ fs) s = gestures es s ++ gestures fs (run es s).
Proof.
  revert s. induction es as [|[i|t] es IH]; intros s; cbn [gestures app run step].
  - reflexivity.
  - f_equal. apply IH.
  - apply IH.
Qed.

Lemma last_interrupt_time_loop (i : Input) (s : State) :
  last_interrupt_time (loop i s) = last_interrupt_time s.
Proof.
  pose proof (control_loop i s) as H. unfold control in H.
  injection H as _ _ _ _ _ _ _ _ _ Hl. rewrite Hl.
  unfold handleButtonInput, handleTimeouts, stripTimeout, noSignalTimeout, handleRadioInput.
  destruct (radio i) as [[p r]|]; cbv zeta; split_ifs; reflexivity.
Qed.

Lemma button_isr_rejected (t : Z) (s : State) :
  elapsed t (last_interrupt_time s) <= 200 ->
  button_isr t s = set_last_interrupt_time t s.
Proof.
  intros H. unfold button_isr.
  destruct (Z.ltb_spec 200 (elapsed t (last_interrupt_time s))); [lia | reflexivity].
Qed.

(** The edge of the run that the handler saw last. *)
Lemma edgesRejected_app (prev : Z) (es fs : list Event) :
  edgesRejected prev (es ++ fs) ->
  edgesRejected prev es
  /\ exists prev', edgesRejected prev' fs
                   /\ forall s, last_interrupt_time s = prev ->
                                last_interrupt_time (run es s) = prev'.
Proof.
  revert prev. induction es as [|[i|t] es IH]; intros prev; cbn [app edgesRejected run step].
  - intros H. split; [exact I|]. exists prev. auto.
  - intros H. destruct (IH prev H) as (A & prev' & B & C).
    split; [exact A|]. exists prev'. split; [exact B|].
    intros s Hs. apply C. now rewrite last_interrupt_time_loop.
  - intros [Hr H]. destruct (IH t H) as (A & prev' & B & C).
    split; [auto|]. exists prev'. split; [exact B|].
    intros s Hs. apply C. unfold button_isr. split_ifs; reflexivity.
Qed.

(** Once the press flag is down, passes handle no gesture until the handler
    accepts a new edge. *)
Lemma released_flag_stays (prev : Z) (es : list Event) (s : State) :
  buttonPressFlag s = false -> last_interrupt_time s = prev -> edgesRejected prev es ->
  gestures es s = idlePasses es
  /\ buttonPressFlag (run es s) = false
  /\ inDiagnosticMode (run es s) = inDiagnosticMode s
  /\ inTestMode (run es s) = inTestMode s.
Proof.
  revert prev s. induction es as [|[i|t] es IH]; intros prev s Hf Hl He;
    cbn [gestures idlePasses run step edgesRejected] in *.
  - auto.
  - assert (gestureOf i s = NoGesture) as Hg by (unfold gestureOf; now rewrite Hf).
    pose proof (loop_gesture i s) as H. rewrite Hg in H.
    destruct H as (H1 & _ & H3 & H4).
    destruct (IH prev (loop i s)) as (I1 & I2 & I3 & I4);
      [congruence | now rewrite last_interrupt_time_loop | assumption |].
    rewrite Hg, I1, I2, I3, I4. auto.
  - destruct He as [Hr He]. rewrite <- Hl in Hr.
    rewrite (button_isr_rejected t s Hr).
    destruct (IH t (set_last_interrupt_time t s)) as (I1 & I2 & I3 & I4); auto.
Qed.

Lemma holding_keeps_press (tp prev : Z) (es : list Event) (s : State) :
  buttonPressFlag s = true -> buttonPressTime s = tp -> inDiagnosticMode s = false ->
  last_interrupt_time s = prev -> edgesRejected prev es ->
  Forall (heldBelow tp) es ->
  gestures es s = idlePasses es
  /\ buttonPressFlag (run es s) = true
  /\ buttonPressTime (run es s) = tp
  /\ inDiagnosticMode (run es s) = false.
Proof.
  revert prev s. induction es as [|[i|t] es IH]; intros prev s Hf Ht Hd Hl He Hh;
    cbn [gestures idlePasses run step edgesRejected] in *.
  - auto.
  - inversion Hh as [|? ? Hi Hh']; subst.
    cbn [heldBelow] in Hi. destruct Hi as [Hp Hy].
    assert (gestureOf i s = NoGesture) as Hg.
    { unfold gestureOf. rewrite Hf, Hp, Hd. cbn [negb andb].
      destruct (Z.leb_spec 5000 (elapsed (millis i AtButton) (buttonPressTime s)));
        [lia | reflexivity]. }
    pose proof (loop_gesture i s) as H. rewrite Hg in H.
    destruct H as (H1 & H2 & H3 & _).
    destruct (IH (last_interrupt_time s) (loop i s)) as (I1 & I2 & I3 & I4);
      try congruence; try assumption; [apply last_interrupt_time_loop|].
    rewrite Hg, I1. auto.
  - inversion Hh as [|? ? _ Hh']; subst.
    destruct He as [Hr He].
    rewrite (button_isr_rejected t s Hr).
    destruct (IH t (set_last_interrupt_time t s)) as (I1 & I2 & I3 & I4); auto.
Qed.

(** C3.  A falling edge accepted by the interrupt handler while the receiver is
    not in Diagnostic starts a press; any further edges of the run are those of a
    bouncing contact, which the handler rejects.  While the button is held and the
    press is younger than 5000 ms no gesture is handled; the first pass that sees
    the button still held at 5000 ms or more handles the long hold (Diagnostic
    entered, Test left, sequence index 0, press flag consumed); and in whatever
    passes follow, held or released, no gesture is handled at all: the long hold is
    not applied again and the release is not taken for a ShortPress, so the
    receiver stays in Diagnostic. *)
Theorem long_hold_acts_once
    (s : State) (tp : Z) (holding : list Event) (fire : Input) (later : list Event) :
  inDiagnosticMode s = false ->
  200 < elapsed tp (last_interrupt_time s) ->
  Forall (heldBelow tp) holding ->
  pinLow fire = true ->
  5000 <= elapsed (millis fire AtButton) tp ->
  edgesRejected tp (holding ++ Pass fire :: later) ->
  let s0 := button_isr tp s in
  let s1 := run (holding ++ [Pass fire]) s0 in
  let s2 := run (holding ++ Pass fire :: later) s0 in
  gestures (holding ++ Pass fire :: later) s0
  = idlePasses holding ++ LongHoldConfirmed :: idlePasses later
  /\ inDiagnosticMode s1 = true /\ inTestMode s1 = false /\ currentSequence s1 = 0
  /\ buttonPressFlag s1 = false
  /\ inDiagnosticMode s2 = true /\ inTestMode s2 = false /\ buttonPressFlag s2 = false.
Proof.
  intros Hd Hacc Hhold Hp Hfire Hedges s0 s1 s2.
  assert (buttonPressFlag s0 = true /\ buttonPressTime s0 = tp
          /\ inDiagnosticMode s0 = false /\ last_interrupt_time s0 = tp)
    as (F0 & T0 & D0 & L0).
  { unfold s0, button_isr. apply Z.ltb_lt in Hacc. rewrite Hacc. auto. }
  destruct (edgesRejected_app tp holding (Pass fire :: later) Hedges)
    as (Eh & prev & El & Hprev).
  cbn [edgesRejected] in El.
  destruct (holding_keeps_press tp tp holding s0 F0 T0 D0 L0 Eh Hhold)
    as (G1 & F1 & T1 & D1).
  set (sh := run holding s0) in *.
  assert (gestureOf fire sh = LongHoldConfirmed) as Hg.
  { unfold gestureOf. rewrite F1, Hp, D1, T1. cbn [negb andb].
    destruct (Z.leb_spec 5000 (elapsed (millis fire AtButton) tp)); [reflexivity | lia]. }
  pose proof (loop_gesture fire sh) as H. rewrite Hg in H.
  destruct H as (Hf & Hdg & Htm & Hsq).
  assert (last_interrupt_time (loop fire sh) = prev) as Lf
      by (rewrite last_interrupt_time_loop; apply Hprev; exact L0).
  destruct (released_flag_stays prev later (loop fire sh) Hf Lf El)
    as (G2 & F2 & D2 & M2).
  assert (s1 = loop fire sh) as E1 by (unfold s1, sh; now rewrite run_app).
  assert (s2 = run later (loop fire sh)) as E2 by (unfold s2, sh; now rewrite run_app).
  rewrite E1, E2, gestures_app. fold sh.
  cbn [gestures]. rewrite G1, Hg, G2, F2, D2, M2. auto 10.
Qed.

(** *** Modes in the states the main loop can reach *)

Lemma setup_running (b : BootInput) (e e' : EEPROM) (s0 : State) :
  setup b e = Running s0 e' ->
  inDiagnosticMode s0 = false /\ inTestMode s0 = false /\ inSetupMode s0 = false.
Proof.
  unfold setup. destruct (loadPropID e) as [id e1].
  destruct (bootPinLow b); [discriminate|].
  destruct (radioInitOk b); cbn [negb]; [|discriminate].
  destruct (radioFreqOk b); cbn [negb]; [|discriminate].
  intros H. injection H as <- _. auto.
Qed.

Lemma modes_exclusive_step (ev : Event) (s : State) :
  modes_exclusive s -> modes_exclusive (step ev s).
Proof.
  intros [Hx Hs]. destruct ev as [i|t]; cbn [step]; unfold modes_exclusive.
  - rewrite inSetupMode_loop. split; [|assumption].
    pose proof (loop_gesture i s) as H.
    destruct (gestureOf i s).
    + destruct H as (_ & _ & -> & ->). assumption.
    + destruct H as (_ & -> & _). apply andb_false_r.
    + destruct H as (_ & -> & -> & _). reflexivity.
  - destruct (button_isr_frame t s) as (_ & _ & _ & -> & -> & ->). auto.
Qed.

Lemma modes_exclusive_run (es : list Event) (s : State) :
  modes_exclusive s -> modes_exclusive (run es s).
Proof.
  revert s. induction es as [|ev es IH]; cbn [run]; intros s H; auto.
  apply IH. now apply modes_exclusive_step.
Qed.

(** C5.  In every state the main loop reaches after [setup()], through any
    passes and button interrupts, [inTestMode] and [inDiagnosticMode] are not both
    set; and a pass that handles a ShortPress in Diagnostic mode ends in Ready,
    whatever mode preceded Diagnostic. *)
Theorem diagnostic_exits_to_ready
    (b : BootInput) (e e' : EEPROM) (s0 : State) (es : list Event) (i : Input) :
  setup b e = Running s0 e' ->
  let s := run es s0 in
  inTestMode s && inDiagnosticMode s = false
  /\ (modeOf s = Diagnostic -> gestureOf i s = ShortPress -> modeOf (loop i s) = Ready).
Proof.
  intros Hb s.
  destruct (setup_running b e e' s0 Hb) as (Hd & Ht & Hs).
  assert (modes_exclusive s) as [Hx Hsm].
  { apply modes_exclusive_run. unfold modes_exclusive. now rewrite Hd, Ht, Hs. }
  split; [assumption|].
  intros Hm Hg.
  assert (inDiagnosticMode s = true) as Hdiag.
  { unfold modeOf in Hm. destruct (inDiagnosticMode s); [reflexivity|].
    destruct (inSetupMode s); [discriminate|].
    destruct (inTestMode s); discriminate. }
  rewrite Hdiag, andb_true_r in Hx.
  pose proof (loop_gesture i s) as H. rewrite Hg, Hdiag in H.
  destruct H as (_ & Hd' & Ht').
  unfold modeOf. now rewrite Hd', inSetupMode_loop, Hsm, Ht', Hx.
Qed.

(** *** Rendering dispatch *)

Lemma runSequence_default (i : Input) (s : State) :
  currentSequence s < 0 \/ 5 < currentSequence s -> runSequence i s = animationOff s.
Proof.
  unfold runSequence. intros H.
  destruct (currentSequence s) as [|p|p]; [lia | | reflexivity].
  do 3 (try destruct p as [p|p|]); try reflexivity; lia.
Qed.

(** The state a pass renders: the one parts 1 to 3 leave. *)
Lemma loop_renders (i : Input) (s : State) :
  let r := handleButtonInput i (handleTimeouts i (handleRadioInput i s)) in
  loop i s = refreshDisplay i (showIfDirty (runLEDs i r))
  /\ control (loop i s) = control r.
Proof. split; [reflexivity | apply control_loop]. Qed.

Lemma sequence_persists (i : Input) (s : State) :
  radio i = None \/ carries (currentSequence s) i ->
  gestureOf i s = NoGesture ->
  elapsed (millis i AtNoSignal) (lastPacketTime (handleRadioInput i s))
    <= PACKET_TIMEOUT_MS ->
  elapsed (millis i AtIdle) (lastActiveAnimationTime s) <= STRIP_TIMEOUT_MS ->
  currentSequence (loop i s) = currentSequence s
  /\ lastActiveAnimationTime (loop i s) = lastActiveAnimationTime s.
Proof.
  intros Hr Hg Hn Hi.
  assert (currentSequence (handleRadioInput i s) = currentSequence s
          /\ lastActiveAnimationTime (handleRadioInput i s) = lastActiveAnimationTime s)
    as [R1 R2].
  { unfold handleRadioInput.
    destruct Hr as [-> | (p & r & -> & Hp)]; [auto|].
    cbn [currentSequence set_lastRSSI set_lastPacketTime].
    rewrite Hp, Z.eqb_refl. cbn [negb]. auto. }
  pose proof (control_loop i s) as Hc. unfold control in Hc.
  injection Hc as _ _ _ _ Hseq _ _ _ Hact _.
  rewrite Hseq, Hact.
  rewrite handleButtonInput_gesture, gestureOf_before_button, Hg.
  unfold handleTimeouts.
  rewrite (noSignalTimeout_inert i _ Hn).
  unfold stripTimeout. rewrite R2.
  destruct (Z.ltb_spec STRIP_TIMEOUT_MS (elapsed (millis i AtIdle) (lastActiveAnimationTime s)));
    [lia|].
  rewrite andb_false_r. auto.
Qed.

(** C10.  A packet whose sequence is outside 0..5 is stored like any other:
    after part 1 the sequence index equals the packet's [sequenceId], with
    [animationStep] reset when the value differs from the one stored before.
    Nothing later in the pass maps it into range: the pass ends with that value or
    with 0 (timeout or button), and [runSequence] on the state the pass renders
    takes the default arm, that is, Off. *)
Theorem out_of_range_sequence_stored
    (i : Input) (s : State) (p : RadioPacket) (rssi : Z) :
  radio i = Some (p, rssi) ->
  sequenceId p < 0 \/ 5 < sequenceId p ->
  let s1 := handleRadioInput i s in
  let r := handleButtonInput i (handleTimeouts i s1) in
  currentSequence s1 = sequenceId p
  /\ (currentSequence s <> sequenceId p -> animationStep s1 = 0)
  /\ runSequence i s1 = animationOff s1
  /\ (currentSequence (loop i s) = sequenceId p \/ currentSequence (loop i s) = 0)
  /\ runSequence i r = animationOff r.
Proof.
  intros Hr Hp s1 r.
  assert (currentSequence s1 = sequenceId p
          /\ (currentSequence s <> sequenceId p -> animationStep s1 = 0)) as [H1 H2].
  { unfold s1, handleRadioInput. rewrite Hr.
    cbn [currentSequence set_lastRSSI set_lastPacketTime].
    destruct (Z.eqb_spec (currentSequence s) (sequenceId p)) as [E|E]; cbn [negb].
    - split; [exact E | intros N; contradiction].
    - cbv zeta. split_ifs; split; reflexivity. }
  assert (currentSequence r = 0 \/ currentSequence r = sequenceId p) as Hrseq.
  { rewrite <- H1. apply after_radio_seq. }
  split; [assumption|]. split; [assumption|].
  split; [apply runSequence_default; now rewrite H1|].
  split.
  - rewrite currentSequence_loop. fold s1. fold r. tauto.
  - destruct Hrseq as [Z0|Zp].
    + unfold runSequence. now rewrite Z0.
    + apply runSequence_default. now rewrite Zp.
Qed.

(** *** Output coalescing *)

Lemma clearPixels_idem (px : list Z) : clearPixels (clearPixels px) = clearPixels px.
Proof. unfold clearPixels. rewrite map_map. reflexivity. Qed.

Lemma shown_before_render (i : Input) (s : State) :
  shown (handleButtonInput i (handleTimeouts i (handleRadioInput i s))) = shown s.
Proof.
  unfold handleButtonInput, handleTimeouts, stripTimeout, noSignalTimeout, handleRadioInput.
  destruct (radio i) as [[p r]|]; cbv zeta; split_ifs; reflexivity.
Qed.

Lemma shown_runLEDs (i : Input) (s : State) : shown (runLEDs i s) = shown s.
Proof.
  destruct (runLEDs_cases i s) as [H|[H|[H|[H|[H|H]]]]]; rewrite H;
    unfold_animations; split_ifs; reflexivity.
Qed.

Lemma refreshDisplay_strip (i : Input) (s : State) :
  frameDirty (refreshDisplay i s) = frameDirty s
  /\ stripIsOff (refreshDisplay i s) = stripIsOff s
  /\ pixels (refreshDisplay i s) = pixels s
  /\ shown (refreshDisplay i s) = shown s.
Proof. unfold refreshDisplay. split_ifs; repeat split; reflexivity. Qed.

Lemma showIfDirty_strip (s : State) :
  shown (showIfDirty s) = (if frameDirty s then pixels s :: shown s else shown s)
  /\ frameDirty (showIfDirty s) = false
  /\ pixels (showIfDirty s) = pixels s
  /\ stripIsOff (showIfDirty s) = stripIsOff s.
Proof.
  unfold showIfDirty. destruct (frameDirty s) eqn:D; repeat split; try reflexivity.
  exact D.
Qed.

(** A pass without a sequence-changing packet reaches part 4 with the strip
    and the frame flags as they were. *)
Lemma strip_before_render (i : Input) (s : State) :
  radio i = None \/ carries (currentSequence s) i ->
  let r := handleButtonInput i (handleTimeouts i (handleRadioInput i s)) in
  frameDirty r = frameDirty s /\ stripIsOff r = stripIsOff s /\ pixels r = pixels s.
Proof.
  intros Hr.
  assert (frameDirty (handleRadioInput i s) = frameDirty s
          /\ stripIsOff (handleRadioInput i s) = stripIsOff s
          /\ pixels (handleRadioInput i s) = pixels s) as (R1 & R2 & R3).
  { unfold handleRadioInput.
    destruct Hr as [-> | (p & r & -> & Hp)]; [auto|].
    cbn [currentSequence set_lastRSSI set_lastPacketTime].
    rewrite Hp, Z.eqb_refl. cbn [negb]. auto. }
  cbv zeta. rewrite <- R1, <- R2, <- R3.
  unfold handleButtonInput, handleTimeouts, stripTimeout, noSignalTimeout.
  split_ifs; repeat split; reflexivity.
Qed.

Lemma rendersOff_runLEDs (i : Input) (s : State) :
  rendersOff s -> runLEDs i s = animationOff s.
Proof.
  unfold rendersOff, runLEDs. intros [-> | [-> Hs]]; [reflexivity|].
  destruct (inDiagnosticMode s); [reflexivity|].
  destruct Hs as [Hs|Hs].
  - destruct (Z.eq_dec (currentSequence s) 0) as [E|E].
    + unfold runSequence. now rewrite E.
    + apply runSequence_default. lia.
  - apply runSequence_default. lia.
Qed.

Lemma rendersOff_control (a b : State) :
  control a = control b -> rendersOff a -> rendersOff b.
Proof.
  unfold control, rendersOff. intros H. injection H; intros. 
  repeat match goal with E : _ a = _ b |- _ => rewrite <- E; clear E end.
  assumption.
Qed.

(** What a pass that renders Off leaves. *)
Lemma off_pass (i : Input) (s : State) :
  rendersOff (loop i s) ->
  let r := handleButtonInput i (handleTimeouts i (handleRadioInput i s)) in
  loop i s = refreshDisplay i (showIfDirty (animationOff r))
  /\ stripIsOff (loop i s) = true /\ frameDirty (loop i s) = false.
Proof.
  intros Hoff r.
  assert (rendersOff r) as Hr
      by (apply (rendersOff_control (loop i s)); [apply control_loop | assumption]).
  assert (loop i s = refreshDisplay i (showIfDirty (animationOff r))) as E.
  { unfold loop. fold r. now rewrite (rendersOff_runLEDs i r Hr). }
  split; [exact E|]. rewrite E.
  destruct (refreshDisplay_strip i (showIfDirty (animationOff r))) as (-> & -> & _).
  destruct (showIfDirty_strip (animationOff r)) as (_ & -> & _ & ->).
  split; [|reflexivity].
  unfold animationOff, markAllOff. destruct (stripIsOff r) eqn:D; cbn [negb]; auto.
Qed.

(** [coalesced] holds whenever the main loop is between two passes. *)
Lemma coalesced_loop (i : Input) (s : State) : coalesced s -> coalesced (loop i s).
Proof.
  intros (Hd & [older Hs] & Hb).
  set (r0 := handleButtonInput i (handleTimeouts i (handleRadioInput i s))).
  assert ((frameDirty r0 = false -> shown r0 = pixels r0 :: older)
          /\ (stripIsOff r0 = true -> pixels r0 = clearPixels (pixels r0))) as [J1 J2].
  { unfold r0, handleButtonInput, handleTimeouts, stripTimeout, noSignalTimeout,
      handleRadioInput.
    destruct (radio i) as [[p q]|]; cbv zeta; split_ifs; cbn;
      split; intros; try discriminate; auto. }
  assert ((frameDirty (runLEDs i r0) = false ->
           exists o, shown (runLEDs i r0) = pixels (runLEDs i r0) :: o)
          /\ (stripIsOff (runLEDs i r0) = true ->
              pixels (runLEDs i r0) = clearPixels (pixels (runLEDs i r0)))) as [K1 K2].
  { clearbody r0.
    destruct (runLEDs_cases i r0) as [H|[H|[H|[H|[H|H]]]]]; rewrite H;
      unfold_animations; split_ifs; cbn;
      split; intros; try discriminate; eauto using clearPixels_idem. }
  unfold coalesced, loop. fold r0.
  destruct (refreshDisplay_strip i (showIfDirty (runLEDs i r0))) as (-> & -> & -> & ->).
  destruct (showIfDirty_strip (runLEDs i r0)) as (-> & -> & -> & ->).
  split; [reflexivity|]. split; [|assumption].
  destruct (frameDirty (runLEDs i r0)); eauto.
Qed.

Lemma coalesced_step (ev : Event) (s : State) : coalesced s -> coalesced (step ev s).
Proof.
  destruct ev as [i|t]; cbn [step]; [apply coalesced_loop|].
  unfold coalesced, button_isr. split_ifs; auto.
Qed.

Lemma coalesced_run (es : list Event) (s : State) : coalesced s -> coalesced (run es s).
Proof.
  revert s. induction es as [|ev es IH]; cbn [run]; intros s H; auto.
  apply IH. now apply coalesced_step.
Qed.

Lemma coalesced_after_setup (b : BootInput) (e e' : EEPROM) (s0 : State) :
  setup b e = Running s0 e' -> coalesced s0.
Proof.
  unfold setup. destruct (loadPropID e) as [id e1].
  destruct (bootPinLow b); [discriminate|].
  destruct (radioInitOk b); cbn [negb]; [|discriminate].
  destruct (radioFreqOk b); cbn [negb]; [|discriminate].
  intros H. injection H as <- _.
  unfold coalesced. cbn. repeat split; eauto.
Qed.


Lemma lastAnimationTime_before_render (i : Input) (s : State) :
  lastAnimationTime (handleButtonInput i (handleTimeouts i (handleRadioInput i s)))
  = lastAnimationTime s.
Proof.
  unfold handleButtonInput, handleTimeouts, stripTimeout, noSignalTimeout, handleRadioInput.
  destruct (radio i) as [[p r]|]; cbv zeta; split_ifs; reflexivity.
Qed.

(** An animation that is not yet due leaves everything as it is. *)
Lemma runLEDs_paced (i : Input) (s : State) :
  ~ rendersOff s -> paced i s = true -> runLEDs i s = s.
Proof.
  unfold rendersOff, runLEDs. intros Hoff Hp.
  destruct (inDiagnosticMode s); [elim Hoff; now left|].
  destruct (inTestMode s); [unfold animationRainbow; now rewrite Hp|].
  assert (currentSequence s = 1 \/ currentSequence s = 2 \/ currentSequence s = 3
          \/ currentSequence s = 4 \/ currentSequence s = 5) as Hs.
  { destruct (Z_lt_le_dec (currentSequence s) 1); [elim Hoff; right; auto|].
    destruct (Z_lt_le_dec 5 (currentSequence s)); [elim Hoff; right; auto|]. lia. }
  unfold runSequence, animationRainbow, animationChase, animationWipe,
    animationSparkle, animationCylon.
  destruct Hs as [-> | [-> | [-> | [-> | ->]]]]; now rewrite Hp.
Qed.

(** C7 (amended).  In every pass the strip is flushed exactly when [frameDirty]
    is set at the call of [showIfDirty], the frame flushed is the buffer of that
    moment, and the flag is down when the pass ends.  When a pass renders Off and
    the next pass renders Off again without receiving a packet that changes the
    sequence, the second pass does not flush and leaves the buffer as it is, so the
    two passes flush at most once, in the first one; between passes of the main
    loop that buffer is blank.  Likewise a pass that finds its animation not yet
    due, and receives no packet that changes the sequence, does not flush. *)
Theorem flush_iff_dirty (s : State) (i1 i2 : Input) :
  let r1 := runLEDs i1 (handleButtonInput i1 (handleTimeouts i1 (handleRadioInput i1 s))) in
  let s1 := loop i1 s in
  let s2 := loop i2 s1 in
  shown s1 = (if frameDirty r1 then pixels r1 :: shown s else shown s)
  /\ frameDirty s1 = false
  /\ pixels s1 = pixels r1
  /\ (rendersOff s1 -> rendersOff s2 ->
      radio i2 = None \/ carries (currentSequence s1) i2 ->
      shown s2 = shown s1 /\ pixels s2 = pixels s1
      /\ (length (shown s2) <= S (length (shown s)))%nat
      /\ (coalesced s -> pixels s1 = clearPixels (pixels s1)))
  /\ (~ rendersOff s2 -> paced i2 s1 = true ->
      radio i2 = None \/ carries (currentSequence s1) i2 ->
      shown s2 = shown s1 /\ pixels s2 = pixels s1).
Proof.
  intros r1 s1 s2.
  assert (shown s1 = (if frameDirty r1 then pixels r1 :: shown s else shown s)
          /\ frameDirty s1 = false /\ pixels s1 = pixels r1) as (A & B & C).
  { unfold s1, loop. fold r1.
    destruct (refreshDisplay_strip i1 (showIfDirty r1)) as (-> & _ & -> & ->).
    destruct (showIfDirty_strip r1) as (-> & -> & -> & _).
    assert (shown r1 = shown s) as ->
        by (unfold r1; now rewrite shown_runLEDs, shown_before_render).
    auto. }
  repeat (split; [assumption|]).
  set (r2 := handleButtonInput i2 (handleTimeouts i2 (handleRadioInput i2 s1))).
  assert (radio i2 = None \/ carries (currentSequence s1) i2 ->
          runLEDs i2 r2 = r2 ->
          shown s2 = shown s1 /\ pixels s2 = pixels s1) as Hskip.
  { intros Hquiet Hnop.
    destruct (strip_before_render i2 s1 Hquiet) as (F1 & _ & F3).
    cbv zeta in F1, F3. fold r2 in F1, F3.
    unfold s2, loop. fold r2. rewrite Hnop.
    destruct (refreshDisplay_strip i2 (showIfDirty r2)) as (_ & _ & -> & ->).
    destruct (showIfDirty_strip r2) as (-> & _ & -> & _).
    rewrite F1, B, F3. unfold r2. now rewrite shown_before_render. }
  split.
  - intros Hoff1 Hoff2 Hquiet.
    destruct (off_pass i1 s Hoff1) as (_ & O1 & _). fold s1 in O1.
    assert (rendersOff r2) as Hoff
        by (apply (rendersOff_control s2); [apply control_loop | assumption]).
    destruct (strip_before_render i2 s1 Hquiet) as (_ & F2 & _).
    cbv zeta in F2. fold r2 in F2.
    assert (runLEDs i2 r2 = r2) as Hnop.
    { rewrite (rendersOff_runLEDs i2 r2 Hoff). unfold animationOff.
      now rewrite F2, O1. }
    destruct (Hskip Hquiet Hnop) as [S2 P2].
    repeat split; try assumption.
    + rewrite S2, A. destruct (frameDirty r1); cbn [length]; lia.
    + intros Hc. apply (coalesced_loop i1 s Hc). exact O1.
  - intros Hon Hp Hquiet. apply Hskip; [assumption|].
    apply runLEDs_paced.
    + intros Hoff. apply Hon.
      apply (rendersOff_control r2); [symmetry; apply control_loop | assumption].
    + unfold paced in *. unfold r2. now rewrite lastAnimationTime_before_render.
Qed.

(** *** The 30 minute cutoff *)

Lemma lastActive_loop (i : Input) (s : State) :
  lastActiveAnimationTime (loop i s) = lastActiveAnimationTime (handleRadioInput i s).
Proof.
  pose proof (control_loop i s) as H. unfold control in H.
  injection H as _ _ _ _ _ _ _ _ Hact _. rewrite Hact.
  unfold handleButtonInput, handleTimeouts, stripTimeout, noSignalTimeout.
  split_ifs; reflexivity.
Qed.

(** [lastActiveAnimationTime] is written in one place only. *)
Lemma lastActive_recorded (i : Input) (s : State) :
  lastActiveAnimationTime (loop i s) <> lastActiveAnimationTime s ->
  exists p rssi,
    radio i = Some (p, rssi) /\ sequenceId p <> currentSequence s
    /\ 0 < sequenceId p /\ lastActiveAnimationTime (loop i s) = millis i AtActive.
Proof.
  rewrite lastActive_loop. unfold handleRadioInput.
  destruct (radio i) as [[p rssi]|]; [|intros H; now elim H].
  cbn [currentSequence set_lastRSSI set_lastPacketTime].
  destruct (Z.eqb_spec (currentSequence s) (sequenceId p)) as [E|E]; cbn [negb];
    [intros H; now elim H|].
  cbv zeta. cbn [currentSequence set_currentSequence set_animationStep markDirty
                 strip_clear set_pixels set_stripIsOff set_frameDirty].
  destruct (Z.ltb_spec 0 (sequenceId p)) as [L|L]; [|intros H; now elim H].
  intros _. exists p, rssi. repeat split; auto.
Qed.

Lemma idle_pass (i : Input) (s : State) :
  radio i = None \/ carries (currentSequence s) i ->
  STRIP_TIMEOUT_MS < elapsed (millis i AtIdle) (lastActiveAnimationTime s) ->
  currentSequence (loop i s) = 0.
Proof.
  intros Hr Ht.
  assert (currentSequence (handleRadioInput i s) = currentSequence s
          /\ lastActiveAnimationTime (handleRadioInput i s) = lastActiveAnimationTime s)
    as [R1 R2].
  { unfold handleRadioInput.
    destruct Hr as [-> | (p & r & -> & Hp)]; [auto|].
    cbn [currentSequence set_lastRSSI set_lastPacketTime].
    rewrite Hp, Z.eqb_refl. cbn [negb]. auto. }
  rewrite currentSequence_loop.
  remember (handleRadioInput i s) as s1 eqn:E. clear E.
  unfold handleTimeouts.
  destruct (handleButtonInput_seq i (stripTimeout i (noSignalTimeout i s1))) as [H|H];
    [assumption | rewrite H].
  assert (lastActiveAnimationTime (noSignalTimeout i s1) = lastActiveAnimationTime s)
    as Ha by (rewrite <- R2; unfold noSignalTimeout; split_ifs; reflexivity).
  unfold stripTimeout. rewrite Ha.
  apply Z.ltb_lt in Ht. rewrite Ht, andb_true_r.
  destruct (Z.eqb_spec (currentSequence (noSignalTimeout i s1)) 0) as [Z0|N0];
    cbn [negb]; auto.
Qed.

Lemma sustained_run (l : list Input) (s : State) :
  buttonPressFlag s = false ->
  Forall (sustains (currentSequence s) (lastActiveAnimationTime s)) l ->
  currentSequence (run (passes l) s) = currentSequence s
  /\ lastActiveAnimationTime (run (passes l) s) = lastActiveAnimationTime s.
Proof.
  revert s. induction l as [|i l IH]; intros s Hf Hl; cbn [passes map run step].
  - auto.
  - inversion Hl as [|? ? (Hc & Hn & Hi) Hl']; subst.
    assert (gestureOf i s = NoGesture) as Hg by (unfold gestureOf; now rewrite Hf).
    assert (lastPacketTime (handleRadioInput i s) = millis i AtRecv) as Hp.
    { destruct Hc as (p & r & Hr & Hk). unfold handleRadioInput. rewrite Hr.
      cbv zeta. split_ifs; reflexivity. }
    destruct (sequence_persists i s) as [S1 S2]; auto; [now rewrite Hp|].
    pose proof (loop_gesture i s) as G. rewrite Hg in G. destruct G as (G1 & _).
    fold (passes l).
    destruct (IH (loop i s)) as [I1 I2]; [congruence | now rewrite S1, S2 |].
    rewrite I1, I2. auto.
Qed.

(** C4 (amended).  Let the sequence index be the one stored at the instant
    kept in [lastActiveAnimationTime].  Passes that each receive a packet with the
    same sequence, in time for the no-signal check and within 30 minutes of that
    instant, handle no gesture and keep both the index and the recorded instant:
    the identical packets do not refresh it.  The pass whose idle check then reads
    strictly more than 1800000 ms after the recorded instant ends with the index
    at 0, whether it receives that same packet again or none.  The recorded
    instant changes only in a pass that receives a packet with a different,
    non-zero sequence. *)
Theorem idle_cutoff_despite_packets (s : State) (repeats : list Input) (fire : Input) :
  buttonPressFlag s = false ->
  Forall (sustains (currentSequence s) (lastActiveAnimationTime s)) repeats ->
  radio fire = None \/ carries (currentSequence s) fire ->
  STRIP_TIMEOUT_MS < elapsed (millis fire AtIdle) (lastActiveAnimationTime s) ->
  let s1 := run (passes repeats) s in
  currentSequence s1 = currentSequence s
  /\ lastActiveAnimationTime s1 = lastActiveAnimationTime s
  /\ currentSequence (loop fire s1) = 0
  /\ (forall i s',
        lastActiveAnimationTime (loop i s') <> lastActiveAnimationTime s' ->
        exists p rssi,
          radio i = Some (p, rssi) /\ sequenceId p <> currentSequence s'
          /\ 0 < sequenceId p
          /\ lastActiveAnimationTime (loop i s') = millis i AtActive).
Proof.
  intros Hf Hl Hr Ht s1.
  destruct (sustained_run repeats s Hf Hl) as [S1 S2]. fold s1 in S1, S2.
  repeat split; try assumption.
  - apply idle_pass; [now rewrite S1 | now rewrite S2].
  - apply lastActive_recorded.
Qed.

(** *** Setup mode *)

Lemma loadPropID_range (e : EEPROM) : 1 <= fst (loadPropID e) <= 18.
Proof.
  unfold loadPropID.
  destruct (Z.ltb_spec (EEPROM_read 0 e) 1); cbn [orb fst]; [lia|].
  destruct (Z.ltb_spec 18 (EEPROM_read 0 e)); cbn [fst]; lia.
Qed.

Lemma loadPropID_saved (id : Z) (e : EEPROM) :
  1 <= id <= 18 ->
  EEPROM_read 0 (savePropID id e) = id
  /\ loadPropID (savePropID id e) = (id, savePropID id e).
Proof.
  intros H.
  assert (EEPROM_read 0 (savePropID id e) = id) as R.
  { unfold EEPROM_read, savePropID, EEPROM_write. rewrite Z.eqb_refl.
    unfold u8. apply Z.mod_small. lia. }
  split; [exact R|].
  unfold loadPropID. rewrite R.
  destruct (Z.ltb_spec id 1); [lia|].
  destruct (Z.ltb_spec 18 id); [lia|]. reflexivity.
Qed.








(** ** Further properties of the receiver *)

(** *** The identifier byte *)

Lemma savePropID_elsewhere (id a : Z) (e : EEPROM) :
  a <> 0 -> EEPROM_read a (savePropID id e) = EEPROM_read a e.
Proof.
  intros Ha. unfold EEPROM_read, savePropID, EEPROM_write.
  destruct (Z.eqb_spec a 0); [contradiction | reflexivity].
Qed.

(** X1.  [loadPropID] always returns an identifier in [1, 18]: the stored byte
    when that is in range (nothing is written then), and 1 otherwise, in which
    case 1 is written back.  Either way byte 0 afterwards holds the identifier
    returned, no other address has changed, and loading again returns the same
    identifier and leaves the EEPROM as it is. *)
Theorem loadPropID_self_heals (e : EEPROM) :
  let id := fst (loadPropID e) in
  let e' := snd (loadPropID e) in
  1 <= id <= 18
  /\ (1 <= EEPROM_read 0 e <= 18 -> id = EEPROM_read 0 e /\ e' = e)
  /\ (EEPROM_read 0 e < 1 \/ 18 < EEPROM_read 0 e -> id = 1)
  /\ EEPROM_read 0 e' = id
  /\ (forall a, a <> 0 -> EEPROM_read a e' = EEPROM_read a e)
  /\ loadPropID e' = (id, e').
Proof.
  cbv zeta.
  destruct (loadPropID_saved 1 e ltac:(lia)) as [R1 L1].
  assert ((EEPROM_read 0 e < 1 \/ 18 < EEPROM_read 0 e)
          /\ loadPropID e = (1, savePropID 1 e)
          \/ 1 <= EEPROM_read 0 e <= 18 /\ loadPropID e = (EEPROM_read 0 e, e)) as H.
  { unfold loadPropID.
    destruct (Z.ltb_spec (EEPROM_read 0 e) 1); cbn [orb]; [left; split; [lia | reflexivity]|].
    destruct (Z.ltb_spec 18 (EEPROM_read 0 e)); [left | right]; split; auto; lia. }
  destruct H as [[Hout ->] | [Hin ->]]; cbn [fst snd].
  - repeat split; try lia; auto using savePropID_elsewhere.
  - repeat split; try lia; auto.
    unfold loadPropID.
    destruct (Z.ltb_spec (EEPROM_read 0 e) 1); [lia|].
    destruct (Z.ltb_spec 18 (EEPROM_read 0 e)); [lia|]. reflexivity.
Qed.

(** *** The interrupt handler *)

(** X2.  The handler never clears the press flag, and an edge that comes
    200 ms or less after the edge before it leaves the flag and the press time as
    they are while still moving the re-arm window: through a whole train of such
    edges the state only has [last_interrupt_time] changed, to the last edge. *)
Theorem button_isr_ignores_bounce (ts : list Z) (s : State) :
  ts <> [] ->
  edgesRejected (last_interrupt_time s) (map ButtonEdge ts) ->
  run (map ButtonEdge ts) s = set_last_interrupt_time (last ts 0) s
  /\ (forall t s', buttonPressFlag s' = true -> buttonPressFlag (button_isr t s') = true).
Proof.
  intros Hne He. split.
  - revert s He. induction ts as [|t ts IH]; [contradiction|].
    intros s [Hr He]. cbn [map run step].
    rewrite (button_isr_rejected t s Hr).
    destruct ts as [|t' ts'].
    + reflexivity.
    + rewrite IH; [|discriminate | exact He].
      cbn [last]. destruct s; reflexivity.
  - intros t s' Hf. unfold button_isr. split_ifs; cbn; auto.
Qed.

(** *** Setup mode and the EEPROM *)

(** X3.  The setup loop writes the EEPROM only when it saves: as long as it is
    polling the contents are those it started with, and when it restarts they
    differ from them at address 0 only, which holds the identifier saved. *)
Theorem setupLoop_writes_only_on_save
    (polls : list SetupInput) (l : SetupLocals) (e : EEPROM) :
  match setupLoop polls l e with
  | Polling _ e' => e' = e
  | Rebooting id e' =>
      e' = savePropID id e
      /\ EEPROM_read 0 e' = u8 id
      /\ forall a, a <> 0 -> EEPROM_read a e' = EEPROM_read a e
  end.
Proof.
  revert l. induction polls as [|i polls IH]; intros l; cbn [setupLoop].
  - reflexivity.
  - destruct (setupIteration i l e) as [l' e'|id e'] eqn:E.
    + assert (e' = e) as ->.
      { unfold setupIteration in E.
        destruct (isPressed i && _) in E; [discriminate|]. now injection E. }
      apply IH.
    + assert (e' = savePropID id e) as ->.
      { unfold setupIteration in E.
        destruct (isPressed i && _) in E; [|discriminate].
        injection E as <- <-. reflexivity. }
      split; [reflexivity|]. split; [reflexivity|].
      intros a Ha. now apply savePropID_elsewhere.
Qed.
(** *** Shape of the strip *)

(** Projections out of the setters, leaving the arithmetic alone. *)
Ltac cbn_state :=
  cbn [propID inTestMode inSetupMode inDiagnosticMode currentSequence
       buttonPressFlag buttonPressTime lastPacketTime lastActiveAnimationTime
       animationStep lastAnimationTime lastDisplayUpdateTime lastRSSI frameDirty
       stripIsOff last_interrupt_time pos dir pixels shown oled set_propID
       set_inTestMode set_inSetupMode set_inDiagnosticMode set_currentSequence
       set_buttonPressFlag set_buttonPressTime set_lastPacketTime
       set_lastActiveAnimationTime set_animationStep set_lastAnimationTime
       set_lastDisplayUpdateTime set_lastRSSI set_frameDirty set_stripIsOff
       set_last_interrupt_time set_pos set_dir set_pixels set_shown set_oled].

Ltac cbn_state_in H :=
  cbn [propID inTestMode inSetupMode inDiagnosticMode currentSequence
       buttonPressFlag buttonPressTime lastPacketTime lastActiveAnimationTime
       animationStep lastAnimationTime lastDisplayUpdateTime lastRSSI frameDirty
       stripIsOff last_interrupt_time pos dir pixels shown oled set_propID
       set_inTestMode set_inSetupMode set_inDiagnosticMode set_currentSequence
       set_buttonPressFlag set_buttonPressTime set_lastPacketTime
       set_lastActiveAnimationTime set_animationStep set_lastAnimationTime
       set_lastDisplayUpdateTime set_lastRSSI set_frameDirty set_stripIsOff
       set_last_interrupt_time set_pos set_dir set_pixels set_shown set_oled] in H.


Lemma length_setNth (n : nat) (c : Z) (px : list Z) :
  length (setNth n c px) = length px.
Proof.
  revert n. induction px as [|p px IH]; intros [|n]; cbn [setNth length]; auto.
Qed.

Lemma length_setPixelColor (n c : Z) (px : list Z) :
  length (setPixelColor n c px) = length px.
Proof. unfold setPixelColor. split_ifs; auto using length_setNth. Qed.

Lemma length_clearPixels (px : list Z) : length (clearPixels px) = length px.
Proof. apply length_map. Qed.

Ltac simpl_lengths :=
  cbn;
  rewrite ?length_setPixelColor, ?length_clearPixels, ?length_map, ?length_seq,
    ?Nat2Z.id.

Lemma length_pixels_runLEDs (i : Input) (s : State) :
  length (pixels (runLEDs i s)) = length (pixels s).
Proof.
  destruct (runLEDs_cases i s) as [H|[H|[H|[H|[H|H]]]]]; rewrite H;
    unfold_animations; unfold numPixels; cbv zeta; split_ifs; simpl_lengths;
    reflexivity.
Qed.

Lemma length_pixels_before_render (i : Input) (s : State) :
  length (pixels (handleButtonInput i (handleTimeouts i (handleRadioInput i s))))
  = length (pixels s).
Proof.
  unfold handleButtonInput, handleTimeouts, stripTimeout, noSignalTimeout, handleRadioInput,
    markDirty, strip_clear.
  destruct (radio i) as [[p r]|]; cbv zeta; split_ifs; simpl_lengths; reflexivity.
Qed.

Lemma stripGeometry_loop (i : Input) (s : State) :
  stripGeometry s -> stripGeometry (loop i s).
Proof.
  intros [Hp Hs].
  set (r := runLEDs i (handleButtonInput i (handleTimeouts i (handleRadioInput i s)))).
  assert (length (pixels r) = Z.to_nat NUM_LEDS) as Hr
      by (unfold r; now rewrite length_pixels_runLEDs, length_pixels_before_render).
  assert (shown r = shown s) as Hsr
      by (unfold r; now rewrite shown_runLEDs, shown_before_render).
  unfold stripGeometry, loop. fold r.
  destruct (refreshDisplay_strip i (showIfDirty r)) as (_ & _ & -> & ->).
  destruct (showIfDirty_strip r) as (-> & _ & -> & _).
  split; [exact Hr|]. rewrite Hsr.
  destruct (frameDirty r); auto.
Qed.

Lemma stripGeometry_step (ev : Event) (s : State) :
  stripGeometry s -> stripGeometry (step ev s).
Proof.
  destruct ev as [i|t]; cbn [step]; [apply stripGeometry_loop|].
  unfold stripGeometry, button_isr. split_ifs; auto.
Qed.

Lemma stripGeometry_after_setup (b : BootInput) (e e' : EEPROM) (s0 : State) :
  setup b e = Running s0 e' -> stripGeometry s0.
Proof.
  unfold setup. destruct (loadPropID e) as [id e1].
  destruct (bootPinLow b); [discriminate|].
  destruct (radioInitOk b); cbn [negb]; [|discriminate].
  destruct (radioFreqOk b); cbn [negb]; [|discriminate].
  intros H. injection H as <- _.
  unfold stripGeometry. cbn. split; [reflexivity|].
  repeat constructor.
Qed.

(** X4.  From [setup()] on, through any passes and button interrupts, the pixel
    buffer keeps its 120 pixels, and every frame handed to the strip is a full
    frame of 120 pixels. *)
Theorem strip_keeps_its_length
    (b : BootInput) (e e' : EEPROM) (s0 : State) (es : list Event) :
  setup b e = Running s0 e' ->
  length (pixels (run es s0)) = 120%nat
  /\ Forall (fun frame => length frame = 120%nat) (shown (run es s0)).
Proof.
  intros Hb.
  assert (stripGeometry (run es s0)) as H.
  { pose proof (stripGeometry_after_setup b e e' s0 Hb) as H0. clear Hb.
    revert s0 H0. induction es as [|ev es IH]; cbn [run]; intros s0 H0; auto.
    apply IH. now apply stripGeometry_step. }
  exact H.
Qed.
(** *** The animation cursors *)

Lemma runSequence_at (i : Input) (s : State) :
  (currentSequence s = 1 -> runSequence i s = animationRainbow i s)
  /\ (currentSequence s = 2 -> runSequence i s = animationChase i s)
  /\ (currentSequence s = 3 -> runSequence i s = animationWipe i s)
  /\ (currentSequence s = 4 -> runSequence i s = animationSparkle i s)
  /\ (currentSequence s = 5 -> runSequence i s = animationCylon i s)
  /\ (currentSequence s < 1 \/ 5 < currentSequence s -> runSequence i s = animationOff s).
Proof.
  unfold runSequence.
  repeat split; try (intros ->; reflexivity).
  intros [H|H].
  - destruct (Z.eq_dec (currentSequence s) 0) as [->|N]; [reflexivity|].
    apply runSequence_default. lia.
  - apply runSequence_default. lia.
Qed.

Ltac solve_cursors :=
  unfold cursorsInRange, NUM_LEDS in *; cbn;
  repeat match goal with H : _ /\ _ |- _ => destruct H end;
  repeat split; intros;
  repeat match goal with H : ?A -> _, X : ?A |- _ => specialize (H X) end;
  try assumption; try lia; try discriminate; try congruence; auto.

Lemma cursorsInRange_before_render (i : Input) (s : State) :
  cursorsInRange s ->
  cursorsInRange (handleButtonInput i (handleTimeouts i (handleRadioInput i s))).
Proof.
  intros H.
  assert (cursorsInRange (handleRadioInput i s)) as H1.
  { unfold handleRadioInput, markDirty, strip_clear.
    destruct (radio i) as [[p r]|]; cbv zeta; split_ifs; solve_cursors. }
  assert (cursorsInRange (handleTimeouts i (handleRadioInput i s))) as H2.
  { revert H1. generalize (handleRadioInput i s) as s1. intros s1 H1.
    unfold handleTimeouts, stripTimeout, noSignalTimeout. split_ifs; solve_cursors. }
  revert H2. generalize (handleTimeouts i (handleRadioInput i s)) as s2. intros s2 H2.
  unfold handleButtonInput. split_ifs; solve_cursors.
Qed.

Lemma cursorsInRange_runLEDs (i : Input) (s : State) :
  length (pixels s) = Z.to_nat NUM_LEDS ->
  cursorsInRange s -> cursorsInRange (runLEDs i s).
Proof.
  intros Hlen H.
  assert (numPixels s = 120) as Hn by (unfold numPixels; now rewrite Hlen).
  destruct (runSequence_at i s) as (R1 & R2 & R3 & R4 & R5 & R0).
  unfold runLEDs.
  destruct (inDiagnosticMode s) eqn:Hd.
  { unfold animationOff, markAllOff, strip_clear. split_ifs; solve_cursors. }
  destruct (inTestMode s) eqn:Ht.
  { unfold animationRainbow, stampAnimation, markDirty. cbv zeta.
    split_ifs; solve_cursors. }
  destruct (Z_lt_le_dec (currentSequence s) 1) as [L|L];
    [rewrite R0 by auto; unfold animationOff, markAllOff, strip_clear;
     split_ifs; solve_cursors|].
  destruct (Z_lt_le_dec 5 (currentSequence s)) as [U|U];
    [rewrite R0 by auto; unfold animationOff, markAllOff, strip_clear;
     split_ifs; solve_cursors|].
  assert (currentSequence s = 1 \/ currentSequence s = 2 \/ currentSequence s = 3
          \/ currentSequence s = 4 \/ currentSequence s = 5) as Hs by lia.
  destruct Hs as [E | [E | [E | [E | E]]]].
  - rewrite (R1 E). unfold animationRainbow, stampAnimation, markDirty. cbv zeta.
    split_ifs; solve_cursors.
  - rewrite (R2 E). unfold animationChase, fadeAll, stampAnimation, markDirty.
    cbv zeta. destruct (paced i s); [assumption|].
    unfold cursorsInRange, NUM_LEDS in *. unfold numPixels. cbn.
    rewrite length_setPixelColor, length_map, Hlen.
    change (Z.of_nat (Z.to_nat 120)) with 120.
    destruct H as (H2 & H3 & Hp & Hdir & Hp0 & Hp1).
    pose proof (Z.mod_pos_bound (animationStep s + 1) 120 ltac:(lia)) as Hm.
    unfold u16. rewrite (Z.mod_small ((animationStep s + 1) mod 120)) by lia.
    repeat split; intros; auto; try lia; congruence.
  - rewrite (R3 E). unfold animationWipe, stampAnimation, markDirty. cbv zeta.
    destruct (paced i s); [assumption|].
    change (numPixels (set_lastAnimationTime (millis i AtAnimStamp) s))
      with (numPixels s).
    rewrite Hn.
    destruct H as (H2 & H3 & Hp & Hdir & Hp0 & Hp1).
    specialize (H3 Ht E). unfold NUM_LEDS in *.
    unfold cursorsInRange, NUM_LEDS, u16. cbn_state.
    destruct (animationStep s <? 120); [|destruct (animationStep s <? 2 * 120)];
      cbn_state; rewrite (Z.mod_small (animationStep s + 1)) by lia;
      destruct (Z.leb_spec (2 * 120) (animationStep s + 1)); cbn_state;
      repeat split; intros; auto; try lia; congruence.
  - rewrite (R4 E). unfold animationSparkle, fadeAll, stampAnimation, markDirty.
    cbv zeta. split_ifs; solve_cursors.
  - rewrite (R5 E). unfold animationCylon, fadeAll, stampAnimation, markDirty.
    cbv zeta. destruct (paced i s); [assumption|].
    destruct H as (H2 & H3 & Hp & Hdir & Hp0 & Hp1).
    unfold cursorsInRange, NUM_LEDS in *. unfold numPixels. cbn.
    rewrite length_setPixelColor, length_map, Hlen.
    change (Z.of_nat (Z.to_nat 120)) with 120.
    destruct (Z.leb_spec (pos s + dir s) 0); destruct (Z.leb_spec (120 - 1) (pos s + dir s));
      cbn; repeat split; intros; try lia; try congruence.
Qed.

Lemma cursorsInRange_loop (i : Input) (s : State) :
  stripGeometry s -> cursorsInRange s -> cursorsInRange (loop i s).
Proof.
  intros [Hlen _] H.
  set (r0 := handleButtonInput i (handleTimeouts i (handleRadioInput i s))).
  assert (cursorsInRange (runLEDs i r0)) as Hr.
  { apply cursorsInRange_runLEDs.
    - unfold r0. now rewrite length_pixels_before_render.
    - now apply cursorsInRange_before_render. }
  unfold loop. fold r0. revert Hr. generalize (runLEDs i r0) as r. intros r Hr.
  unfold refreshDisplay, updateDisplay, showIfDirty, strip_show.
  split_ifs; solve_cursors.
Qed.

Lemma cursorsInRange_after_setup (b : BootInput) (e e' : EEPROM) (s0 : State) :
  setup b e = Running s0 e' -> cursorsInRange s0.
Proof.
  unfold setup. destruct (loadPropID e) as [id e1].
  destruct (bootPinLow b); [discriminate|].
  destruct (radioInitOk b); cbn [negb]; [|discriminate].
  destruct (radioFreqOk b); cbn [negb]; [|discriminate].
  intros H. injection H as <- _.
  unfold cursorsInRange, NUM_LEDS. cbn. repeat split; intros; try lia; auto.
Qed.

Lemma shape_run (es : list Event) (s : State) :
  stripGeometry s -> cursorsInRange s ->
  stripGeometry (run es s) /\ cursorsInRange (run es s).
Proof.
  revert s. induction es as [|[i|t] es IH]; cbn [run step]; intros s Hg Hc; auto.
  - apply IH; [now apply stripGeometry_loop | now apply cursorsInRange_loop].
  - apply IH.
    + now apply (stripGeometry_step (ButtonEdge t)).
    + unfold button_isr. split_ifs; solve_cursors.
Qed.

(** X5.  From [setup()] on, through any passes and button interrupts, the
    cursors of the animations stay on the strip, both between passes and at the
    moment a pass renders: [animationStep] is below 120 whenever Chase is the
    animation selected and below 240 whenever Wipe is, and Cylon's position is
    between 0 and 119 with a direction of 1 or -1, pointing inwards at either
    end.  So [strip.setPixelColor] is never called by them with an index off the
    strip. *)
Theorem cursors_stay_on_strip
    (b : BootInput) (e e' : EEPROM) (s0 : State) (es : list Event) (i : Input) :
  setup b e = Running s0 e' ->
  cursorsInRange (run es s0)
  /\ cursorsInRange
       (handleButtonInput i (handleTimeouts i (handleRadioInput i (run es s0)))).
Proof.
  intros Hb.
  destruct (shape_run es s0 (stripGeometry_after_setup b e e' s0 Hb)
              (cursorsInRange_after_setup b e e' s0 Hb)) as [_ Hc].
  split; [exact Hc | now apply cursorsInRange_before_render].
Qed.
(** *** Fading *)

Lemma byte_land (x : Z) : Z.land x 255 = x mod 256.
Proof. change 255 with (Z.ones 8). now rewrite Z.land_ones by lia. Qed.

Lemma channel_range (c k : Z) : 0 <= Z.land (Z.shiftr c k) 255 <= 255.
Proof.
  rewrite byte_land.
  pose proof (Z.mod_pos_bound (Z.shiftr c k) 256 ltac:(lia)). lia.
Qed.

Lemma lor_disjoint (hi lo n : Z) :
  0 <= n -> 0 <= lo < 2 ^ n -> Z.lor (hi * 2 ^ n) lo = hi * 2 ^ n + lo.
Proof.
  intros Hn Hlo.
  assert (Z.land (hi * 2 ^ n) lo = 0) as Hl.
  { apply Z.bits_inj'. intros k Hk. rewrite Z.land_spec, Z.bits_0.
    destruct (Z.ltb_spec k n).
    - rewrite Z.mul_pow2_bits_low by lia. reflexivity.
    - assert (Z.testbit lo k = false) as ->.
      { destruct (Z.eq_dec lo 0) as [->|Hz]; [apply Z.bits_0|].
        apply Z.bits_above_log2; [lia|].
        apply Z.lt_le_trans with n; [apply Z.log2_lt_pow2; lia | lia]. }
      apply andb_false_r. }
  rewrite <- Z.lxor_lor by exact Hl. symmetry. now apply Z.add_nocarry_lxor.
Qed.

Lemma Color_value (r g b : Z) :
  0 <= r < 256 -> 0 <= g < 256 -> 0 <= b < 256 ->
  Color r g b = r * 65536 + g * 256 + b.
Proof.
  intros Hr Hg Hb. unfold Color, u8.
  rewrite !Z.mod_small by lia.
  rewrite !Z.shiftl_mul_pow2 by lia.
  rewrite (lor_disjoint g b 8) by (change (2 ^ 8) with 256; lia).
  rewrite (lor_disjoint r (g * 2 ^ 8 + b) 16)
    by (change (2 ^ 16) with 65536; change (2 ^ 8) with 256; lia).
  change (2 ^ 16) with 65536. change (2 ^ 8) with 256. lia.
Qed.

Lemma channels_of_Color (r g b : Z) :
  0 <= r < 256 -> 0 <= g < 256 -> 0 <= b < 256 ->
  redOf (Color r g b) = r /\ greenOf (Color r g b) = g /\ blueOf (Color r g b) = b.
Proof.
  intros Hr Hg Hb. unfold redOf, greenOf, blueOf.
  rewrite !byte_land, !Z.shiftr_div_pow2 by lia.
  rewrite (Color_value r g b) by assumption.
  change (2 ^ 16) with 65536. change (2 ^ 8) with 256.
  repeat split.
  - replace (r * 65536 + g * 256 + b) with (g * 256 + b + r * 65536) by lia.
    rewrite Z.div_add by lia. rewrite (Z.div_small (g * 256 + b)) by lia.
    apply Z.mod_small. lia.
  - replace (r * 65536 + g * 256 + b) with (b + (r * 256 + g) * 256) by lia.
    rewrite Z.div_add by lia. rewrite (Z.div_small b) by lia.
    replace (0 + (r * 256 + g)) with (g + r * 256) by lia.
    rewrite Z.mod_add by lia. apply Z.mod_small. lia.
  - replace (r * 65536 + g * 256 + b) with (b + (r * 256 + g) * 256) by lia.
    rewrite Z.mod_add by lia. apply Z.mod_small. lia.
Qed.

Lemma fadeChannel_darker (amount ch : Z) :
  0 <= amount <= 255 -> 0 <= ch <= 255 ->
  0 <= fadeChannel amount ch <= ch /\ (0 < ch -> fadeChannel amount ch < ch).
Proof.
  intros Ha Hc. unfold fadeChannel, u8.
  rewrite Z.shiftr_div_pow2 by lia. change (2 ^ 8) with 256.
  assert (0 <= ch * (255 - amount) / 256) as H0 by (apply Z.div_pos; nia).
  assert (ch * (255 - amount) / 256 <= ch) as H1.
  { apply Z.div_le_upper_bound; nia. }
  assert (0 < ch -> ch * (255 - amount) / 256 < ch) as H2.
  { intros Hp. apply Z.div_lt_upper_bound; nia. }
  rewrite Z.mod_small by lia. auto.
Qed.

Lemma fadePixel_channels (amount c : Z) :
  0 <= amount <= 255 ->
  redOf (fadePixel amount c) = fadeChannel amount (redOf c)
  /\ greenOf (fadePixel amount c) = fadeChannel amount (greenOf c)
  /\ blueOf (fadePixel amount c) = fadeChannel amount (blueOf c).
Proof.
  intros Ha. unfold fadePixel. cbv zeta.
  fold (redOf c). fold (greenOf c). fold (blueOf c).
  pose proof (channel_range c 16) as Hr. pose proof (channel_range c 8) as Hg.
  pose proof (channel_range c 0) as Hb. rewrite Z.shiftr_0_r in Hb.
  fold (redOf c) in Hr. fold (greenOf c) in Hg. fold (blueOf c) in Hb.
  destruct (fadeChannel_darker amount (redOf c) Ha Hr) as [? _].
  destruct (fadeChannel_darker amount (greenOf c) Ha Hg) as [? _].
  destruct (fadeChannel_darker amount (blueOf c) Ha Hb) as [? _].
  apply channels_of_Color; lia.
Qed.

Lemma black_pixel (c : Z) :
  0 <= c < 16777216 -> redOf c = 0 -> greenOf c = 0 -> blueOf c = 0 -> c = 0.
Proof.
  unfold redOf, greenOf, blueOf. rewrite !byte_land, !Z.shiftr_div_pow2 by lia.
  change (2 ^ 16) with 65536. change (2 ^ 8) with 256.
  intros Hc Hr Hg Hb.
  rewrite Z.mod_small in Hr by (split; [apply Z.div_pos; lia
                                        | apply Z.div_lt_upper_bound; lia]).
  pose proof (Z.div_mod c 256 ltac:(lia)) as D1.
  pose proof (Z.div_mod (c / 256) 256 ltac:(lia)) as D2.
  rewrite Z.div_div in D2 by lia. change (256 * 256) with 65536 in D2.
  lia.
Qed.

Lemma fadePixel_black (amount : Z) : fadePixel amount 0 = 0.
Proof. reflexivity. Qed.

Lemma nth_fadeAll (amount : Z) (s : State) (k : nat) :
  nth k (pixels (fadeAll amount s)) 0 = fadePixel amount (nth k (pixels s) 0).
Proof.
  unfold fadeAll, markDirty. cbn_state.
  rewrite <- (fadePixel_black amount) at 1. apply map_nth.
Qed.

(** X6.  [fadeAll] keeps the number of pixels and never brightens one: in every
    pixel each of the three channels ends at or below its old value, strictly
    below it when it was not yet 0, and a black pixel stays black. *)
Theorem fadeAll_darkens (amount : Z) (s : State) (k : nat) :
  0 <= amount <= 255 ->
  let before := nth k (pixels s) 0 in
  let after := nth k (pixels (fadeAll amount s)) 0 in
  length (pixels (fadeAll amount s)) = length (pixels s)
  /\ 0 <= redOf after <= redOf before
  /\ 0 <= greenOf after <= greenOf before
  /\ 0 <= blueOf after <= blueOf before
  /\ (0 < redOf before -> redOf after < redOf before)
  /\ (0 < greenOf before -> greenOf after < greenOf before)
  /\ (0 < blueOf before -> blueOf after < blueOf before)
  /\ (before = 0 -> after = 0).
Proof.
  intros Ha before after.
  unfold after. rewrite nth_fadeAll. fold before.
  destruct (fadePixel_channels amount before Ha) as (-> & -> & ->).
  pose proof (channel_range before 16) as Hr. pose proof (channel_range before 8) as Hg.
  pose proof (channel_range before 0) as Hb. rewrite Z.shiftr_0_r in Hb.
  fold (redOf before) in Hr. fold (greenOf before) in Hg. fold (blueOf before) in Hb.
  destruct (fadeChannel_darker amount (redOf before) Ha Hr) as [R1 R2].
  destruct (fadeChannel_darker amount (greenOf before) Ha Hg) as [G1 G2].
  destruct (fadeChannel_darker amount (blueOf before) Ha Hb) as [B1 B2].
  split.
  { unfold fadeAll, markDirty. cbn_state. apply length_map. }
  repeat split; try tauto; try lia.
  intros ->. reflexivity.
Qed.

Lemma fadeChannel_value (amount x : Z) :
  0 <= amount <= 255 -> 0 <= x <= 255 ->
  fadeChannel amount x = x * (255 - amount) / 256.
Proof.
  intros Ha Hx. unfold fadeChannel, u8.
  rewrite Z.shiftr_div_pow2 by lia. change (2 ^ 8) with 256.
  apply Z.mod_small. split.
  - apply Z.div_pos; nia.
  - apply Z.div_lt_upper_bound; nia.
Qed.

Lemma fadeChannel_mono (amount x y : Z) :
  0 <= amount <= 255 -> 0 <= x <= y -> y <= 255 ->
  fadeChannel amount x <= fadeChannel amount y.
Proof.
  intros Ha Hx Hy.
  rewrite !fadeChannel_value by lia.
  apply Z.div_le_mono; nia.
Qed.

Lemma iter_fadeChannel_bound (amount : Z) (n : nat) (ch : Z) :
  0 <= amount <= 255 -> 0 <= ch <= 255 ->
  0 <= Nat.iter n (fadeChannel amount) ch <= Nat.iter n (fadeChannel amount) 255
  /\ Nat.iter n (fadeChannel amount) 255 <= 255.
Proof.
  intros Ha Hc. induction n as [|n IH]; rewrite ?Nat.iter_succ; [cbn; lia|].
  destruct IH as [[L U] T].
  destruct (fadeChannel_darker amount (Nat.iter n (fadeChannel amount) ch) Ha
              ltac:(lia)) as [D _].
  destruct (fadeChannel_darker amount (Nat.iter n (fadeChannel amount) 255) Ha
              ltac:(lia)) as [D' _].
  pose proof (fadeChannel_mono amount _ _ Ha (conj L U) T). lia.
Qed.

Lemma iter_fadePixel_channels (amount : Z) (n : nat) (c : Z) :
  0 <= amount <= 255 ->
  redOf (Nat.iter n (fadePixel amount) c) = Nat.iter n (fadeChannel amount) (redOf c)
  /\ greenOf (Nat.iter n (fadePixel amount) c)
     = Nat.iter n (fadeChannel amount) (greenOf c)
  /\ blueOf (Nat.iter n (fadePixel amount) c)
     = Nat.iter n (fadeChannel amount) (blueOf c).
Proof.
  intros Ha. induction n as [|n (R & G & B)]; rewrite ?Nat.iter_succ; [cbn; auto|].
  destruct (fadePixel_channels amount (Nat.iter n (fadePixel amount) c) Ha)
    as (-> & -> & ->).
  now rewrite R, G, B.
Qed.

Lemma fade_out (amount : Z) (n : nat) (c : Z) :
  0 <= amount <= 255 ->
  Nat.iter (S n) (fadeChannel amount) 255 = 0 ->
  Nat.iter (S n) (fadePixel amount) c = 0.
Proof.
  intros Ha H255.
  assert (forall ch, 0 <= ch <= 255 ->
            fadeChannel amount (Nat.iter n (fadeChannel amount) ch) = 0) as Hz.
  { intros ch Hc. rewrite <- Nat.iter_succ.
    destruct (iter_fadeChannel_bound amount (S n) ch Ha Hc) as [[L U] _]. lia. }
  pose proof (channel_range c 16) as Hr. pose proof (channel_range c 8) as Hg.
  pose proof (channel_range c 0) as Hb. rewrite Z.shiftr_0_r in Hb.
  fold (redOf c) in Hr. fold (greenOf c) in Hg. fold (blueOf c) in Hb.
  destruct (iter_fadePixel_channels amount n c Ha) as (R & G & B).
  rewrite Nat.iter_succ. unfold fadePixel at 1. cbv zeta.
  fold (redOf (Nat.iter n (fadePixel amount) c)).
  fold (greenOf (Nat.iter n (fadePixel amount) c)).
  fold (blueOf (Nat.iter n (fadePixel amount) c)).
  rewrite R, G, B, (Hz _ Hr), (Hz _ Hg), (Hz _ Hb). reflexivity.
Qed.

Lemma pixels_iter_fadeAll (amount : Z) (n : nat) (s : State) :
  pixels (Nat.iter n (fadeAll amount) s) = map (Nat.iter n (fadePixel amount)) (pixels s).
Proof.
  induction n as [|n IH]; rewrite ?Nat.iter_succ.
  - cbn. symmetry. apply map_id.
  - unfold fadeAll at 1, markDirty. cbn_state. rewrite IH, map_map. reflexivity.
Qed.

Lemma fadeThrough_channels (readBack : Z -> Z) (amount : Z) (n : nat) (c : Z) :
  0 <= amount <= 255 -> dimmer readBack ->
  let v := Nat.iter n (fun c => fadePixel amount (readBack c)) c in
  0 <= redOf v <= Nat.iter n (fadeChannel amount) 255
  /\ 0 <= greenOf v <= Nat.iter n (fadeChannel amount) 255
  /\ 0 <= blueOf v <= Nat.iter n (fadeChannel amount) 255.
Proof.
  intros Ha Hd. cbv zeta.
  induction n as [|n (R & G & B)]; rewrite ?Nat.iter_succ.
  - cbn [Nat.iter nat_rect].
    pose proof (channel_range c 16) as Hr. pose proof (channel_range c 8) as Hg.
    pose proof (channel_range c 0) as Hb. rewrite Z.shiftr_0_r in Hb.
    fold (redOf c) in Hr. fold (greenOf c) in Hg. fold (blueOf c) in Hb. lia.
  - set (x := Nat.iter n (fun c => fadePixel amount (readBack c)) c) in *.
    destruct (fadePixel_channels amount (readBack x) Ha) as (-> & -> & ->).
    destruct (Hd x) as (Dr & Dg & Db).
    pose proof (channel_range (readBack x) 16) as Hr.
    pose proof (channel_range (readBack x) 8) as Hg.
    pose proof (channel_range (readBack x) 0) as Hb. rewrite Z.shiftr_0_r in Hb.
    fold (redOf (readBack x)) in Hr. fold (greenOf (readBack x)) in Hg.
    fold (blueOf (readBack x)) in Hb.
    destruct (iter_fadeChannel_bound amount n 255 Ha ltac:(lia)) as [_ T].
    pose proof (fadeChannel_mono amount (redOf (readBack x))
                  (Nat.iter n (fadeChannel amount) 255) Ha ltac:(lia) T).
    pose proof (fadeChannel_mono amount (greenOf (readBack x))
                  (Nat.iter n (fadeChannel amount) 255) Ha ltac:(lia) T).
    pose proof (fadeChannel_mono amount (blueOf (readBack x))
                  (Nat.iter n (fadeChannel amount) 255) Ha ltac:(lia) T).
    destruct (fadeChannel_darker amount (redOf (readBack x)) Ha Hr) as [? _].
    destruct (fadeChannel_darker amount (greenOf (readBack x)) Ha Hg) as [? _].
    destruct (fadeChannel_darker amount (blueOf (readBack x)) Ha Hb) as [? _].
    lia.
Qed.

Lemma fadeThrough_out (readBack : Z -> Z) (amount : Z) (n : nat) (c : Z) :
  0 <= amount <= 255 -> dimmer readBack ->
  Nat.iter (S n) (fadeChannel amount) 255 = 0 ->
  Nat.iter (S n) (fun c => fadePixel amount (readBack c)) c = 0.
Proof.
  intros Ha Hd Hz.
  pose proof (fadeThrough_channels readBack amount (S n) c Ha Hd) as H.
  cbv zeta in H. rewrite Hz in H. destruct H as (R & G & B).
  rewrite Nat.iter_succ in *.
  set (x := Nat.iter n (fun c => fadePixel amount (readBack c)) c) in *.
  destruct (fadePixel_channels amount (readBack x) Ha) as (Er & Eg & Eb).
  rewrite Er in R. rewrite Eg in G. rewrite Eb in B.
  unfold fadePixel. cbv zeta.
  fold (redOf (readBack x)). fold (greenOf (readBack x)). fold (blueOf (readBack x)).
  replace (fadeChannel amount (redOf (readBack x))) with 0 by lia.
  replace (fadeChannel amount (greenOf (readBack x))) with 0 by lia.
  replace (fadeChannel amount (blueOf (readBack x))) with 0 by lia.
  reflexivity.
Qed.

Lemma iter_fadeThrough (readBack : Z -> Z) (amount : Z) (n : nat) (px : list Z) :
  Nat.iter n (fadeThrough readBack amount) px
  = map (Nat.iter n (fun c => fadePixel amount (readBack c))) px.
Proof.
  induction n as [|n IH]; rewrite ?Nat.iter_succ.
  - cbn [Nat.iter nat_rect]. symmetry. apply map_id.
  - rewrite IH. unfold fadeThrough. rewrite map_map. apply map_ext. intros c.
    now rewrite Nat.iter_succ.
Qed.

Lemma scaledChannel_range (ch : Z) : 0 <= ch <= 255 -> 0 <= scaledChannel ch <= ch.
Proof.
  intros H. unfold scaledChannel.
  rewrite Z.shiftr_div_pow2, Z.shiftl_mul_pow2 by lia. change (2 ^ 8) with 256.
  pose proof (Z.mul_div_le (ch * 101) 256 ltac:(lia)) as L.
  assert (0 <= ch * 101 / 256) as P by (apply Z.div_pos; lia).
  split.
  - apply Z.div_pos; lia.
  - apply Z.div_le_upper_bound; lia.
Qed.

Lemma scaledReadBack_dimmer : dimmer scaledReadBack.
Proof.
  intros c. unfold scaledReadBack.
  pose proof (channel_range c 16) as Hr. pose proof (channel_range c 8) as Hg.
  pose proof (channel_range c 0) as Hb. rewrite Z.shiftr_0_r in Hb.
  fold (redOf c) in Hr. fold (greenOf c) in Hg. fold (blueOf c) in Hb.
  pose proof (scaledChannel_range _ Hr). pose proof (scaledChannel_range _ Hg).
  pose proof (scaledChannel_range _ Hb).
  destruct (channels_of_Color (scaledChannel (redOf c)) (scaledChannel (greenOf c))
              (scaledChannel (blueOf c))) as (-> & -> & ->); lia.
Qed.

(** X7.  The trails die out.  Whatever the colours on the strip, four calls of
    [fadeAll(200)] (Chase), ten of [fadeAll(100)] (Sparkle) or twenty-five of
    [fadeAll(40)] (Cylon) leave every pixel black, and for any amount 255 calls
    do.  These numbers of calls are enough also when the colours come back
    through a read-back that loses brightness: with any read-back that returns,
    channel by channel, no more than was written, the same numbers of passes of
    the loop of [fadeAll] end with black written to every pixel. *)
Theorem trails_fade_out (s : State) :
  pixels (Nat.iter 4 (fadeAll 200) s) = clearPixels (pixels s)
  /\ pixels (Nat.iter 10 (fadeAll 100) s) = clearPixels (pixels s)
  /\ pixels (Nat.iter 25 (fadeAll 40) s) = clearPixels (pixels s)
  /\ (forall amount, 0 <= amount <= 255 ->
      pixels (Nat.iter 255 (fadeAll amount) s) = clearPixels (pixels s))
  /\ (forall readBack, dimmer readBack ->
      Nat.iter 4 (fadeThrough readBack 200) (pixels s) = clearPixels (pixels s)
      /\ Nat.iter 10 (fadeThrough readBack 100) (pixels s) = clearPixels (pixels s)
      /\ Nat.iter 25 (fadeThrough readBack 40) (pixels s) = clearPixels (pixels s)).
Proof.
  assert (forall amount n, 0 <= amount <= 255 ->
            Nat.iter (S n) (fadeChannel amount) 255 = 0 ->
            pixels (Nat.iter (S n) (fadeAll amount) s) = clearPixels (pixels s)) as H.
  { intros amount n Ha Hz. rewrite pixels_iter_fadeAll. unfold clearPixels.
    apply map_ext. intros c. now apply fade_out. }
  assert (forall readBack amount n, 0 <= amount <= 255 -> dimmer readBack ->
            Nat.iter (S n) (fadeChannel amount) 255 = 0 ->
            Nat.iter (S n) (fadeThrough readBack amount) (pixels s)
            = clearPixels (pixels s)) as L.
  { intros readBack amount n Ha Hd Hz. rewrite iter_fadeThrough. unfold clearPixels.
    apply map_ext. intros c. now apply fadeThrough_out. }
  split; [apply (H 200 3%nat); [lia | reflexivity]|].
  split; [apply (H 100 9%nat); [lia | vm_compute; reflexivity]|].
  split; [apply (H 40 24%nat); [lia | vm_compute; reflexivity]|].
  split.
  - intros amount Ha. apply (H amount 254%nat Ha).
    assert (forall n, 0 <= Nat.iter n (fadeChannel amount) 255
                      <= Z.max 0 (255 - Z.of_nat n)) as Hb.
    { induction n as [|n IH]; [cbn; lia|].
      rewrite Nat.iter_succ.
      destruct (fadeChannel_darker amount (Nat.iter n (fadeChannel amount) 255) Ha
                  ltac:(lia)) as [D1 D2].
      lia. }
    specialize (Hb 255%nat). cbn [Z.of_nat] in Hb. lia.
  - intros readBack Hd.
    split; [apply (L readBack 200 3%nat); [lia | exact Hd | reflexivity]|].
    split; [apply (L readBack 100 9%nat); [lia | exact Hd | vm_compute; reflexivity]|].
    apply (L readBack 40 24%nat); [lia | exact Hd | vm_compute; reflexivity].
Qed.

(** *** What a pass depends on *)

Lemma buttonView_control (a b : State) :
  control a = control b -> buttonView a = buttonView b.
Proof. unfold control, buttonView. intros H. injection H; intros; congruence. Qed.

Lemma buttonView_before_button (i : Input) (s : State) :
  buttonView (handleTimeouts i (handleRadioInput i s)) = buttonView s.
Proof.
  unfold handleTimeouts, stripTimeout, noSignalTimeout, handleRadioInput.
  destruct (radio i) as [[p r]|]; cbv zeta; split_ifs; reflexivity.
Qed.

Lemma buttonView_handleButtonInput (i i' : Input) (a b : State) :
  pinLow i = pinLow i' -> millis i AtButton = millis i' AtButton ->
  buttonView a = buttonView b ->
  buttonView (handleButtonInput i a) = buttonView (handleButtonInput i' b)
  /\ gestureOf i a = gestureOf i' b.
Proof.
  intros Hp Hm Hv. unfold buttonView in Hv.
  injection Hv as V1 V2 V3 V4 V5 V6 V7.
  unfold handleButtonInput, gestureOf, buttonView. rewrite Hp, Hm, V4, V5, V6.
  split_ifs; cbn_state; split; congruence.
Qed.

Lemma buttonView_loop (i : Input) (s : State) :
  buttonView (loop i s) = buttonView (handleButtonInput i s).
Proof.
  rewrite (buttonView_control _ _ (control_loop i s)).
  apply buttonView_handleButtonInput; auto using buttonView_before_button.
Qed.

Lemma buttonView_step (e e' : Event) (s s' : State) :
  sameButton e e' -> buttonView s = buttonView s' ->
  buttonView (step e s) = buttonView (step e' s')
  /\ (forall i i', e = Pass i -> e' = Pass i' -> gestureOf i s = gestureOf i' s').
Proof.
  destruct e as [i|t], e' as [i'|t']; cbn [sameButton step]; try contradiction.
  - intros [Hp Hm] Hv. rewrite !buttonView_loop.
    destruct (buttonView_handleButtonInput i i' s s' Hp Hm Hv) as [A B].
    split; [exact A|]. intros j j' Ej Ej'. injection Ej as <-. injection Ej' as <-.
    exact B.
  - intros <- Hv. split; [|discriminate].
    unfold buttonView in Hv. injection Hv as V1 V2 V3 V4 V5 V6 V7.
    unfold button_isr, buttonView. cbv zeta. rewrite V7.
    split_ifs; cbn_state; congruence.
Qed.

Lemma modeOf_view (s s' : State) : buttonView s = buttonView s' -> modeOf s = modeOf s'.
Proof.
  unfold buttonView, modeOf. intros H. injection H as V1 V2 V3 V4 V5 V6 V7.
  now rewrite V2, V3, V4.
Qed.

(** X8.  The operating mode follows the button alone.  Take two runs from
    states that agree on the mode flags, the press flag and time, the last edge
    and the identifier; let them see the same falling edges and, in each pass,
    the same pin level and the same clock reading in part 3, while packets, signal
    strength, the other clock readings and the random numbers differ at will.
    Then they end with those variables equal, in the same mode, having handled
    the same gestures: no packet and no timeout changes the mode. *)
Theorem mode_follows_button_only (es es' : list Event) (s s' : State) :
  Forall2 sameButton es es' ->
  buttonView s = buttonView s' ->
  buttonView (run es s) = buttonView (run es' s')
  /\ modeOf (run es s) = modeOf (run es' s')
  /\ gestures es s = gestures es' s'.
Proof.
  intros Hes. revert s s'.
  induction Hes as [|e e' es es' He _ IH]; intros s s' Hv.
  - cbn [run gestures]. auto using modeOf_view.
  - destruct (buttonView_step e e' s s' He Hv) as [Hstep Hg].
    destruct (IH _ _ Hstep) as (I1 & I2 & I3).
    cbn [run]. split; [exact I1|]. split; [exact I2|].
    destruct e as [i|t], e' as [i'|t']; cbn [sameButton] in He; try contradiction;
      cbn [gestures step] in *.
    + rewrite (Hg i i' eq_refl eq_refl). now f_equal.
    + exact I3.
Qed.

Lemma loop_same_delivery (i i' : Input) (s : State) :
  sameDelivery (radio i) (radio i') -> pinLow i = pinLow i' ->
  millis i = millis i' -> rnd i = rnd i' ->
  loop i s = loop i' s.
Proof.
  destruct i as [ra pl ml rn], i' as [ra' pl' ml' rn']. cbn [radio pinLow millis rnd].
  intros Hd <- <- <-.
  assert (handleRadioInput {| radio := ra; pinLow := pl; millis := ml; rnd := rn |} s
          = handleRadioInput {| radio := ra'; pinLow := pl; millis := ml; rnd := rn |} s)
    as E.
  { unfold handleRadioInput. cbn [radio millis].
    destruct ra as [[p r]|], ra' as [[p' r']|]; cbn [sameDelivery] in Hd;
      try contradiction; [|reflexivity].
    destruct Hd as [Hk <-]. now rewrite Hk. }
  set (i := {| radio := ra; pinLow := pl; millis := ml; rnd := rn |}) in *.
  set (i' := {| radio := ra'; pinLow := pl; millis := ml; rnd := rn |}) in *.
  assert (forall x, handleTimeouts i x = handleTimeouts i' x) as T by reflexivity.
  assert (forall x, handleButtonInput i x = handleButtonInput i' x) as B by reflexivity.
  assert (forall x, runLEDs i x = runLEDs i' x) as L by reflexivity.
  assert (forall x, refreshDisplay i x = refreshDisplay i' x) as D by reflexivity.
  unfold loop. now rewrite E, T, B, L, D.
Qed.

(** X9.  The receiver never looks at [packetCounter].  Two runs from the same
    state whose events coincide except for the counters of the packets received
    end in the same state: a repeated, skipped or replayed counter is accepted
    like any other. *)
Theorem packet_counter_ignored (es es' : list Event) (s : State) :
  Forall2 sameUpToCounter es es' -> run es s = run es' s.
Proof.
  intros Hes. revert s.
  induction Hes as [|e e' es es' He _ IH]; intros s; cbn [run]; [reflexivity|].
  assert (step e s = step e' s) as ->; [|apply IH].
  destruct e as [i|t], e' as [i'|t']; cbn [sameUpToCounter step] in *;
    try contradiction.
  - destruct He as (Hd & Hp & Hm & Hr). now apply loop_same_delivery.
  - now subst.
Qed.

(** *** Adopting a sequence *)

Lemma frameDirty_runLEDs (i : Input) (s : State) :
  frameDirty s = true -> frameDirty (runLEDs i s) = true.
Proof.
  intros H.
  destruct (runLEDs_cases i s) as [E|[E|[E|[E|[E|E]]]]]; rewrite E;
    unfold_animations; cbv zeta; split_ifs; cbn_state; auto.
Qed.

Lemma shown_loop (i : Input) (s : State) :
  let r := handleButtonInput i (handleTimeouts i (handleRadioInput i s)) in
  frameDirty r = true -> shown (loop i s) = pixels (loop i s) :: shown s.
Proof.
  intros r Hd. unfold loop. fold r.
  destruct (refreshDisplay_strip i (showIfDirty (runLEDs i r))) as (_ & _ & -> & ->).
  destruct (showIfDirty_strip (runLEDs i r)) as (-> & _ & -> & _).
  rewrite (frameDirty_runLEDs i r Hd), shown_runLEDs.
  unfold r. now rewrite shown_before_render.
Qed.

Lemma handleRadioInput_adopts (i : Input) (s : State) (p : RadioPacket) (rssi : Z) :
  radio i = Some (p, rssi) -> sequenceId p <> currentSequence s ->
  let s1 := handleRadioInput i s in
  currentSequence s1 = sequenceId p /\ lastPacketTime s1 = millis i AtRecv
  /\ (0 < sequenceId p -> lastActiveAnimationTime s1 = millis i AtActive)
  /\ animationStep s1 = 0 /\ pixels s1 = clearPixels (pixels s)
  /\ frameDirty s1 = true.
Proof.
  intros Hr Hne. cbv zeta. unfold handleRadioInput. rewrite Hr. cbv zeta. cbn_state.
  destruct (Z.eqb_spec (currentSequence s) (sequenceId p)) as [E|_]; [congruence|].
  cbn [negb]. unfold markDirty, strip_clear. cbn_state.
  destruct (Z.ltb_spec 0 (sequenceId p)); cbn_state; repeat split; auto; lia.
Qed.

(** With no gesture and no timeout due, parts 2 and 3 leave the state alone. *)
Lemma timely_pass_keeps (i : Input) (s s1 : State) :
  s1 = handleRadioInput i s ->
  gestureOf i s = NoGesture ->
  elapsed (millis i AtNoSignal) (lastPacketTime s1) <= PACKET_TIMEOUT_MS ->
  currentSequence s1 = 0
  \/ elapsed (millis i AtIdle) (lastActiveAnimationTime s1) <= STRIP_TIMEOUT_MS ->
  handleButtonInput i (handleTimeouts i s1) = s1.
Proof.
  intros E Hg Hn Hi.
  rewrite handleButtonInput_gesture.
  rewrite E at 1. rewrite gestureOf_before_button, Hg.
  unfold handleTimeouts. rewrite (noSignalTimeout_inert i s1 Hn).
  unfold stripTimeout.
  destruct Hi as [-> | Hi]; [reflexivity|].
  destruct (Z.ltb_spec STRIP_TIMEOUT_MS
              (elapsed (millis i AtIdle) (lastActiveAnimationTime s1))); [lia|].
  now rewrite andb_false_r.
Qed.

(** X10.  A pass that receives a packet with a sequence [k >= 0] other than the
    stored one, handles no gesture and reads its clock in time (the no-signal check
    within 3000 ms of the reception, the idle check within 30 minutes of the
    adoption) ends with [k] stored and the reception recorded; for [k > 0] the
    idle timer restarts at the adoption.  The animation starts from step 0 on a
    blank buffer, and the pass puts a frame on the strip.  So a sequence zeroed by
    the idle cutoff or a timeout is taken up again from the next heartbeat that
    carries it. *)
Theorem packet_adopted (i : Input) (s : State) (k : Z) :
  carries k i -> 0 <= k -> k <> currentSequence s ->
  gestureOf i s = NoGesture ->
  elapsed (millis i AtNoSignal) (millis i AtRecv) <= PACKET_TIMEOUT_MS ->
  elapsed (millis i AtIdle) (millis i AtActive) <= STRIP_TIMEOUT_MS ->
  let r := handleButtonInput i (handleTimeouts i (handleRadioInput i s)) in
  currentSequence (loop i s) = k
  /\ lastPacketTime (loop i s) = millis i AtRecv
  /\ (0 < k -> lastActiveAnimationTime (loop i s) = millis i AtActive)
  /\ animationStep r = 0
  /\ pixels r = clearPixels (pixels s)
  /\ shown (loop i s) = pixels (loop i s) :: shown s.
Proof.
  intros (p & rssi & Hr & Hk) Hk0 Hne Hg Hn Hi r. subst k.
  destruct (handleRadioInput_adopts i s p rssi Hr Hne) as (A1 & A2 & A3 & A4 & A5 & A6).
  assert (r = handleRadioInput i s) as Er.
  { apply (timely_pass_keeps i s); auto; [now rewrite A2|].
    destruct (Z.eq_dec (sequenceId p) 0) as [Z0|N0]; [left; congruence|].
    right. rewrite A3 by lia. exact Hi. }
  pose proof (shown_loop i s) as Hshown. cbv zeta in Hshown.
  rewrite currentSequence_loop, lastPacketTime_loop, lastActive_loop.
  change (handleButtonInput i (handleTimeouts i (handleRadioInput i s))) with r
    in Hshown |- *.
  rewrite Er in Hshown |- *.
  split; [exact A1|]. split; [exact A2|]. split; [exact A3|].
  split; [exact A4|]. split; [exact A5|]. exact (Hshown A6).
Qed.

(** A packet with a sequence of 0 or more, received in a pass with no gesture
    and no timeout due, decides the sequence the pass ends with. *)
Lemma received_sequence_stored (i : Input) (s : State) (p : RadioPacket) (rssi : Z) :
  radio i = Some (p, rssi) -> 0 <= sequenceId p ->
  gestureOf i s = NoGesture ->
  elapsed (millis i AtNoSignal) (millis i AtRecv) <= PACKET_TIMEOUT_MS ->
  elapsed (millis i AtIdle) (millis i AtActive) <= STRIP_TIMEOUT_MS ->
  elapsed (millis i AtIdle) (lastActiveAnimationTime s) <= STRIP_TIMEOUT_MS ->
  currentSequence (loop i s) = sequenceId p.
Proof.
  intros Hr Hk Hg Hn Ha Hi.
  destruct (Z.eq_dec (sequenceId p) (currentSequence s)) as [E|N].
  - rewrite E. apply sequence_persists; auto.
    + right. exists p, rssi. auto.
    + unfold handleRadioInput. rewrite Hr. cbv zeta. split_ifs; exact Hn.
  - destruct (handleRadioInput_adopts i s p rssi Hr N) as (A1 & A2 & A3 & _).
    rewrite currentSequence_loop.
    rewrite (timely_pass_keeps i s); auto; [now rewrite A2|].
    destruct (Z.eq_dec (sequenceId p) 0) as [Z0|N0]; [left; congruence|].
    right. rewrite A3 by lia. exact Ha.
Qed.

(** *** The display *)

Lemma oled_before_flush (i : Input) (s : State) :
  oled (showIfDirty (runLEDs i (handleButtonInput i (handleTimeouts i (handleRadioInput i s)))))
  = oled s.
Proof.
  assert (forall x, oled (showIfDirty x) = oled x) as F
      by (intros x; unfold showIfDirty, strip_show; split_ifs; reflexivity).
  assert (forall x, oled (runLEDs i x) = oled x) as R.
  { intros x. destruct (runLEDs_cases i x) as [E|[E|[E|[E|[E|E]]]]]; rewrite E;
      unfold_animations; cbv zeta; split_ifs; reflexivity. }
  rewrite F, R.
  unfold handleButtonInput, handleTimeouts, stripTimeout, noSignalTimeout, handleRadioInput.
  destruct (radio i) as [[p r]|]; cbv zeta; split_ifs; reflexivity.
Qed.

Lemma propID_loop (i : Input) (s : State) : propID (loop i s) = propID s.
Proof.
  pose proof (buttonView_loop i s) as H. unfold buttonView in H.
  injection H as H _ _ _ _ _ _. rewrite H.
  unfold handleButtonInput. split_ifs; reflexivity.
Qed.

Lemma readout_loop (id : Z) (i : Input) (s : State) :
  propID s = id -> inSetupMode s = false -> readoutShows id s ->
  readoutShows id (loop i s).
Proof.
  intros Hid Hs (r & Ho & Hi & Hm).
  pose proof (propID_loop i s) as P. pose proof (inSetupMode_loop i s) as M.
  pose proof (oled_before_flush i s) as O.
  unfold loop in *.
  remember (showIfDirty (runLEDs i (handleButtonInput i
              (handleTimeouts i (handleRadioInput i s))))) as x eqn:Ex. clear Ex.
  revert P M. unfold refreshDisplay, updateDisplay, readoutShows.
  destruct (250 <? elapsed (millis i AtDisplayCheck) (lastDisplayUpdateTime x)).
  - cbn_state. intros P M. rewrite M, Hs.
    eexists. split; [reflexivity|]. cbn [ro_id ro_mode]. split; [congruence|].
    split_ifs; discriminate.
  - intros _ _. exists r. rewrite O. auto.
Qed.

(** X11.  From the state [setup()] hands to the main loop, through any passes
    and button interrupts, the identifier is the one [loadPropID] read at boot,
    between 1 and 18; the display always holds a readout, showing that
    identifier and never the setup label. *)
Theorem readout_shows_stored_id
    (b : BootInput) (e e' : EEPROM) (s0 : State) (es : list Event) :
  setup b e = Running s0 e' ->
  propID (run es s0) = fst (loadPropID e)
  /\ 1 <= propID (run es s0) <= 18
  /\ readoutShows (fst (loadPropID e)) (run es s0).
Proof.
  intros Hb.
  assert (propID s0 = fst (loadPropID e) /\ inSetupMode s0 = false
          /\ readoutShows (fst (loadPropID e)) s0) as H0.
  { revert Hb. unfold setup. destruct (loadPropID e) as [id e1].
    destruct (bootPinLow b); [discriminate|].
    destruct (radioInitOk b); cbn [negb]; [|discriminate].
    destruct (radioFreqOk b); cbn [negb]; [|discriminate].
    intros H. injection H as <- _. cbn [fst].
    split; [reflexivity|]. split; [reflexivity|].
    unfold readoutShows, updateDisplay. eexists. split; [reflexivity|].
    cbn. split; [reflexivity|]. split_ifs; discriminate. }
  clear Hb.
  assert (propID (run es s0) = fst (loadPropID e) /\ inSetupMode (run es s0) = false
          /\ readoutShows (fst (loadPropID e)) (run es s0)) as (A & _ & C).
  { revert s0 H0. induction es as [|ev es IH]; intros s0 (P & M & R); cbn [run]; auto.
    apply IH. destruct ev as [i|t]; cbn [step].
    - rewrite propID_loop, inSetupMode_loop. auto using readout_loop.
    - unfold button_isr, readoutShows in *. cbv zeta. split_ifs; cbn_state; auto. }
  rewrite A. split; [reflexivity|]. split; [apply loadPropID_range | exact C].
Qed.

(** *** The frames of Wipe *)

Lemma setNth_map_seq (f : nat -> Z) (c : Z) (k a n : nat) :
  (k < n)%nat ->
  setNth k c (map f (seq a n))
  = map (fun idx => if (idx =? a + k)%nat then c else f idx) (seq a n).
Proof.
  revert k a. induction n as [|n IH]; intros k a Hk; [lia|].
  destruct k as [|k]; cbn [seq map setNth].
  - rewrite Nat.add_0_r, Nat.eqb_refl. f_equal. symmetry.
    apply map_ext_in. intros idx Hin. apply in_seq in Hin.
    destruct (Nat.eqb_spec idx a); [lia | reflexivity].
  - destruct (Nat.eqb_spec a (a + S k)); [lia|]. f_equal.
    rewrite IH by lia. apply map_ext. intros idx.
    now replace (S a + k)%nat with (a + S k)%nat by lia.
Qed.

Lemma blank_is_wipe_start (px : list Z) :
  length px = Z.to_nat NUM_LEDS -> clearPixels px = wipeFrame NUM_LEDS 0.
Proof.
  intros H. unfold clearPixels. rewrite map_const, H. reflexivity.
Qed.

(** One step of Wipe on its own frame gives the next frame. *)
Lemma wipe_fill (k : Z) :
  0 <= k < NUM_LEDS ->
  setPixelColor k (Color 0 0 255) (wipeFrame NUM_LEDS k) = wipeFrame NUM_LEDS (k + 1).
Proof.
  intros Hk. unfold NUM_LEDS in *. unfold setPixelColor, wipeFrame, u16.
  rewrite Z.mod_small by lia. rewrite length_map, length_seq.
  change (Z.of_nat (Z.to_nat 120)) with 120.
  destruct (Z.ltb_spec k 120); [|lia].
  rewrite setNth_map_seq by (change (Z.to_nat 120) with 120%nat; lia).
  apply map_ext_in. intros idx Hin. apply in_seq in Hin.
  change (Z.to_nat 120) with 120%nat in Hin. unfold wipePixel.
  destruct (Nat.eqb_spec idx (0 + Z.to_nat k));
    destruct (Z.leb_spec k 120); destruct (Z.leb_spec (k + 1) 120);
    destruct (Z.ltb_spec (Z.of_nat idx) k);
    destruct (Z.ltb_spec (Z.of_nat idx) (k + 1)); try reflexivity; lia.
Qed.

Lemma wipe_blank (k : Z) :
  NUM_LEDS <= k < 2 * NUM_LEDS ->
  setPixelColor (k - NUM_LEDS) 0 (wipeFrame NUM_LEDS k)
  = wipeFrame NUM_LEDS (if 2 * NUM_LEDS <=? k + 1 then 0 else k + 1).
Proof.
  intros Hk. unfold NUM_LEDS in *. unfold setPixelColor, wipeFrame, u16.
  rewrite Z.mod_small by lia. rewrite length_map, length_seq.
  change (Z.of_nat (Z.to_nat 120)) with 120.
  destruct (Z.ltb_spec (k - 120) 120); [|lia].
  rewrite setNth_map_seq by (change (Z.to_nat 120) with 120%nat; lia).
  apply map_ext_in. intros idx Hin. apply in_seq in Hin.
  change (Z.to_nat 120) with 120%nat in Hin. unfold wipePixel.
  destruct (Z.leb_spec (2 * 120) (k + 1));
    destruct (Nat.eqb_spec idx (0 + Z.to_nat (k - 120)));
    destruct (Z.leb_spec k 120);
    repeat match goal with
           | |- context [?a <=? ?b] => destruct (Z.leb_spec a b)
           | |- context [?a <? ?b] => destruct (Z.ltb_spec a b)
           end; try reflexivity; lia.
Qed.

Ltac open_wipe :=
  unfold wipeInvariant, wipeRendering, wiping in *;
  repeat match goal with H : _ /\ _ |- _ => destruct H end.

Ltac close_wipe :=
  cbn_state; rewrite ?length_clearPixels, ?clearPixels_idem;
  repeat split; intros;
  repeat match goal with H : _ /\ _ |- _ => destruct H end;
  repeat match goal with
         | H : ?A -> _ |- _ =>
             let X := fresh in
             assert A as X by (repeat split; first [assumption | congruence]);
             specialize (H X); clear X
         end;
  repeat match goal with H : _ /\ _ |- _ => destruct H end;
  try assumption; try reflexivity; try discriminate; try congruence;
  try (unfold NUM_LEDS in *; lia);
  try (apply blank_is_wipe_start; assumption);
  try match goal with
      | H : ?px = clearPixels ?px |- ?px = wipeFrame _ 0 =>
          rewrite H; apply blank_is_wipe_start; assumption
      end;
  auto.

Lemma wipeInvariant_handleRadioInput (i : Input) (s : State) :
  wipeInvariant s -> wipeInvariant (handleRadioInput i s).
Proof.
  intros H. unfold handleRadioInput.
  destruct (radio i) as [[p rssi]|]; [|exact H]. cbv zeta. cbn_state.
  destruct (negb (currentSequence s =? sequenceId p)).
  - unfold markDirty, strip_clear. open_wipe.
    destruct (0 <? _); close_wipe.
  - open_wipe. close_wipe.
Qed.

Lemma wipeInvariant_handleTimeouts (i : Input) (s : State) :
  wipeInvariant s -> wipeInvariant (handleTimeouts i s).
Proof.
  assert (forall x, wipeInvariant x ->
                    wipeInvariant (set_animationStep 0 (set_currentSequence 0 x))) as Z0
      by (intros x Hx; open_wipe; close_wipe).
  intros H. unfold handleTimeouts.
  assert (wipeInvariant (noSignalTimeout i s)) as H1
      by (unfold noSignalTimeout; split_ifs; auto).
  revert H1. generalize (noSignalTimeout i s) as x. intros x Hx.
  unfold stripTimeout. split_ifs; auto.
Qed.

Lemma wipeRendering_handleButtonInput (i : Input) (s : State) :
  wipeInvariant s -> wipeRendering (handleButtonInput i s).
Proof.
  intros H. rewrite handleButtonInput_gesture.
  destruct (gestureOf i s).
  - apply H.
  - destruct (inDiagnosticMode s) eqn:D, (inTestMode s) eqn:T;
      open_wipe; cbn_state; rewrite ?D, ?T in *; cbn [negb andb] in *; close_wipe.
  - open_wipe. close_wipe.
Qed.

Lemma wipeInvariant_animationOff (s : State) :
  wipeRendering s -> inDiagnosticMode s = true \/ currentSequence s <> 3 ->
  wipeInvariant (animationOff s).
Proof.
  intros H Hm. unfold animationOff, markAllOff, strip_clear.
  destruct (stripIsOff s) eqn:O; cbn [negb]; open_wipe; close_wipe;
    destruct Hm; congruence.
Qed.

Lemma wipeInvariant_repaint (s s' : State) :
  wipeRendering s -> inDiagnosticMode s = false ->
  inTestMode s = true \/ currentSequence s <> 3 ->
  inDiagnosticMode s' = inDiagnosticMode s -> inTestMode s' = inTestMode s ->
  currentSequence s' = currentSequence s ->
  length (pixels s') = length (pixels s) ->
  (stripIsOff s' = true -> stripIsOff s = true /\ pixels s' = pixels s) ->
  wipeInvariant s'.
Proof.
  intros H Hd Hm Ed Et Es El Eo. open_wipe. rewrite Ed, Et, Es, El.
  repeat split; intros;
    repeat match goal with H : _ /\ _ |- _ => destruct H end;
    try assumption; try congruence;
    try (destruct Hm; congruence).
  destruct (Eo ltac:(assumption)) as [O ->]. auto.
Qed.

Lemma wipeInvariant_animationWipe (i : Input) (s : State) :
  wipeRendering s -> wiping s -> wipeInvariant (animationWipe i s).
Proof.
  intros H W. unfold animationWipe. destruct (paced i s).
  { split; [exact H | destruct W; congruence]. }
  destruct H as (Hlen & Hx & Ho & Hw). destruct (Hw W) as [Hk Hp].
  destruct W as (Wd & Wt & Ws).
  unfold stampAnimation, markDirty, numPixels. cbv zeta. cbn_state.
  rewrite Hlen. unfold NUM_LEDS in *. change (Z.of_nat (Z.to_nat 120)) with 120.
  unfold wipeInvariant, wipeRendering, wiping, NUM_LEDS, u16.
  destruct (Z.ltb_spec (animationStep s) 120) as [L|L]; cbn_state.
  - rewrite (Z.mod_small (animationStep s + 1)) by lia.
    destruct (Z.leb_spec (2 * 120) (animationStep s + 1)); [lia|]. cbn_state.
    pose proof (wipe_fill (animationStep s)) as F. unfold NUM_LEDS in F.
    rewrite length_setPixelColor, Hp, F by lia.
    repeat split; intros; try assumption; try lia; try discriminate; congruence.
  - destruct (Z.ltb_spec (animationStep s) (2 * 120)) as [U|U]; [|lia]. cbn_state.
    rewrite (Z.mod_small (animationStep s + 1)) by lia.
    pose proof (wipe_blank (animationStep s)) as B. unfold NUM_LEDS in B.
    rewrite <- Hp in B at 1. specialize (B ltac:(lia)).
    destruct (Z.leb_spec (2 * 120) (animationStep s + 1)); cbn_state;
      rewrite length_setPixelColor, B;
      repeat split; intros; try assumption; try lia; try discriminate; congruence.
Qed.

Lemma wipeInvariant_runLEDs (i : Input) (s : State) :
  wipeRendering s -> wipeInvariant (runLEDs i s).
Proof.
  intros H. unfold runLEDs.
  destruct (inDiagnosticMode s) eqn:D; [apply wipeInvariant_animationOff; auto|].
  destruct (inTestMode s) eqn:T.
  { apply (wipeInvariant_repaint s); auto;
      unfold animationRainbow, stampAnimation, markDirty, numPixels; cbv zeta;
      destruct (paced i s); cbn_state; auto; try discriminate.
    now rewrite length_map, length_seq, Nat2Z.id. }
  destruct (runSequence_at i s) as (R1 & R2 & R3 & R4 & R5 & R0).
  destruct (Z.eq_dec (currentSequence s) 3) as [E3|N3].
  { rewrite (R3 E3). apply wipeInvariant_animationWipe; [exact H | repeat split; auto]. }
  destruct (Z_lt_le_dec (currentSequence s) 1) as [L|L];
    [rewrite R0 by auto; apply wipeInvariant_animationOff; auto|].
  destruct (Z_lt_le_dec 5 (currentSequence s)) as [U|U];
    [rewrite R0 by auto; apply wipeInvariant_animationOff; auto|].
  assert (currentSequence s = 1 \/ currentSequence s = 2
          \/ currentSequence s = 4 \/ currentSequence s = 5) as Hs by lia.
  destruct Hs as [E | [E | [E | E]]];
    [rewrite (R1 E) | rewrite (R2 E) | rewrite (R4 E) | rewrite (R5 E)];
    apply (wipeInvariant_repaint s); auto;
    unfold animationRainbow, animationChase, animationSparkle, animationCylon, fadeAll,
      stampAnimation, markDirty, numPixels; cbv zeta;
    destruct (paced i s); cbn_state; auto; try discriminate;
    try (split_ifs; cbn_state; auto; discriminate);
    try (split_ifs; cbn_state;
         now rewrite ?length_setPixelColor, ?length_map, ?length_seq, ?Nat2Z.id).
Qed.

Lemma wipeInvariant_loop (i : Input) (s : State) :
  wipeInvariant s -> wipeInvariant (loop i s).
Proof.
  intros H. unfold loop. cbv zeta.
  pose proof (wipeInvariant_runLEDs i _
                (wipeRendering_handleButtonInput i _
                   (wipeInvariant_handleTimeouts i _
                      (wipeInvariant_handleRadioInput i s H)))) as Hr.
  revert Hr.
  generalize (runLEDs i (handleButtonInput i (handleTimeouts i (handleRadioInput i s)))).
  intros r Hr.
  unfold refreshDisplay, updateDisplay, showIfDirty, strip_show.
  split_ifs; open_wipe; close_wipe.
Qed.

Lemma wipeInvariant_run (es : list Event) (s : State) :
  wipeInvariant s -> wipeInvariant (run es s).
Proof.
  revert s. induction es as [|[i|t] es IH]; cbn [run step]; intros s H; auto.
  - apply IH. now apply wipeInvariant_loop.
  - apply IH. unfold button_isr. cbv zeta. split_ifs; open_wipe; close_wipe.
Qed.

(** X12.  Wipe shows its frame.  From [setup()] on, through any passes and
    button interrupts, whenever the receiver is in Ready mode with sequence 3
    stored, [animationStep] is below 240 and the pixel buffer is exactly the Wipe
    frame of that step (blue up to the step during the first 120 steps, black
    following it during the next 120), and that frame is the one latched on the
    strip; in Diagnostic the buffer is blank. *)
Theorem wipe_shows_its_frame
    (b : BootInput) (e e' : EEPROM) (s0 : State) (es : list Event) :
  setup b e = Running s0 e' ->
  let s := run es s0 in
  (modeOf s = Ready -> currentSequence s = 3 ->
   0 <= animationStep s < 2 * NUM_LEDS
   /\ pixels s = wipeFrame NUM_LEDS (animationStep s)
   /\ exists older, shown s = wipeFrame NUM_LEDS (animationStep s) :: older)
  /\ (modeOf s = Diagnostic -> pixels s = clearPixels (pixels s)).
Proof.
  intros Hb s.
  assert (wipeInvariant s0) as H0.
  { revert Hb. unfold setup. destruct (loadPropID e) as [id e1].
    destruct (bootPinLow b); [discriminate|].
    destruct (radioInitOk b); cbn [negb]; [|discriminate].
    destruct (radioFreqOk b); cbn [negb]; [|discriminate].
    intros H. injection H as <- _.
    unfold wipeInvariant, wipeRendering, wiping. cbn.
    repeat split; intros; try reflexivity; discriminate. }
  pose proof (wipeInvariant_run es s0 H0) as [(_ & _ & _ & Hw) Hd]. fold s in Hw, Hd.
  pose proof (coalesced_run es s0 (coalesced_after_setup b e e' s0 Hb))
    as (_ & (older & Hs) & _). fold s in Hs.
  split.
  - unfold modeOf. intros Hm H3.
    destruct (inDiagnosticMode s) eqn:D; [discriminate|].
    destruct (inSetupMode s); [discriminate|].
    destruct (inTestMode s) eqn:T; [discriminate|].
    destruct (Hw (conj D (conj T H3))) as [Hk Hp].
    split; [exact Hk|]. split; [exact Hp|].
    exists older. now rewrite <- Hp.
  - unfold modeOf. intros Hm. apply Hd.
    destruct (inDiagnosticMode s); [reflexivity|].
    destruct (inSetupMode s); [discriminate|].
    destruct (inTestMode s); discriminate.
Qed.

(** *** The hues of Rainbow *)

Lemma rainbowPixel_step_mod (n step step' idx : Z) :
  step mod 256 = step' mod 256 -> rainbowPixel n step idx = rainbowPixel n step' idx.
Proof.
  intros H. unfold rainbowPixel, u16. do 2 f_equal.
  rewrite (Z.div_mod step 256), (Z.div_mod step' 256), H by lia.
  replace (idx * 65536 / n + (256 * (step / 256) + step' mod 256) * 256)
    with (idx * 65536 / n + step' mod 256 * 256 + (step / 256) * 65536) by lia.
  replace (idx * 65536 / n + (256 * (step' / 256) + step' mod 256) * 256)
    with (idx * 65536 / n + step' mod 256 * 256 + (step' / 256) * 65536) by lia.
  now rewrite !Z_mod_plus_full.
Qed.

(** X13.  A Rainbow frame depends on [animationStep] only through its value
    modulo 256: two due calls on strips of the same length whose steps agree
    modulo 256 paint the same frame.  So the animation repeats every 256 frames,
    and the wrap of the 16-bit [animationStep] from 65535 to 0 does not show. *)
Theorem rainbow_frame_period (i i' : Input) (s s' : State) :
  paced i s = false -> paced i' s' = false ->
  length (pixels s) = length (pixels s') ->
  animationStep s mod 256 = animationStep s' mod 256 ->
  pixels (animationRainbow i s) = pixels (animationRainbow i' s').
Proof.
  intros Hp Hp' Hl Hm. unfold animationRainbow. rewrite Hp, Hp'.
  unfold stampAnimation, markDirty, numPixels. cbv zeta. cbn_state. rewrite Hl.
  apply map_ext. intros k. apply rainbowPixel_step_mod.
  unfold u16.
  assert (forall x, (x mod 65536) mod 256 = x mod 256) as T.
  { intros x. rewrite (Z.div_mod x 65536) at 2 by lia.
    replace (65536 * (x / 65536) + x mod 65536)
      with (x mod 65536 + (256 * (x / 65536)) * 256) by lia.
    now rewrite Z_mod_plus_full. }
  rewrite !T. rewrite <- (Zplus_mod_idemp_l (animationStep s)), Hm.
  now rewrite Zplus_mod_idemp_l.
Qed.

End WithDriver.

(** ** Concrete runs

    The runs below use the sample driver [refDriver]. *)

#[local] Existing Instance refDriver.

Lemma no_signal_forces_off_witness :
  currentSequence
    (run ([Pass (idle 11000); ButtonEdge 12000] ++ [Pass (held 13001)])
         (loop (receive 10000 2) booted)) = 0
  /\ currentSequence
       (run ([Pass (idle 11000); ButtonEdge 12000]
               ++ Pass (held 13001) :: [Pass (idle 13002); Pass (idle 60000)])
            (loop (receive 10000 2) booted)) = 0.
Proof.
  assert (Forall silent [Pass (idle 11000); ButtonEdge 12000]) as Hb
      by (repeat constructor).
  assert (PACKET_TIMEOUT_MS
          < elapsed (millis (held 13001) AtNoSignal)
              (lastPacketTime (loop (receive 10000 2) booted))) as Ht
      by (vm_compute; reflexivity).
  assert (Forall silent [Pass (idle 13002); Pass (idle 60000)]) as Ha
      by (repeat constructor).
  destruct (no_signal_forces_off (loop (receive 10000 2) booted)
              [Pass (idle 11000); ButtonEdge 12000] (held 13001)
              [Pass (idle 13002); Pass (idle 60000)] Hb eq_refl Ht Ha)
    as (A & B & _).
  exact (conj A B).
Defined.

(** C1 as stated fails on the boundary.  A packet with sequence 2 arrives at
    10000 ms; the pass whose clock reads exactly 10000 + 3000 ms is a pass "at or
    after t0 + 3000 ms", yet it leaves the sequence index at 2, because the check
    is [millis() - lastPacketTime > PACKET_TIMEOUT_MS]. *)
Lemma no_signal_not_yet_at_3000 :
  let s := loop (receive 10000 2) booted in
  let tick := idle 13000 in
  lastPacketTime s = 10000 /\ currentSequence s = 2
  /\ radio tick = None /\ millis tick AtNoSignal = 10000 + 3000
  /\ currentSequence (loop tick s) = 2 /\ currentSequence (loop tick s) <> 0.
Proof. vm_compute. repeat split; try reflexivity; discriminate. Qed.

(** C2 as stated fails for the exit from Diagnostic.  In [inDiagnostic] the
    receiver is in Diagnostic with sequence 3 stored by a packet; the pass at
    9200 ms sees the button released and handles a ShortPress: the mode becomes
    Ready, but the sequence index is 3 after part 3 and at the end of the pass,
    not 0. *)
Lemma diagnostic_exit_keeps_sequence :
  let s := inDiagnostic in
  let tick := idle 9200 in
  modeOf s = Diagnostic /\ currentSequence s = 3
  /\ gestureOf tick s = ShortPress
  /\ modeOf (loop tick s) = Ready
  /\ currentSequence
       (handleButtonInput tick (handleTimeouts tick (handleRadioInput tick s))) = 3
  /\ currentSequence (loop tick s) <> 0.
Proof. vm_compute. repeat split; try reflexivity; discriminate. Qed.

Lemma short_press_transition_witness :
  let s1 := handleTimeouts (idle 9200) (handleRadioInput (idle 9200) inDiagnostic) in
  let s2 := handleButtonInput (idle 9200) s1 in
  animationStep s2 = 0 /\ buttonPressFlag s2 = false /\ inDiagnosticMode s2 = false
  /\ (inDiagnosticMode inDiagnostic = false ->
      inTestMode s2 = negb (inTestMode inDiagnostic) /\ currentSequence s2 = 0
      /\ currentSequence (loop (idle 9200) inDiagnostic) = 0)
  /\ (inDiagnosticMode inDiagnostic = true ->
      inTestMode s2 = inTestMode inDiagnostic /\ currentSequence s2 = currentSequence s1
      /\ currentSequence (loop (idle 9200) inDiagnostic) = currentSequence s1).
Proof.
  assert (gestureOf (idle 9200) inDiagnostic = ShortPress) as Hg
      by (vm_compute; reflexivity).
  pose proof (short_press_transition (idle 9200) inDiagnostic Hg) as H.
  cbv zeta in H |- *. exact H.
Defined.

Lemma long_hold_acts_once_witness :
  let holding := [ButtonEdge 2003; Pass (held 3000); Pass (held 6999)] in
  let later := [Pass (held 7100); Pass (idle 8000); Pass (receive 8100 2)] in
  let s0 := button_isr 2000 booted in
  let s1 := run (holding ++ [Pass (held 7000)]) s0 in
  let s2 := run (holding ++ Pass (held 7000) :: later) s0 in
  gestures (holding ++ Pass (held 7000) :: later) s0
  = idlePasses holding ++ LongHoldConfirmed :: idlePasses later
  /\ inDiagnosticMode s1 = true /\ inTestMode s1 = false /\ currentSequence s1 = 0
  /\ buttonPressFlag s1 = false
  /\ inDiagnosticMode s2 = true /\ inTestMode s2 = false /\ buttonPressFlag s2 = false.
Proof.
  assert (inDiagnosticMode booted = false) as Hd by (vm_compute; reflexivity).
  assert (200 < elapsed 2000 (last_interrupt_time booted)) as Ha
      by (vm_compute; reflexivity).
  assert (Forall (heldBelow 2000) [ButtonEdge 2003; Pass (held 3000); Pass (held 6999)])
    as Hh by (repeat constructor; vm_compute; reflexivity).
  assert (5000 <= elapsed (millis (held 7000) AtButton) 2000) as Hf
      by (vm_compute; discriminate).
  assert (edgesRejected 2000
            ([ButtonEdge 2003; Pass (held 3000); Pass (held 6999)]
               ++ Pass (held 7000)
                    :: [Pass (held 7100); Pass (idle 8000); Pass (receive 8100 2)]))
    as He by (cbn; split; [vm_compute; discriminate | exact I]).
  pose proof (long_hold_acts_once booted 2000
                [ButtonEdge 2003; Pass (held 3000); Pass (held 6999)] (held 7000)
                [Pass (held 7100); Pass (idle 8000); Pass (receive 8100 2)]
                Hd Ha Hh eq_refl Hf He) as H.
  cbv zeta in H |- *. exact H.
Defined.

(** Diagnostic left by a ShortPress, once entered from Ready and once entered
    from Test. *)
Lemma diagnostic_exits_to_ready_witness :
  let fromReady := run toDiagnostic booted in
  let fromTest := run testToDiagnostic booted in
  (modeOf fromReady = Diagnostic
   /\ gestureOf (idle 9200) fromReady = ShortPress
   /\ modeOf (loop (idle 9200) fromReady) = Ready)
  /\ (modeOf (run toTest booted) = Test
      /\ inTestMode fromTest && inDiagnosticMode fromTest = false
      /\ modeOf fromTest = Diagnostic
      /\ gestureOf (idle 9200) fromTest = ShortPress
      /\ modeOf (loop (idle 9200) fromTest) = Ready).
Proof.
  cbv zeta.
  assert (modeOf (run toDiagnostic booted) = Diagnostic) as M1
      by (vm_compute; reflexivity).
  assert (gestureOf (idle 9200) (run toDiagnostic booted) = ShortPress) as G1
      by (vm_compute; reflexivity).
  assert (modeOf (run toTest booted) = Test) as T2 by (vm_compute; reflexivity).
  assert (modeOf (run testToDiagnostic booted) = Diagnostic) as M2
      by (vm_compute; reflexivity).
  assert (gestureOf (idle 9200) (run testToDiagnostic booted) = ShortPress) as G2
      by (vm_compute; reflexivity).
  pose proof (diagnostic_exits_to_ready powerOn erased (snd (loadPropID erased))
                booted toDiagnostic (idle 9200) eq_refl) as H1.
  pose proof (diagnostic_exits_to_ready powerOn erased (snd (loadPropID erased))
                booted testToDiagnostic (idle 9200) eq_refl) as H2.
  cbv zeta in H1, H2.
  destruct H1 as [_ E1]. destruct H2 as [X2 E2].
  exact (conj (conj M1 (conj G1 (E1 M1 G1)))
              (conj T2 (conj X2 (conj M2 (conj G2 (E2 M2 G2)))))).
Defined.

(** C4 as stated fails on the boundary.  Sequence 2 is stored at 10000 ms and
    the remote repeats it every 500 ms.  At the pass that reads 10000 + 1800000 ms
    the index has been non-zero for 30 minutes, yet that pass leaves it at 2, and
    so does a further pass within the same millisecond: the check is
    [millis() - lastActiveAnimationTime > STRIP_TIMEOUT_MS].  One millisecond
    later it is forced to 0. *)
Lemma idle_cutoff_not_yet_at_30_minutes :
  let s := run (passes (heartbeats 10000 500 3600 2)) booted in
  let tick := receive 1810000 2 in
  currentSequence s = 2 /\ lastActiveAnimationTime s = 10000
  /\ lastPacketTime s = 1809500
  /\ millis tick AtIdle = 10000 + STRIP_TIMEOUT_MS
  /\ currentSequence (loop tick s) = 2 /\ currentSequence (loop tick s) <> 0
  /\ currentSequence (loop tick (loop tick s)) = 2
  /\ currentSequence (loop (receive 1810001 2) s) = 0.
Proof. vm_compute. repeat split; try reflexivity; discriminate. Qed.

Lemma idle_cutoff_despite_packets_witness :
  let s := loop (receive 10000 2) booted in
  let s1 := run (passes [receive 10500 2; receive 11000 2]) s in
  currentSequence s1 = currentSequence s
  /\ lastActiveAnimationTime s1 = lastActiveAnimationTime s
  /\ currentSequence (loop (receive 1810001 2) s1) = 0
  /\ (forall i s',
        lastActiveAnimationTime (loop i s') <> lastActiveAnimationTime s' ->
        exists p rssi,
          radio i = Some (p, rssi) /\ sequenceId p <> currentSequence s'
          /\ 0 < sequenceId p
          /\ lastActiveAnimationTime (loop i s') = millis i AtActive).
Proof.
  assert (buttonPressFlag (loop (receive 10000 2) booted) = false) as Hf
      by (vm_compute; reflexivity).
  assert (Forall (sustains (currentSequence (loop (receive 10000 2) booted))
                    (lastActiveAnimationTime (loop (receive 10000 2) booted)))
            [receive 10500 2; receive 11000 2]) as Hl.
  { repeat constructor;
      try (exists {| packetCounter := 1; sequenceId := 2 |}, (-40);
           split; vm_compute; reflexivity);
      vm_compute; discriminate. }
  assert (carries (currentSequence (loop (receive 10000 2) booted))
            (receive 1810001 2)) as Hc
      by (exists {| packetCounter := 1; sequenceId := 2 |}, (-40);
          split; vm_compute; reflexivity).
  assert (STRIP_TIMEOUT_MS
          < elapsed (millis (receive 1810001 2) AtIdle)
              (lastActiveAnimationTime (loop (receive 10000 2) booted))) as Ht
      by (vm_compute; reflexivity).
  pose proof (idle_cutoff_despite_packets (loop (receive 10000 2) booted)
                [receive 10500 2; receive 11000 2] (receive 1810001 2)
                Hf Hl (or_intror Hc) Ht) as H.
  cbv zeta in H |- *. exact H.
Defined.


(** C7 as stated fails when a packet changes the stored sequence while Off is
    rendered.  In Diagnostic the buffer is blank; two consecutive passes receive
    sequence 1 and then sequence 2.  Both leave the buffer exactly as it was, all
    pixels 0, and both flush it: [frameDirty] records that the buffer was written,
    not that its contents differ. *)
Lemma identical_frames_flushed_twice :
  let s := diagnosticIdle in
  let s1 := loop (receive 8100 1) s in
  let s2 := loop (receive 8104 2) s1 in
  modeOf s = Diagnostic /\ modeOf s1 = Diagnostic /\ modeOf s2 = Diagnostic
  /\ pixels s = repeat 0 120 /\ pixels s1 = pixels s /\ pixels s2 = pixels s1
  /\ shown s1 = pixels s1 :: shown s
  /\ shown s2 = pixels s2 :: pixels s1 :: shown s
  /\ length (shown s2) = S (S (length (shown s))).
Proof. vm_compute. repeat split; reflexivity. Qed.

Lemma flush_iff_dirty_witness :
  let s := loop (receive 10000 2) booted in
  let s1 := loop (idle 13001) s in
  let s2 := loop (idle 13002) s1 in
  shown s1 = pixels s1 :: shown s
  /\ shown s2 = shown s1 /\ pixels s2 = pixels s1
  /\ (length (shown s2) <= S (length (shown s)))%nat.
Proof.
  pose proof (flush_iff_dirty (loop (receive 10000 2) booted) (idle 13001) (idle 13002))
    as (Hflush & _ & Hpix & Hoff & _).
  cbv zeta in *.
  assert (rendersOff (loop (idle 13001) (loop (receive 10000 2) booted))) as O1
      by (right; vm_compute; split; [reflexivity | left; reflexivity]).
  assert (rendersOff (loop (idle 13002)
                        (loop (idle 13001) (loop (receive 10000 2) booted)))) as O2
      by (right; vm_compute; split; [reflexivity | left; reflexivity]).
  destruct (Hoff O1 O2 (or_introl eq_refl)) as (A & B & C & _).
  split; [|auto].
  rewrite Hflush, Hpix.
  assert (frameDirty
            (runLEDs (idle 13001)
               (handleButtonInput (idle 13001)
                  (handleTimeouts (idle 13001)
                     (handleRadioInput (idle 13001) (loop (receive 10000 2) booted)))))
          = true) as -> by (vm_compute; reflexivity).
  reflexivity.
Defined.

Lemma out_of_range_sequence_stored_witness :
  let p := {| packetCounter := 1; sequenceId := 200 |} in
  let s1 := handleRadioInput (receive 10000 200) booted in
  let r := handleButtonInput (receive 10000 200) (handleTimeouts (receive 10000 200) s1) in
  currentSequence s1 = sequenceId p
  /\ (currentSequence booted <> sequenceId p -> animationStep s1 = 0)
  /\ runSequence (receive 10000 200) s1 = animationOff s1
  /\ (currentSequence (loop (receive 10000 200) booted) = sequenceId p
      \/ currentSequence (loop (receive 10000 200) booted) = 0)
  /\ runSequence (receive 10000 200) r = animationOff r.
Proof.
  assert (sequenceId {| packetCounter := 1; sequenceId := 200 |} < 0
          \/ 5 < sequenceId {| packetCounter := 1; sequenceId := 200 |}) as Hp
      by (right; vm_compute; reflexivity).
  pose proof (out_of_range_sequence_stored (receive 10000 200) booted
                {| packetCounter := 1; sequenceId := 200 |} (-40) eq_refl Hp) as H.
  cbv zeta in H |- *. exact H.
Defined.



(** Bounce after an accepted press: the edge at 1000 ms is taken, those at 1050,
    1120 and 1300 ms fall within 200 ms of their predecessor. *)
Lemma button_isr_ignores_bounce_witness :
  let s := run [ButtonEdge 1000] booted in
  run (map ButtonEdge [1050; 1120; 1300]) s
  = set_last_interrupt_time (last [1050; 1120; 1300] 0) s.
Proof.
  cbv zeta.
  assert ([1050; 1120; 1300] <> []) as Hne by discriminate.
  assert (edgesRejected (last_interrupt_time (run [ButtonEdge 1000] booted))
            (map ButtonEdge [1050; 1120; 1300])) as He
      by (vm_compute; repeat split; discriminate).
  exact (proj1 (button_isr_ignores_bounce [1050; 1120; 1300]
                  (run [ButtonEdge 1000] booted) Hne He)).
Defined.

Lemma strip_keeps_its_length_witness :
  length (pixels (run [Pass (receive 10000 2); ButtonEdge 10010; Pass (idle 10020)] booted))
  = 120%nat
  /\ Forall (fun frame => length frame = 120%nat)
       (shown (run [Pass (receive 10000 2); ButtonEdge 10010; Pass (idle 10020)] booted)).
Proof.
  exact (strip_keeps_its_length powerOn erased (snd (loadPropID erased)) booted
           [Pass (receive 10000 2); ButtonEdge 10010; Pass (idle 10020)] eq_refl).
Defined.

Lemma cursors_stay_on_strip_witness :
  cursorsInRange (run [Pass (receive 10000 5); Pass (idle 10020)] booted)
  /\ cursorsInRange
       (handleButtonInput (receive 10040 3)
          (handleTimeouts (receive 10040 3)
             (handleRadioInput (receive 10040 3)
                (run [Pass (receive 10000 5); Pass (idle 10020)] booted)))).
Proof.
  exact (cursors_stay_on_strip powerOn erased (snd (loadPropID erased)) booted
           [Pass (receive 10000 5); Pass (idle 10020)] (receive 10040 3) eq_refl).
Defined.

(** Chase has lit pixel 0 in red; one more [fadeAll(200)] dims it. *)
Lemma fadeAll_darkens_witness :
  let s := loop (receive 10000 2) booted in
  redOf (nth 0 (pixels s) 0) = 255
  /\ redOf (nth 0 (pixels (fadeAll 200 s)) 0) < redOf (nth 0 (pixels s) 0).
Proof.
  cbv zeta.
  assert (0 <= 200 <= 255) as Ha by lia.
  assert (redOf (nth 0 (pixels (loop (receive 10000 2) booted)) 0) = 255) as Hr
      by (vm_compute; reflexivity).
  pose proof (fadeAll_darkens 200 (loop (receive 10000 2) booted) 0 Ha) as H.
  cbv zeta in H. destruct H as (_ & _ & _ & _ & Hlt & _).
  split; [exact Hr|]. apply Hlt. rewrite Hr. lia.
Defined.

(** The trail of Chase after its first frame, read back through the scaling
    read-back: four passes blank it. *)
Lemma trails_fade_out_witness :
  let s := loop (receive 10000 2) booted in
  redOf (nth 0 (pixels s) 0) = 255
  /\ Nat.iter 4 (fadeThrough scaledReadBack 200) (pixels s) = clearPixels (pixels s)
  /\ pixels (Nat.iter 4 (fadeAll 200) s) = clearPixels (pixels s).
Proof.
  cbv zeta.
  assert (redOf (nth 0 (pixels (loop (receive 10000 2) booted)) 0) = 255) as Hr
      by (vm_compute; reflexivity).
  destruct (trails_fade_out (loop (receive 10000 2) booted)) as (A & _ & _ & _ & L).
  destruct (L scaledReadBack scaledReadBack_dimmer) as (B & _).
  exact (conj Hr (conj B A)).
Defined.

(** The same long hold, once in silence and once with a packet arriving. *)
Lemma mode_follows_button_only_witness :
  modeOf (run [ButtonEdge 2000; Pass (held 7000)] booted)
  = modeOf (run [ButtonEdge 2000; Pass (receiveHeld 7000 3)] booted)
  /\ gestures [ButtonEdge 2000; Pass (held 7000)] booted
     = gestures [ButtonEdge 2000; Pass (receiveHeld 7000 3)] booted.
Proof.
  assert (Forall2 sameButton [ButtonEdge 2000; Pass (held 7000)]
            [ButtonEdge 2000; Pass (receiveHeld 7000 3)]) as Hs
      by (repeat constructor).
  exact (proj2 (mode_follows_button_only _ _ booted booted Hs eq_refl)).
Defined.

Lemma packet_counter_ignored_witness :
  let again := {| radio := Some ({| packetCounter := 1; sequenceId := 2 |}, -40);
                  pinLow := false; millis := fun _ => 10500; rnd := 0 |} in
  let fresh := {| radio := Some ({| packetCounter := 7; sequenceId := 2 |}, -40);
                  pinLow := false; millis := fun _ => 10500; rnd := 0 |} in
  run [Pass (receive 10000 2); Pass again] booted
  = run [Pass (receive 10000 2); Pass fresh] booted.
Proof.
  cbv zeta.
  apply packet_counter_ignored.
  repeat constructor.
Defined.

Lemma packet_adopted_witness :
  currentSequence (loop (receive 10000 2) booted) = 2
  /\ lastPacketTime (loop (receive 10000 2) booted) = millis (receive 10000 2) AtRecv.
Proof.
  assert (carries 2 (receive 10000 2)) as Hc
      by (eexists; eexists; split; reflexivity).
  assert (0 <= 2) as Hk by lia.
  assert (2 <> currentSequence booted) as Hne by (vm_compute; discriminate).
  assert (gestureOf (receive 10000 2) booted = NoGesture) as Hg
      by (vm_compute; reflexivity).
  assert (elapsed (millis (receive 10000 2) AtNoSignal) (millis (receive 10000 2) AtRecv)
          <= PACKET_TIMEOUT_MS) as Hn by (vm_compute; discriminate).
  assert (elapsed (millis (receive 10000 2) AtIdle) (millis (receive 10000 2) AtActive)
          <= STRIP_TIMEOUT_MS) as Hi by (vm_compute; discriminate).
  destruct (packet_adopted (receive 10000 2) booted 2 Hc Hk Hne Hg Hn Hi)
    as (A & B & _).
  exact (conj A B).
Defined.

Lemma readout_shows_stored_id_witness :
  propID (run [Pass (receive 10000 2); Pass (idle 10300)] booted)
  = fst (loadPropID erased)
  /\ 1 <= propID (run [Pass (receive 10000 2); Pass (idle 10300)] booted) <= 18
  /\ readoutShows (fst (loadPropID erased))
       (run [Pass (receive 10000 2); Pass (idle 10300)] booted).
Proof.
  exact (readout_shows_stored_id powerOn erased (snd (loadPropID erased)) booted
           [Pass (receive 10000 2); Pass (idle 10300)] eq_refl).
Defined.

(** Two frames into Wipe: pixels 0 and 1 are blue. *)
Lemma wipe_shows_its_frame_witness :
  let s := run [Pass (receive 10000 3); Pass (receive 10020 3)] booted in
  animationStep s = 2
  /\ pixels s = wipeFrame NUM_LEDS (animationStep s).
Proof.
  cbv zeta.
  assert (modeOf (run [Pass (receive 10000 3); Pass (receive 10020 3)] booted) = Ready)
    as Hm by (vm_compute; reflexivity).
  assert (currentSequence (run [Pass (receive 10000 3); Pass (receive 10020 3)] booted)
          = 3) as H3 by (vm_compute; reflexivity).
  assert (animationStep (run [Pass (receive 10000 3); Pass (receive 10020 3)] booted)
          = 2) as H2 by (vm_compute; reflexivity).
  pose proof (wipe_shows_its_frame powerOn erased (snd (loadPropID erased)) booted
                [Pass (receive 10000 3); Pass (receive 10020 3)] eq_refl) as H.
  cbv zeta in H. destruct H as [H _].
  destruct (H Hm H3) as (_ & Hp & _).
  exact (conj H2 Hp).
Defined.

(** Steps 1 and 257 give the same hues. *)
Lemma rainbow_frame_period_witness :
  let s := loop (receive 10000 1) booted in
  pixels (animationRainbow (idle 10020) s)
  = pixels (animationRainbow (idle 10020) (set_animationStep 257 s)).
Proof.
  cbv zeta.
  assert (paced (idle 10020) (loop (receive 10000 1) booted) = false) as Hp
      by (vm_compute; reflexivity).
  assert (paced (idle 10020) (set_animationStep 257 (loop (receive 10000 1) booted))
          = false) as Hp' by (vm_compute; reflexivity).
  assert (length (pixels (loop (receive 10000 1) booted))
          = length (pixels (set_animationStep 257 (loop (receive 10000 1) booted))))
    as Hl by (vm_compute; reflexivity).
  assert (animationStep (loop (receive 10000 1) booted) mod 256
          = animationStep (set_animationStep 257 (loop (receive 10000 1) booted)) mod 256)
    as Hm by (vm_compute; reflexivity).
  exact (rainbow_frame_period (idle 10020) (idle 10020)
           (loop (receive 10000 1) booted)
           (set_animationStep 257 (loop (receive 10000 1) booted)) Hp Hp' Hl Hm).
Defined.

End ReceiverFacts.

(** * Properties of the remote *)

Module RemoteFacts.

Import Remote.

Ltac split_ifs :=
  repeat match goal with
         | |- context [if ?b then _ else _] => destruct b eqn:?
         end.

Lemma transmitSequence_sends (t : Z) (s : State) :
  sent (transmitSequence t s)
  = {| Wire.packetCounter := u32 (packetCounter s + 1);
       Wire.sequenceId := currentSequence s |} :: sent s
  /\ currentSequence (transmitSequence t s) = currentSequence s.
Proof. split; reflexivity. Qed.

Lemma checkCycleButtonPress_frame (i : Input) (s : State) :
  sent (snd (checkCycleButtonPress i s)) = sent s
  /\ currentSequence (snd (checkCycleButtonPress i s)) = currentSequence s.
Proof. unfold checkCycleButtonPress. split_ifs; split; reflexivity. Qed.

Lemma checkOffButtonPress_frame (i : Input) (s : State) :
  sent (snd (checkOffButtonPress i s)) = sent s
  /\ currentSequence (snd (checkOffButtonPress i s)) = currentSequence s.
Proof. unfold checkOffButtonPress. split_ifs; split; reflexivity. Qed.

Lemma cycle_wraps (k : Z) :
  0 <= k <= 5 ->
  (if 5 <? u8 (k + 1) then 0 else u8 (k + 1)) = nextSequence k.
Proof.
  intros H. unfold nextSequence, u8. rewrite Z.mod_small by lia.
  destruct (Z.eqb_spec k 5); destruct (Z.ltb_spec 5 (k + 1)); lia.
Qed.

Lemma onCyclePress_sends (i : Input) (s : State) :
  exists p,
    sent (onCyclePress i s) = p :: sent s
    /\ Wire.sequenceId p = currentSequence (onCyclePress i s)
    /\ currentSequence (onCyclePress i s)
       = (if 5 <? u8 (currentSequence s + 1) then 0 else u8 (currentSequence s + 1)).
Proof.
  unfold onCyclePress. cbv zeta.
  cbn [currentSequence set_currentSequence set_lastActivityTime set_lcdBacklightOn].
  destruct (negb (lcdBacklightOn (set_lastActivityTime (millis i CycleActivity) s)));
    cbn [currentSequence set_currentSequence set_lastActivityTime set_lcdBacklightOn];
    destruct (5 <? u8 (currentSequence s + 1)); eexists; repeat split.
Qed.

Lemma onOffPress_sends (i : Input) (s : State) :
  (currentSequence s <> 0 ->
   exists p, sent (onOffPress i s) = p :: sent s
             /\ Wire.sequenceId p = 0 /\ currentSequence (onOffPress i s) = 0)
  /\ (currentSequence s = 0 ->
      sent (onOffPress i s) = sent s /\ currentSequence (onOffPress i s) = 0).
Proof.
  unfold onOffPress. cbv zeta. split; intros H.
  - destruct (negb (lcdBacklightOn (set_lastActivityTime (millis i OffActivity) s)));
      cbn [currentSequence set_currentSequence set_lastActivityTime set_lcdBacklightOn];
      (destruct (Z.eqb_spec (currentSequence s) 0); [contradiction|]);
      cbn [negb]; eexists; repeat split.
  - destruct (negb (lcdBacklightOn (set_lastActivityTime (millis i OffActivity) s)));
      cbn [currentSequence set_currentSequence set_lastActivityTime set_lcdBacklightOn];
      rewrite H; cbn; rewrite ?H; auto.
Qed.

Lemma after_heartbeat_frame (i : Input) (s : State) :
  sent (refreshDisplay (handleLed i (handleBacklight i s))) = sent s
  /\ currentSequence (refreshDisplay (handleLed i (handleBacklight i s)))
     = currentSequence s.
Proof.
  unfold refreshDisplay, updateDisplay, handleLed, handleBacklight.
  split_ifs; split; reflexivity.
Qed.

(** C9 (amended).  In a pass of the remote's loop: a debounced press of the
    cycle button sends exactly one packet, carrying the sequence the press has
    just selected; a debounced press of the off button sends exactly one packet,
    carrying 0, when the sequence was not 0, and sends nothing when it already was
    0; and when 500 ms or more have passed since [lastHeartbeatTime] the heartbeat
    sends exactly one packet carrying the current sequence.  Nothing else in the
    pass sends. *)
Theorem remote_sends_one_packet (i : Input) (s : State) :
  let s1 := handleCycleButton i s in
  let s2 := handleOffButton i s1 in
  let s3 := handleHeartbeat i s2 in
  (fst (checkCycleButtonPress i s) = true ->
   exists p, sent s1 = p :: sent s /\ Wire.sequenceId p = currentSequence s1
             /\ (0 <= currentSequence s <= 5 ->
                 currentSequence s1 = nextSequence (currentSequence s)))
  /\ (fst (checkCycleButtonPress i s) = false ->
      sent s1 = sent s /\ currentSequence s1 = currentSequence s)
  /\ (fst (checkOffButtonPress i s1) = true -> currentSequence s1 <> 0 ->
      exists p, sent s2 = p :: sent s1 /\ Wire.sequenceId p = 0
                /\ currentSequence s2 = 0)
  /\ (fst (checkOffButtonPress i s1) = true -> currentSequence s1 = 0 ->
      sent s2 = sent s1 /\ currentSequence s2 = 0)
  /\ (fst (checkOffButtonPress i s1) = false ->
      sent s2 = sent s1 /\ currentSequence s2 = currentSequence s1)
  /\ (heartbeatDue i s2 = true ->
      exists p, sent s3 = p :: sent s2 /\ Wire.sequenceId p = currentSequence s2
                /\ currentSequence s3 = currentSequence s2)
  /\ (heartbeatDue i s2 = false -> s3 = s2)
  /\ sent (loop i s) = sent s3.
Proof.
  intros s1 s2 s3.
  destruct (checkCycleButtonPress_frame i s) as [C1 C2].
  destruct (checkOffButtonPress_frame i s1) as [O1 O2].
  destruct (onOffPress_sends i (snd (checkOffButtonPress i s1))) as [Onz Oz].
  rewrite O1, O2 in Onz, Oz.
  split; [|split; [|split; [|split; [|split; [|split; [|split]]]]]].
  - intros Hp. unfold s1, handleCycleButton. rewrite Hp.
    destruct (onCyclePress_sends i (snd (checkCycleButtonPress i s))) as (p & A & B & C).
    exists p. rewrite A, B, C, C1, C2. repeat split; auto.
    intros Hr. now apply cycle_wraps.
  - intros Hp. unfold s1, handleCycleButton. rewrite Hp. auto.
  - intros Hp Hnz. unfold s2, handleOffButton. rewrite Hp. auto.
  - intros Hp Hz. unfold s2, handleOffButton. rewrite Hp. auto.
  - intros Hp. unfold s2, handleOffButton. rewrite Hp. auto.
  - intros Hd. unfold s3, handleHeartbeat. rewrite Hd. eexists. repeat split.
  - intros Hd. unfold s3, handleHeartbeat. now rewrite Hd.
  - unfold loop. fold s1. fold s2. fold s3. apply after_heartbeat_frame.
Qed.


(** ** Further properties of the remote *)

Ltac cbn_state :=
  cbn [currentSequence lastHeartbeatTime packetCounter displayNeedsUpdate
       lastActivityTime lcdBacklightOn cycleButtonState lastCycleButtonState
       lastCycleDebounceTime offButtonState lastOffButtonState lastOffDebounceTime
       ledIsOn ledOnTime sent lcd set_currentSequence set_lastHeartbeatTime
       set_packetCounter set_displayNeedsUpdate set_lastActivityTime
       set_lcdBacklightOn set_cycleButtonState set_lastCycleButtonState
       set_lastCycleDebounceTime set_offButtonState set_lastOffButtonState
       set_lastOffDebounceTime set_ledIsOn set_ledOnTime set_sent set_lcd fst snd].

(** *** The packets sent *)

Lemma wellFormed_transmit (t : Z) (s : State) :
  0 <= currentSequence s <= 5 ->
  Forall (fun p => 0 <= Wire.sequenceId p <= 5) (sent s) ->
  numbered (sent s) ->
  packetCounter s = u32 (Z.of_nat (length (sent s))) ->
  wellFormed (transmitSequence t s).
Proof.
  intros Hs Hf Hn Hc. unfold wellFormed, transmitSequence. cbv zeta. cbn_state.
  assert (u32 (packetCounter s + 1) = u32 (Z.of_nat (S (length (sent s))))) as E.
  { rewrite Hc, Nat2Z.inj_succ. unfold u32, Z.succ. apply Zplus_mod_idemp_l. }
  split; [exact Hs|]. split; [constructor; [exact Hs | exact Hf]|].
  split; [intros p older H; injection H as <- _; reflexivity|].
  split; [|exact E].
  cbn [numbered length Wire.packetCounter]. split; [exact E | exact Hn].
Qed.

Lemma wellFormed_frame (s s' : State) :
  currentSequence s' = currentSequence s -> sent s' = sent s ->
  packetCounter s' = packetCounter s ->
  wellFormed s -> wellFormed s'.
Proof. unfold wellFormed. intros -> -> ->. auto. Qed.

Lemma wellFormed_handleCycleButton (i : Input) (s : State) :
  wellFormed s -> wellFormed (handleCycleButton i s).
Proof.
  intros H. unfold handleCycleButton.
  assert (wellFormed (snd (checkCycleButtonPress i s))) as H1.
  { revert H. apply wellFormed_frame;
      unfold checkCycleButtonPress; cbv zeta; split_ifs; reflexivity. }
  destruct (fst (checkCycleButtonPress i s)); [|exact H1].
  revert H1. generalize (snd (checkCycleButtonPress i s)) as x.
  intros x (Hs & Hf & _ & Hn & Hc).
  unfold onCyclePress. cbv zeta.
  set (a := set_lastActivityTime (millis i CycleActivity) x).
  set (b := if negb (lcdBacklightOn a) then set_lcdBacklightOn true a else a).
  set (c := set_currentSequence (u8 (currentSequence b + 1)) b).
  set (y := if 5 <? currentSequence c then set_currentSequence 0 c else c).
  assert (0 <= currentSequence y <= 5 /\ sent y = sent x
          /\ packetCounter y = packetCounter x) as (Y1 & Y2 & Y3).
  { unfold y, c, b, a, u8. destruct (negb (lcdBacklightOn (set_lastActivityTime _ x)));
      cbn_state; rewrite (Z.mod_small (currentSequence x + 1)) by lia;
      destruct (Z.ltb_spec 5 (currentSequence x + 1)); cbn_state;
      repeat split; lia. }
  revert Y1 Y2 Y3. generalize y as z. intros z Z1 Z2 Z3.
  apply (wellFormed_frame (transmitSequence (millis i CycleLed) z)); try reflexivity.
  apply wellFormed_transmit; congruence.
Qed.

Lemma wellFormed_handleOffButton (i : Input) (s : State) :
  wellFormed s -> wellFormed (handleOffButton i s).
Proof.
  intros H. unfold handleOffButton.
  assert (wellFormed (snd (checkOffButtonPress i s))) as H1.
  { revert H. apply wellFormed_frame;
      unfold checkOffButtonPress; cbv zeta; split_ifs; reflexivity. }
  destruct (fst (checkOffButtonPress i s)); [|exact H1].
  revert H1. generalize (snd (checkOffButtonPress i s)) as x. intros x H1.
  unfold onOffPress. cbv zeta.
  set (a := set_lastActivityTime (millis i OffActivity) x).
  set (y := if negb (lcdBacklightOn a) then set_lcdBacklightOn true a else a).
  assert (wellFormed y) as Hy
      by (revert H1; apply wellFormed_frame; unfold y, a; split_ifs; reflexivity).
  revert Hy. generalize y as z. intros z (Hs & Hf & Hnew & Hn & Hc).
  destruct (currentSequence z =? 0); cbn [negb].
  - unfold wellFormed. auto.
  - apply (wellFormed_frame (transmitSequence (millis i OffLed) (set_currentSequence 0 z)));
      try reflexivity.
    apply wellFormed_transmit; cbn_state; auto; lia.
Qed.

Lemma wellFormed_handleHeartbeat (i : Input) (s : State) :
  wellFormed s -> wellFormed (handleHeartbeat i s).
Proof.
  intros H. unfold handleHeartbeat. destruct (heartbeatDue i s); [|exact H].
  destruct H as (Hs & Hf & _ & Hn & Hc). cbv zeta.
  apply (wellFormed_frame
           (transmitSequence (millis i BeatLed)
              (set_lastHeartbeatTime (millis i BeatStamp) s))); try reflexivity.
  apply wellFormed_transmit; cbn_state; auto.
Qed.

Lemma wellFormed_loop (i : Input) (s : State) : wellFormed s -> wellFormed (loop i s).
Proof.
  intros H. unfold loop. cbv zeta.
  pose proof (wellFormed_handleHeartbeat i _
                (wellFormed_handleOffButton i _ (wellFormed_handleCycleButton i s H)))
    as H3.
  revert H3. generalize (handleHeartbeat i (handleOffButton i (handleCycleButton i s))).
  intros x. apply wellFormed_frame;
    unfold refreshDisplay, updateDisplay, handleLed, handleBacklight;
    split_ifs; reflexivity.
Qed.

Lemma wellFormed_setup (now : Z) : wellFormed (setup now).
Proof. unfold wellFormed. cbn. repeat split; try lia; auto. discriminate. Qed.

Lemma wellFormed_run (l : list Input) (s : State) :
  wellFormed s -> wellFormed (run l s).
Proof.
  revert s. induction l as [|i l IH]; intros s H; cbn [run]; auto using wellFormed_loop.
Qed.

(** X14.  From [setup()] on, whatever the buttons and the clock do, the
    remote's sequence is one of 0..5 and so is the sequence of every packet it has
    sent; the newest packet carries the current sequence; each packet carries its
    rank in the order of sending (from 1, modulo 2^32) as its counter, and
    [packetCounter] is the number of packets sent. *)
Theorem remote_packets_well_formed (now : Z) (l : list Input) :
  let s := run l (setup now) in
  0 <= currentSequence s <= 5
  /\ Forall (fun p => 0 <= Wire.sequenceId p <= 5) (sent s)
  /\ (forall p older, sent s = p :: older -> Wire.sequenceId p = currentSequence s)
  /\ numbered (sent s)
  /\ packetCounter s = u32 (Z.of_nat (length (sent s))).
Proof.
  cbv zeta. change (wellFormed (run l (setup now))).
  apply wellFormed_run, wellFormed_setup.
Qed.

(** *** The LCD *)

Lemma lcdPending_frame (s s' : State) :
  displayNeedsUpdate s' = displayNeedsUpdate s -> lcd s' = lcd s ->
  currentSequence s' = currentSequence s -> packetCounter s' = packetCounter s ->
  lcdPending s -> lcdPending s'.
Proof. unfold lcdPending. intros -> -> -> ->. auto. Qed.

Lemma lcdPending_flagged (s : State) : lcdPending (set_displayNeedsUpdate true s).
Proof. unfold lcdPending. cbn_state. discriminate. Qed.

Lemma lcdPending_handleCycleButton (i : Input) (s : State) :
  lcdPending s -> lcdPending (handleCycleButton i s).
Proof.
  intros H. unfold handleCycleButton.
  destruct (fst (checkCycleButtonPress i s)).
  - unfold onCyclePress. cbv zeta. apply lcdPending_flagged.
  - revert H. apply lcdPending_frame;
      unfold checkCycleButtonPress; cbv zeta; split_ifs; reflexivity.
Qed.

Lemma lcdPending_handleOffButton (i : Input) (s : State) :
  lcdPending s -> lcdPending (handleOffButton i s).
Proof.
  intros H. unfold handleOffButton.
  assert (lcdPending (snd (checkOffButtonPress i s))) as H1.
  { revert H. apply lcdPending_frame;
      unfold checkOffButtonPress; cbv zeta; split_ifs; reflexivity. }
  destruct (fst (checkOffButtonPress i s)); [|exact H1].
  revert H1. generalize (snd (checkOffButtonPress i s)) as x. intros x H1.
  unfold onOffPress. cbv zeta.
  set (a := set_lastActivityTime (millis i OffActivity) x).
  set (y := if negb (lcdBacklightOn a) then set_lcdBacklightOn true a else a).
  destruct (negb (currentSequence y =? 0)); [apply lcdPending_flagged|].
  revert H1. apply lcdPending_frame; unfold y, a; split_ifs; reflexivity.
Qed.

Lemma lcdPending_handleHeartbeat (i : Input) (s : State) :
  lcdPending s -> lcdPending (handleHeartbeat i s).
Proof.
  intros H. unfold handleHeartbeat.
  destruct (heartbeatDue i s); [apply lcdPending_flagged | exact H].
Qed.

Lemma lcdFresh_loop (i : Input) (s : State) : lcdFresh s -> lcdFresh (loop i s).
Proof.
  intros [Hd Hl]. unfold loop. cbv zeta.
  assert (lcdPending s) as H0 by (intros _; exact Hl).
  pose proof (lcdPending_handleHeartbeat i _
                (lcdPending_handleOffButton i _ (lcdPending_handleCycleButton i s H0)))
    as H3.
  revert H3. generalize (handleHeartbeat i (handleOffButton i (handleCycleButton i s))).
  intros x Hx.
  assert (lcdPending (handleLed i (handleBacklight i x))) as Hy.
  { revert Hx. apply lcdPending_frame; unfold handleLed, handleBacklight;
      split_ifs; reflexivity. }
  revert Hy. generalize (handleLed i (handleBacklight i x)) as y. intros y Hy.
  unfold refreshDisplay, lcdFresh, updateDisplay.
  destruct (displayNeedsUpdate y) eqn:D; cbn_state; auto.
Qed.

(** X15.  The LCD is never left stale: from [setup()] on, every pass of
    [loop()] ends with [displayNeedsUpdate] down and with the display showing the
    current sequence and the current packet count. *)
Theorem lcd_never_stale (now : Z) (l : list Input) :
  let s := run l (setup now) in
  displayNeedsUpdate s = false /\ lcd s = (currentSequence s, packetCounter s).
Proof.
  cbv zeta. change (lcdFresh (run l (setup now))).
  assert (lcdFresh (setup now)) as H0 by (split; reflexivity).
  revert H0. generalize (setup now) as s.
  induction l as [|i l IH]; intros s H; cbn [run]; auto using lcdFresh_loop.
Qed.

(** *** Debouncing *)

Lemma views_onCyclePress (i : Input) (x : State) :
  cycleView (onCyclePress i x) = cycleView x /\ offView (onCyclePress i x) = offView x.
Proof.
  unfold onCyclePress, transmitSequence. cbv zeta. split; split_ifs; reflexivity.
Qed.

Lemma views_onOffPress (i : Input) (x : State) :
  cycleView (onOffPress i x) = cycleView x /\ offView (onOffPress i x) = offView x.
Proof.
  unfold onOffPress, transmitSequence. cbv zeta. split; split_ifs; reflexivity.
Qed.

Lemma views_handleHeartbeat (i : Input) (x : State) :
  cycleView (handleHeartbeat i x) = cycleView x
  /\ offView (handleHeartbeat i x) = offView x.
Proof.
  unfold handleHeartbeat, transmitSequence. cbv zeta. split; split_ifs; reflexivity.
Qed.

Lemma views_after_heartbeat (i : Input) (x : State) :
  cycleView (refreshDisplay (handleLed i (handleBacklight i x))) = cycleView x
  /\ offView (refreshDisplay (handleLed i (handleBacklight i x))) = offView x.
Proof.
  unfold refreshDisplay, handleLed, handleBacklight, updateDisplay.
  split; split_ifs; reflexivity.
Qed.

Lemma checks_apart (i : Input) (x : State) :
  offView (snd (checkCycleButtonPress i x)) = offView x
  /\ cycleView (snd (checkOffButtonPress i x)) = cycleView x.
Proof.
  unfold checkCycleButtonPress, checkOffButtonPress. cbv zeta.
  split; split_ifs; reflexivity.
Qed.

Lemma offView_handleCycleButton (i : Input) (s : State) :
  offView (handleCycleButton i s) = offView s.
Proof.
  unfold handleCycleButton.
  destruct (fst (checkCycleButtonPress i s));
    [rewrite (proj2 (views_onCyclePress i _))|]; apply checks_apart.
Qed.

Lemma cycleView_handleOffButton (i : Input) (s : State) :
  cycleView (handleOffButton i s) = cycleView s.
Proof.
  unfold handleOffButton.
  destruct (fst (checkOffButtonPress i s));
    [rewrite (proj1 (views_onOffPress i _))|]; apply checks_apart.
Qed.

Lemma checkOffButtonPress_view (i : Input) (a b : State) :
  offView a = offView b ->
  fst (checkOffButtonPress i a) = fst (checkOffButtonPress i b)
  /\ offView (snd (checkOffButtonPress i a)) = offView (snd (checkOffButtonPress i b)).
Proof.
  unfold offView. intros H. injection H as H1 H2 H3.
  unfold checkOffButtonPress. cbv zeta. rewrite H2.
  destruct (negb (level_eqb (offReading i) (lastOffButtonState b))); cbn_state;
    rewrite ?H1, ?H3;
    destruct (DEBOUNCE_DELAY_MS <? _); cbn_state; rewrite ?H1, ?H3;
    destruct (negb (level_eqb (offReading i) (offButtonState b))); cbn_state;
    rewrite ?H1, ?H3; auto.
Qed.

Lemma cycleView_loop (i : Input) (s : State) :
  cycleView (loop i s) = cycleView (snd (checkCycleButtonPress i s)).
Proof.
  unfold loop. cbv zeta.
  rewrite (proj1 (views_after_heartbeat i _)), (proj1 (views_handleHeartbeat i _)).
  rewrite cycleView_handleOffButton. unfold handleCycleButton.
  destruct (fst (checkCycleButtonPress i s)); [|reflexivity].
  exact (proj1 (views_onCyclePress i _)).
Qed.

Lemma offView_loop (i : Input) (s : State) :
  offView (loop i s) = offView (snd (checkOffButtonPress i s))
  /\ fst (checkOffButtonPress i (handleCycleButton i s)) = fst (checkOffButtonPress i s).
Proof.
  destruct (checkOffButtonPress_view i _ _ (offView_handleCycleButton i s)) as [F V].
  split; [|exact F]. rewrite <- V.
  unfold loop. cbv zeta.
  rewrite (proj2 (views_after_heartbeat i _)), (proj2 (views_handleHeartbeat i _)).
  unfold handleOffButton.
  destruct (fst (checkOffButtonPress i (handleCycleButton i s))); [|reflexivity].
  exact (proj2 (views_onOffPress i _)).
Qed.

(** What one call of a debounce routine does, by the levels it finds. *)
Lemma checkCycleButtonPress_cases (i : Input) (s : State) :
  let stamp := if level_eqb (cycleReading i) (lastCycleButtonState s)
               then lastCycleDebounceTime s else millis i CycleEdge in
  let r := checkCycleButtonPress i s in
  lastCycleButtonState (snd r) = cycleReading i
  /\ lastCycleDebounceTime (snd r) = stamp
  /\ (cycleReading i = cycleButtonState s ->
      fst r = false /\ cycleButtonState (snd r) = cycleButtonState s)
  /\ (elapsed (millis i CycleSettle) stamp <= DEBOUNCE_DELAY_MS ->
      fst r = false /\ cycleButtonState (snd r) = cycleButtonState s)
  /\ (fst r = true -> cycleButtonState (snd r) = LOW).
Proof.
  unfold checkCycleButtonPress. cbv zeta. destruct s. cbn_state.
  destruct (cycleReading i);
    repeat match goal with x : PinLevel |- _ => destruct x end;
    cbn [level_eqb negb]; cbn_state;
    repeat match goal with
           | |- context [DEBOUNCE_DELAY_MS <? ?e] =>
               destruct (Z.ltb_spec DEBOUNCE_DELAY_MS e)
           end;
    cbn_state; cbn [level_eqb negb];
    repeat split; intros; try reflexivity; try discriminate; try lia.
Qed.

Lemma checkOffButtonPress_cases (i : Input) (s : State) :
  let stamp := if level_eqb (offReading i) (lastOffButtonState s)
               then lastOffDebounceTime s else millis i OffEdge in
  let r := checkOffButtonPress i s in
  lastOffButtonState (snd r) = offReading i
  /\ lastOffDebounceTime (snd r) = stamp
  /\ (offReading i = offButtonState s ->
      fst r = false /\ offButtonState (snd r) = offButtonState s)
  /\ (elapsed (millis i OffSettle) stamp <= DEBOUNCE_DELAY_MS ->
      fst r = false /\ offButtonState (snd r) = offButtonState s)
  /\ (fst r = true -> offButtonState (snd r) = LOW).
Proof.
  unfold checkOffButtonPress. cbv zeta. destruct s. cbn_state.
  destruct (offReading i);
    repeat match goal with x : PinLevel |- _ => destruct x end;
    cbn [level_eqb negb]; cbn_state;
    repeat match goal with
           | |- context [DEBOUNCE_DELAY_MS <? ?e] =>
               destruct (Z.ltb_spec DEBOUNCE_DELAY_MS e)
           end;
    cbn_state; cbn [level_eqb negb];
    repeat split; intros; try reflexivity; try discriminate; try lia.
Qed.

(** One pass, seen from either button: what is reported and what is kept. *)
Lemma cycle_button_pass (i : Input) (s : State) :
  let stamp := if level_eqb (cycleReading i) (lastCycleButtonState s)
               then lastCycleDebounceTime s else millis i CycleEdge in
  let press := fst (checkCycleButtonPress i s) in
  lastCycleButtonState (loop i s) = cycleReading i
  /\ lastCycleDebounceTime (loop i s) = stamp
  /\ (cycleReading i = cycleButtonState s ->
      press = false /\ cycleButtonState (loop i s) = cycleButtonState s)
  /\ (elapsed (millis i CycleSettle) stamp <= DEBOUNCE_DELAY_MS ->
      press = false /\ cycleButtonState (loop i s) = cycleButtonState s)
  /\ (press = true -> cycleButtonState (loop i s) = LOW).
Proof.
  pose proof (cycleView_loop i s) as V. unfold cycleView in V.
  injection V as -> -> ->. apply checkCycleButtonPress_cases.
Qed.

Lemma off_button_pass (i : Input) (s : State) :
  let stamp := if level_eqb (offReading i) (lastOffButtonState s)
               then lastOffDebounceTime s else millis i OffEdge in
  let press := fst (checkOffButtonPress i (handleCycleButton i s)) in
  lastOffButtonState (loop i s) = offReading i
  /\ lastOffDebounceTime (loop i s) = stamp
  /\ (offReading i = offButtonState s ->
      press = false /\ offButtonState (loop i s) = offButtonState s)
  /\ (elapsed (millis i OffSettle) stamp <= DEBOUNCE_DELAY_MS ->
      press = false /\ offButtonState (loop i s) = offButtonState s)
  /\ (press = true -> offButtonState (loop i s) = LOW).
Proof.
  destruct (offView_loop i s) as [V ->]. unfold offView in V.
  injection V as -> -> ->. apply checkOffButtonPress_cases.
Qed.

Lemma settled_cycle_silent (l : list Input) (s : State) :
  Forall (fun i => cycleReading i = cycleButtonState s) l ->
  Forall (fun p => fst p = false) (presses l s)
  /\ cycleButtonState (run l s) = cycleButtonState s.
Proof.
  revert s. induction l as [|i l IH]; intros s Hl; cbn [presses run]; [auto|].
  inversion Hl as [|? ? Hi Hl']; subst.
  destruct (cycle_button_pass i s) as (_ & _ & Hq & _). destruct (Hq Hi) as [P K].
  destruct (IH (loop i s)) as [I1 I2]; [now rewrite K|].
  split; [constructor; [exact P | exact I1] | congruence].
Qed.

Lemma settled_off_silent (l : list Input) (s : State) :
  Forall (fun i => offReading i = offButtonState s) l ->
  Forall (fun p => snd p = false) (presses l s)
  /\ offButtonState (run l s) = offButtonState s.
Proof.
  revert s. induction l as [|i l IH]; intros s Hl; cbn [presses run]; [auto|].
  inversion Hl as [|? ? Hi Hl']; subst.
  destruct (off_button_pass i s) as (_ & _ & Hq & _). destruct (Hq Hi) as [P K].
  destruct (IH (loop i s)) as [I1 I2]; [now rewrite K|].
  split; [constructor; [exact P | exact I1] | congruence].
Qed.

Lemma count_none (f : bool * bool -> bool) (l : list (bool * bool)) :
  Forall (fun p => f p = false) l -> count_occ bool_dec (map f l) true = 0%nat.
Proof.
  induction 1 as [|p l Hp _ IH]; cbn [map]; [reflexivity|].
  rewrite count_occ_cons_neq; [exact IH | congruence].
Qed.

Lemma held_cycle_at_most_once (l : list Input) (s : State) :
  Forall (fun i => cycleReading i = LOW) l ->
  (count_occ bool_dec (map fst (presses l s)) true <= 1)%nat.
Proof.
  intros Hl. revert s.
  induction Hl as [|i l Hi Hl IH]; intros s; cbn [presses map fst]; [cbn; lia|].
  destruct (fst (checkCycleButtonPress i s)) eqn:P.
  - destruct (cycle_button_pass i s) as (_ & _ & _ & _ & Hp). cbv zeta in Hp.
    specialize (Hp P).
    destruct (settled_cycle_silent l (loop i s)) as [Q _].
    { rewrite Hp. exact Hl. }
    rewrite count_occ_cons_eq by reflexivity.
    rewrite (count_none fst _ Q). lia.
  - rewrite count_occ_cons_neq by discriminate. apply IH.
Qed.

Lemma held_off_at_most_once (l : list Input) (s : State) :
  Forall (fun i => offReading i = LOW) l ->
  (count_occ bool_dec (map snd (presses l s)) true <= 1)%nat.
Proof.
  intros Hl. revert s.
  induction Hl as [|i l Hi Hl IH]; intros s; cbn [presses map snd]; [cbn; lia|].
  destruct (fst (checkOffButtonPress i (handleCycleButton i s))) eqn:P.
  - destruct (off_button_pass i s) as (_ & _ & _ & _ & Hp). cbv zeta in Hp.
    specialize (Hp P).
    destruct (settled_off_silent l (loop i s)) as [Q _].
    { rewrite Hp. exact Hl. }
    rewrite count_occ_cons_eq by reflexivity.
    rewrite (count_none snd _ Q). lia.
  - rewrite count_occ_cons_neq by discriminate. apply IH.
Qed.

(** X16.  No auto-repeat: while a button's pin reads LOW in every pass, the
    debounce routine reports at most one press, however long the button is held
    and whatever the state at the start.  This holds for the cycle button and for
    the off button. *)
Theorem held_button_reported_once (l : list Input) (s : State) :
  (Forall (fun i => cycleReading i = LOW) l ->
   (count_occ bool_dec (map fst (presses l s)) true <= 1)%nat)
  /\ (Forall (fun i => offReading i = LOW) l ->
      (count_occ bool_dec (map snd (presses l s)) true <= 1)%nat).
Proof.
  split; [apply held_cycle_at_most_once | apply held_off_at_most_once].
Qed.

Lemma bouncing_cycle_silent (t0 : Z) (pulse : list Input) (s : State) :
  cycleButtonState s = HIGH -> lastCycleButtonState s = LOW ->
  lastCycleDebounceTime s = t0 ->
  Forall (fun i => cycleReading i = LOW
                   /\ elapsed (millis i CycleSettle) t0 <= DEBOUNCE_DELAY_MS) pulse ->
  Forall (fun p => fst p = false) (presses pulse s)
  /\ cycleButtonState (run pulse s) = HIGH.
Proof.
  revert s. induction pulse as [|i l IH]; intros s Hs Hlast Ht Hl; cbn [presses run];
    [auto|].
  inversion Hl as [|? ? [Hi He] Hl']; subst.
  destruct (cycle_button_pass i s) as (A & B & _ & Hq & _). cbv zeta in B, Hq.
  rewrite Hi, Hlast in B, Hq. cbn [level_eqb] in B, Hq.
  destruct (Hq He) as [P K].
  destruct (IH (loop i s)) as [I1 I2]; try congruence.
  split; [constructor; [exact P | exact I1] | exact I2].
Qed.

Lemma bouncing_off_silent (t0 : Z) (pulse : list Input) (s : State) :
  offButtonState s = HIGH -> lastOffButtonState s = LOW ->
  lastOffDebounceTime s = t0 ->
  Forall (fun i => offReading i = LOW
                   /\ elapsed (millis i OffSettle) t0 <= DEBOUNCE_DELAY_MS) pulse ->
  Forall (fun p => snd p = false) (presses pulse s)
  /\ offButtonState (run pulse s) = HIGH.
Proof.
  revert s. induction pulse as [|i l IH]; intros s Hs Hlast Ht Hl; cbn [presses run];
    [auto|].
  inversion Hl as [|? ? [Hi He] Hl']; subst.
  destruct (off_button_pass i s) as (A & B & _ & Hq & _). cbv zeta in B, Hq.
  rewrite Hi, Hlast in B, Hq. cbn [level_eqb] in B, Hq.
  destruct (Hq He) as [P K].
  destruct (IH (loop i s)) as [I1 I2]; try congruence.
  split; [constructor; [exact P | exact I1] | exact I2].
Qed.

Lemma presses_app (l l' : list Input) (s : State) :
  presses (l ++ l') s = presses l s ++ presses l' (run l s).
Proof.
  revert s. induction l as [|i l IH]; intros s; cbn [app presses run]; [reflexivity|].
  now rewrite IH.
Qed.

Lemma remote_run_app (l l' : list Input) (s : State) : run (l ++ l') s = run l' (run l s).
Proof. revert s. induction l; cbn [app run]; auto. Qed.

(** X17.  A glitch is ignored.  With a button released and settled, let its pin
    read LOW through some passes that all check the clock within 50 ms of the
    first one's edge stamp, and then read HIGH again: no pass of the run reports a
    press, during the pulse or after it, and the debounced level is still HIGH at
    the end.  This holds for the cycle button and for the off button. *)
Theorem short_pulse_ignored (s : State) (first : Input) (pulse after : list Input) :
  (cycleButtonState s = HIGH -> lastCycleButtonState s = HIGH ->
   Forall (fun i => cycleReading i = LOW
                    /\ elapsed (millis i CycleSettle) (millis first CycleEdge)
                       <= DEBOUNCE_DELAY_MS) (first :: pulse) ->
   Forall (fun i => cycleReading i = HIGH) after ->
   Forall (fun p => fst p = false) (presses (first :: pulse ++ after) s)
   /\ cycleButtonState (run (first :: pulse ++ after) s) = HIGH)
  /\ (offButtonState s = HIGH -> lastOffButtonState s = HIGH ->
      Forall (fun i => offReading i = LOW
                       /\ elapsed (millis i OffSettle) (millis first OffEdge)
                          <= DEBOUNCE_DELAY_MS) (first :: pulse) ->
      Forall (fun i => offReading i = HIGH) after ->
      Forall (fun p => snd p = false) (presses (first :: pulse ++ after) s)
      /\ offButtonState (run (first :: pulse ++ after) s) = HIGH).
Proof.
  split; intros Hs Hlast Hp Ha.
  - inversion Hp as [|? ? [Hi He] Hp']; subst.
    destruct (cycle_button_pass first s) as (A & B & _ & Hq & _). cbv zeta in B, Hq.
    rewrite Hi, Hlast in B, Hq. cbn [level_eqb] in B, Hq.
    destruct (Hq He) as [P K].
    destruct (bouncing_cycle_silent (millis first CycleEdge) pulse (loop first s))
      as [Q1 Q2]; try congruence.
    destruct (settled_cycle_silent after (run pulse (loop first s))) as [R1 R2].
    { rewrite Q2. exact Ha. }
    cbn [presses run]. rewrite presses_app, remote_run_app. split.
    + constructor; [exact P|]. apply Forall_app. auto.
    + congruence.
  - inversion Hp as [|? ? [Hi He] Hp']; subst.
    destruct (off_button_pass first s) as (A & B & _ & Hq & _). cbv zeta in B, Hq.
    rewrite Hi, Hlast in B, Hq. cbn [level_eqb] in B, Hq.
    destruct (Hq He) as [P K].
    destruct (bouncing_off_silent (millis first OffEdge) pulse (loop first s))
      as [Q1 Q2]; try congruence.
    destruct (settled_off_silent after (run pulse (loop first s))) as [R1 R2].
    { rewrite Q2. exact Ha. }
    cbn [presses run]. rewrite presses_app, remote_run_app. split.
    + constructor; [exact P|]. apply Forall_app. auto.
    + congruence.
Qed.

(** A LOW reading that has lasted more than 50 ms on a button whose debounced
    level is HIGH is reported. *)
Lemma cycle_button_fires (i : Input) (s : State) :
  let stamp := if level_eqb (cycleReading i) (lastCycleButtonState s)
               then lastCycleDebounceTime s else millis i CycleEdge in
  cycleReading i = LOW -> cycleButtonState s = HIGH ->
  DEBOUNCE_DELAY_MS < elapsed (millis i CycleSettle) stamp ->
  fst (checkCycleButtonPress i s) = true.
Proof.
  cbv zeta. unfold checkCycleButtonPress. cbv zeta. intros Hr Hs.
  rewrite Hr. destruct s. cbn_state. cbn in Hs. subst.
  repeat match goal with x : PinLevel |- _ => destruct x end;
    cbn [level_eqb negb]; cbn_state; intros He; apply Z.ltb_lt in He;
    rewrite He; reflexivity.
Qed.

Lemma off_button_fires (i : Input) (s : State) :
  let stamp := if level_eqb (offReading i) (lastOffButtonState s)
               then lastOffDebounceTime s else millis i OffEdge in
  offReading i = LOW -> offButtonState s = HIGH ->
  DEBOUNCE_DELAY_MS < elapsed (millis i OffSettle) stamp ->
  fst (checkOffButtonPress i (handleCycleButton i s)) = true.
Proof.
  cbv zeta. rewrite (proj2 (offView_loop i s)).
  unfold checkOffButtonPress. cbv zeta. intros Hr Hs.
  rewrite Hr. destruct s. cbn_state. cbn [offButtonState] in Hs. subst.
  repeat match goal with x : PinLevel |- _ => destruct x end;
    cbn [level_eqb negb]; cbn_state; intros He; apply Z.ltb_lt in He;
    rewrite He; reflexivity.
Qed.

Lemma waiting_cycle_press (t0 : Z) (l : list Input) (s : State) :
  cycleButtonState s = HIGH -> lastCycleButtonState s = LOW ->
  lastCycleDebounceTime s = t0 ->
  Forall (fun i => cycleReading i = LOW) l ->
  Exists (fun i => DEBOUNCE_DELAY_MS < elapsed (millis i CycleSettle) t0) l ->
  Exists (fun p => fst p = true) (presses l s).
Proof.
  intros Hs Hlast Ht Hl. revert s Hs Hlast Ht.
  induction Hl as [|i l Hi Hl IH]; intros s Hs Hlast Ht Hex; [inversion Hex|].
  cbn [presses].
  destruct (cycle_button_pass i s) as (A & B & _ & Hq & _). cbv zeta in B, Hq.
  pose proof (cycle_button_fires i s) as F. cbv zeta in F.
  rewrite Hi, Hlast in B, Hq, F. cbn [level_eqb] in B, Hq, F. rewrite Ht in B, Hq, F.
  destruct (Z_lt_le_dec DEBOUNCE_DELAY_MS (elapsed (millis i CycleSettle) t0)) as [L|L].
  - left. cbn [fst]. apply F; auto.
  - right. destruct (Hq L) as [_ K].
    apply IH; try congruence.
    inversion Hex as [? ? H1|? ? H1]; subst; [lia | exact H1].
Qed.

Lemma waiting_off_press (t0 : Z) (l : list Input) (s : State) :
  offButtonState s = HIGH -> lastOffButtonState s = LOW ->
  lastOffDebounceTime s = t0 ->
  Forall (fun i => offReading i = LOW) l ->
  Exists (fun i => DEBOUNCE_DELAY_MS < elapsed (millis i OffSettle) t0) l ->
  Exists (fun p => snd p = true) (presses l s).
Proof.
  intros Hs Hlast Ht Hl. revert s Hs Hlast Ht.
  induction Hl as [|i l Hi Hl IH]; intros s Hs Hlast Ht Hex; [inversion Hex|].
  cbn [presses].
  destruct (off_button_pass i s) as (A & B & _ & Hq & _). cbv zeta in B, Hq.
  pose proof (off_button_fires i s) as F. cbv zeta in F.
  rewrite Hi, Hlast in B, Hq, F. cbn [level_eqb] in B, Hq, F. rewrite Ht in B, Hq, F.
  destruct (Z_lt_le_dec DEBOUNCE_DELAY_MS (elapsed (millis i OffSettle) t0)) as [L|L].
  - left. cbn [snd]. apply F; auto.
  - right. destruct (Hq L) as [_ K].
    apply IH; try congruence.
    inversion Hex as [? ? H1|? ? H1]; subst; [lia | exact H1].
Qed.

Lemma count_some (f : bool * bool -> bool) (l : list (bool * bool)) :
  Exists (fun p => f p = true) l ->
  (1 <= count_occ bool_dec (map f l) true)%nat.
Proof.
  intros H. apply (count_occ_In bool_dec).
  apply Exists_exists in H. destruct H as (p & Hin & Hp).
  rewrite <- Hp. now apply in_map.
Qed.

(** X18.  A steady press is reported exactly once.  With a button released
    and settled, let its pin read LOW from some pass on, and let one of those
    passes check the clock more than 50 ms after the first one's edge stamp: the
    run reports exactly one press of that button, however long it goes on.  This
    holds for the cycle button and for the off button. *)
Theorem steady_press_reported_once (s : State) (first : Input) (rest : list Input) :
  (cycleButtonState s = HIGH -> lastCycleButtonState s = HIGH ->
   Forall (fun i => cycleReading i = LOW) (first :: rest) ->
   Exists (fun i => DEBOUNCE_DELAY_MS
                    < elapsed (millis i CycleSettle) (millis first CycleEdge))
          (first :: rest) ->
   count_occ bool_dec (map fst (presses (first :: rest) s)) true = 1%nat)
  /\ (offButtonState s = HIGH -> lastOffButtonState s = HIGH ->
      Forall (fun i => offReading i = LOW) (first :: rest) ->
      Exists (fun i => DEBOUNCE_DELAY_MS
                       < elapsed (millis i OffSettle) (millis first OffEdge))
             (first :: rest) ->
      count_occ bool_dec (map snd (presses (first :: rest) s)) true = 1%nat).
Proof.
  split; intros Hs Hlast Hl Hex.
  - pose proof (held_cycle_at_most_once (first :: rest) s Hl) as Hle.
    enough (Exists (fun p => fst p = true) (presses (first :: rest) s)) as Hx
        by (pose proof (count_some fst _ Hx); lia).
    inversion Hl as [|? ? Hi Hl']; subst. cbn [presses].
    destruct (cycle_button_pass first s) as (A & B & _ & Hq & _). cbv zeta in B, Hq.
    pose proof (cycle_button_fires first s) as F. cbv zeta in F.
    rewrite Hi, Hlast in B, Hq, F. cbn [level_eqb] in B, Hq, F.
    destruct (Z_lt_le_dec DEBOUNCE_DELAY_MS
                (elapsed (millis first CycleSettle) (millis first CycleEdge))) as [L|L].
    + left. cbn [fst]. apply F; auto.
    + right. destruct (Hq L) as [_ K].
      apply (waiting_cycle_press (millis first CycleEdge)); try congruence.
      inversion Hex as [? ? H1|? ? H1]; subst; [lia | exact H1].
  - pose proof (held_off_at_most_once (first :: rest) s Hl) as Hle.
    enough (Exists (fun p => snd p = true) (presses (first :: rest) s)) as Hx
        by (pose proof (count_some snd _ Hx); lia).
    inversion Hl as [|? ? Hi Hl']; subst. cbn [presses].
    destruct (off_button_pass first s) as (A & B & _ & Hq & _). cbv zeta in B, Hq.
    pose proof (off_button_fires first s) as F. cbv zeta in F.
    rewrite Hi, Hlast in B, Hq, F. cbn [level_eqb] in B, Hq, F.
    destruct (Z_lt_le_dec DEBOUNCE_DELAY_MS
                (elapsed (millis first OffSettle) (millis first OffEdge))) as [L|L].
    + left. cbn [snd]. apply F; auto.
    + right. destruct (Hq L) as [_ K].
      apply (waiting_off_press (millis first OffEdge)); try congruence.
      inversion Hex as [? ? H1|? ? H1]; subst; [lia | exact H1].
Qed.

(** *** The heartbeat timer *)

Lemma link_checks (i : Input) (x : State) :
  (sent (snd (checkCycleButtonPress i x)) = sent x
   /\ lastHeartbeatTime (snd (checkCycleButtonPress i x)) = lastHeartbeatTime x)
  /\ (sent (snd (checkOffButtonPress i x)) = sent x
      /\ lastHeartbeatTime (snd (checkOffButtonPress i x)) = lastHeartbeatTime x).
Proof.
  unfold checkCycleButtonPress, checkOffButtonPress. cbv zeta.
  repeat split; split_ifs; reflexivity.
Qed.

Lemma link_handleCycleButton (i : Input) (s : State) :
  let s1 := handleCycleButton i s in
  (sent s1 = sent s /\ lastHeartbeatTime s1 = lastHeartbeatTime s)
  \/ (length (sent s1) = S (length (sent s))
      /\ lastHeartbeatTime s1 = millis i CycleBeat).
Proof.
  cbv zeta. unfold handleCycleButton.
  destruct (link_checks i s) as [[A B] _].
  destruct (fst (checkCycleButtonPress i s)); [right | left; auto].
  rewrite <- A. generalize (snd (checkCycleButtonPress i s)) as x. intros x.
  unfold onCyclePress, transmitSequence. cbv zeta. split_ifs; split; reflexivity.
Qed.

Lemma link_handleOffButton (i : Input) (s : State) :
  let s2 := handleOffButton i s in
  (sent s2 = sent s /\ lastHeartbeatTime s2 = lastHeartbeatTime s)
  \/ (length (sent s2) = S (length (sent s))
      /\ lastHeartbeatTime s2 = millis i OffBeat).
Proof.
  cbv zeta. unfold handleOffButton.
  destruct (link_checks i s) as [_ [A B]].
  destruct (fst (checkOffButtonPress i s)); [|left; auto].
  rewrite <- A, <- B. generalize (snd (checkOffButtonPress i s)) as x. intros x.
  unfold onOffPress, transmitSequence. cbv zeta.
  split_ifs; cbn_state; auto.
Qed.

Lemma link_handleHeartbeat (i : Input) (s : State) :
  let s3 := handleHeartbeat i s in
  (elapsed (millis i BeatCheck) (lastHeartbeatTime s) < HEARTBEAT_INTERVAL
   /\ sent s3 = sent s /\ lastHeartbeatTime s3 = lastHeartbeatTime s)
  \/ (HEARTBEAT_INTERVAL <= elapsed (millis i BeatCheck) (lastHeartbeatTime s)
      /\ length (sent s3) = S (length (sent s))
      /\ lastHeartbeatTime s3 = millis i BeatStamp).
Proof.
  cbv zeta. unfold handleHeartbeat, heartbeatDue.
  destruct (Z.leb_spec HEARTBEAT_INTERVAL
              (elapsed (millis i BeatCheck) (lastHeartbeatTime s))); [right | left];
    auto.
Qed.

Lemma link_after_heartbeat (i : Input) (x : State) :
  sent (refreshDisplay (handleLed i (handleBacklight i x))) = sent x
  /\ lastHeartbeatTime (refreshDisplay (handleLed i (handleBacklight i x)))
     = lastHeartbeatTime x.
Proof.
  unfold refreshDisplay, handleLed, handleBacklight, updateDisplay.
  split; split_ifs; reflexivity.
Qed.

(** X19.  The heartbeat keeps the link alive.  In a pass that reads one clock
    value [now] throughout, the remote sends at most two packets; the pass ends
    with less than 500 ms on the heartbeat timer; the timer is restarted at [now]
    exactly when the pass has sent something, so a packet sent for a button
    postpones the next heartbeat instead of being followed by one. *)
Theorem heartbeat_keeps_link_alive (cycle off : PinLevel) (now : Z) (s : State) :
  let s' := loop (sample cycle off now) s in
  elapsed now (lastHeartbeatTime s') < HEARTBEAT_INTERVAL
  /\ (length (sent s) <= length (sent s') <= length (sent s) + 2)%nat
  /\ (sent s' = sent s -> lastHeartbeatTime s' = lastHeartbeatTime s)
  /\ (sent s' <> sent s -> lastHeartbeatTime s' = now).
Proof.
  cbv zeta. set (i := sample cycle off now).
  assert (elapsed now now = 0) as E0
      by (unfold elapsed, u32; now rewrite Z.sub_diag).
  unfold loop. cbv zeta.
  destruct (link_after_heartbeat i
              (handleHeartbeat i (handleOffButton i (handleCycleButton i s)))) as [-> ->].
  pose proof (link_handleCycleButton i s) as H1.
  pose proof (link_handleOffButton i (handleCycleButton i s)) as H2.
  pose proof (link_handleHeartbeat i (handleOffButton i (handleCycleButton i s))) as H3.
  cbv zeta in H1, H2, H3.
  change (millis i CycleBeat) with now in H1. change (millis i OffBeat) with now in H2.
  change (millis i BeatCheck) with now in H3. change (millis i BeatStamp) with now in H3.
  revert H1 H2 H3.
  generalize (handleHeartbeat i (handleOffButton i (handleCycleButton i s))) as s3.
  generalize (handleOffButton i (handleCycleButton i s)) as s2.
  generalize (handleCycleButton i s) as s1.
  intros s1 s2 s3 H1 H2 H3. unfold HEARTBEAT_INTERVAL in *.
  assert (forall a b : list RadioPacket, length a <> length b -> a <> b) as Hneq
      by (intros a b Hl Hab; apply Hl; now rewrite Hab).
  destruct H1 as [[A1 B1] | [A1 B1]], H2 as [[A2 B2] | [A2 B2]],
      H3 as [(C3 & A3 & B3) | (C3 & A3 & B3)];
    rewrite ?A3, ?B3, ?A2, ?B2, ?A1, ?B1 in *;
    repeat split; intros; try lia; try congruence;
    try (exfalso; lia);
    try (exfalso; match goal with H : _ = sent s |- _ => revert H end;
         apply Hneq; rewrite ?A3, ?A2, ?A1; lia).
Qed.

(** *** Backlight and LED *)

Lemma lamps_checks (i : Input) (x : State) :
  (lastActivityTime (snd (checkCycleButtonPress i x)) = lastActivityTime x
   /\ lcdBacklightOn (snd (checkCycleButtonPress i x)) = lcdBacklightOn x
   /\ ledIsOn (snd (checkCycleButtonPress i x)) = ledIsOn x
   /\ ledOnTime (snd (checkCycleButtonPress i x)) = ledOnTime x)
  /\ (lastActivityTime (snd (checkOffButtonPress i x)) = lastActivityTime x
      /\ lcdBacklightOn (snd (checkOffButtonPress i x)) = lcdBacklightOn x
      /\ ledIsOn (snd (checkOffButtonPress i x)) = ledIsOn x
      /\ ledOnTime (snd (checkOffButtonPress i x)) = ledOnTime x).
Proof.
  unfold checkCycleButtonPress, checkOffButtonPress. cbv zeta.
  repeat split; split_ifs; reflexivity.
Qed.

Lemma lamps_handleCycleButton (i : Input) (s : State) :
  let s1 := handleCycleButton i s in
  if fst (checkCycleButtonPress i s) then
    lastActivityTime s1 = millis i CycleActivity /\ lcdBacklightOn s1 = true
    /\ ledIsOn s1 = true /\ ledOnTime s1 = millis i CycleLed
    /\ length (sent s1) = S (length (sent s))
  else
    lastActivityTime s1 = lastActivityTime s /\ lcdBacklightOn s1 = lcdBacklightOn s
    /\ ledIsOn s1 = ledIsOn s /\ ledOnTime s1 = ledOnTime s /\ sent s1 = sent s.
Proof.
  cbv zeta. unfold handleCycleButton.
  destruct (lamps_checks i s) as [(A & B & C & D) _].
  destruct (link_checks i s) as [[E _] _].
  destruct (fst (checkCycleButtonPress i s)); [|auto 6].
  rewrite <- E. generalize (snd (checkCycleButtonPress i s)) as x. intros x.
  unfold onCyclePress, transmitSequence. cbv zeta.
  destruct (lcdBacklightOn (set_lastActivityTime (millis i CycleActivity) x)) eqn:L;
    cbn [negb]; split_ifs; cbn_state; repeat split; auto.
Qed.

Lemma lamps_handleOffButton (i : Input) (s : State) :
  let s2 := handleOffButton i s in
  if fst (checkOffButtonPress i s) then
    lastActivityTime s2 = millis i OffActivity /\ lcdBacklightOn s2 = true
    /\ ((ledIsOn s2 = ledIsOn s /\ ledOnTime s2 = ledOnTime s /\ sent s2 = sent s)
        \/ (ledIsOn s2 = true /\ ledOnTime s2 = millis i OffLed
            /\ length (sent s2) = S (length (sent s))))
  else
    lastActivityTime s2 = lastActivityTime s /\ lcdBacklightOn s2 = lcdBacklightOn s
    /\ ledIsOn s2 = ledIsOn s /\ ledOnTime s2 = ledOnTime s /\ sent s2 = sent s.
Proof.
  cbv zeta. unfold handleOffButton.
  destruct (lamps_checks i s) as [_ (A & B & C & D)].
  destruct (link_checks i s) as [_ [E _]].
  destruct (fst (checkOffButtonPress i s)); [|auto 6].
  rewrite <- E, <- C, <- D. generalize (snd (checkOffButtonPress i s)) as x. intros x.
  unfold onOffPress, transmitSequence. cbv zeta.
  destruct (lcdBacklightOn (set_lastActivityTime (millis i OffActivity) x)) eqn:L;
    cbn [negb]; split_ifs; cbn_state; repeat split; auto.
Qed.

Lemma lamps_handleHeartbeat (i : Input) (s : State) :
  let s3 := handleHeartbeat i s in
  lastActivityTime s3 = lastActivityTime s /\ lcdBacklightOn s3 = lcdBacklightOn s
  /\ ((ledIsOn s3 = ledIsOn s /\ ledOnTime s3 = ledOnTime s /\ sent s3 = sent s)
      \/ (ledIsOn s3 = true /\ ledOnTime s3 = millis i BeatLed
          /\ length (sent s3) = S (length (sent s)))).
Proof.
  cbv zeta. unfold handleHeartbeat, transmitSequence. cbv zeta.
  destruct (heartbeatDue i s); cbn_state; auto 8.
Qed.

Lemma lamps_after_heartbeat (i : Input) (x : State) :
  let s' := refreshDisplay (handleLed i (handleBacklight i x)) in
  lastActivityTime s' = lastActivityTime x
  /\ lcdBacklightOn s'
     = lcdBacklightOn x
       && negb (LCD_TIMEOUT_MS <? elapsed (millis i LcdCheck) (lastActivityTime x))
  /\ ledIsOn s' = ledIsOn x && negb (50 <=? elapsed (millis i LedCheck) (ledOnTime x))
  /\ sent s' = sent x.
Proof.
  cbv zeta.
  assert (lastActivityTime (handleBacklight i x) = lastActivityTime x
          /\ lcdBacklightOn (handleBacklight i x)
             = lcdBacklightOn x
               && negb (LCD_TIMEOUT_MS <? elapsed (millis i LcdCheck) (lastActivityTime x))
          /\ ledIsOn (handleBacklight i x) = ledIsOn x
          /\ ledOnTime (handleBacklight i x) = ledOnTime x
          /\ sent (handleBacklight i x) = sent x) as (A & B & C & D & E).
  { unfold handleBacklight.
    destruct (lcdBacklightOn x) eqn:L; cbn [andb]; [|rewrite L; auto 6].
    destruct (LCD_TIMEOUT_MS <? _); cbn_state; cbn [negb]; auto 6. }
  rewrite <- B, <- A, <- C, <- D, <- E.
  generalize (handleBacklight i x) as y. intros y.
  assert (forall z, lastActivityTime (refreshDisplay z) = lastActivityTime z
                    /\ lcdBacklightOn (refreshDisplay z) = lcdBacklightOn z
                    /\ ledIsOn (refreshDisplay z) = ledIsOn z
                    /\ sent (refreshDisplay z) = sent z) as R.
  { intros z. unfold refreshDisplay, updateDisplay. split_ifs; auto. }
  destruct (R (handleLed i y)) as (-> & -> & -> & ->).
  unfold handleLed.
  destruct (ledIsOn y) eqn:L; cbn [andb]; [|rewrite L; auto].
  destruct (50 <=? _); cbn_state; cbn [negb]; auto.
Qed.

(** X20.  Backlight and LED in a pass that reads one clock value [now]
    throughout.  A reported press of either button, even an off press that sends
    nothing, records [now] as the last activity and leaves the backlight on; with
    no press the activity time is kept and the backlight stays on only while it
    was on and no more than 300000 ms have passed since that time.  The LED is on
    at the end of a pass that has sent a packet; otherwise it stays on only while
    it was on for less than 50 ms. *)
Theorem lamps_follow_activity (cycle off : PinLevel) (now : Z) (s : State) :
  let i := sample cycle off now in
  let s' := loop i s in
  let press := fst (checkCycleButtonPress i s)
               || fst (checkOffButtonPress i (handleCycleButton i s)) in
  lastActivityTime s' = (if press then now else lastActivityTime s)
  /\ lcdBacklightOn s'
     = (if press then true
        else lcdBacklightOn s
             && negb (LCD_TIMEOUT_MS <? elapsed now (lastActivityTime s)))
  /\ (sent s' <> sent s -> ledIsOn s' = true)
  /\ (sent s' = sent s ->
      ledIsOn s' = ledIsOn s && negb (50 <=? elapsed now (ledOnTime s))).
Proof.
  cbv zeta. set (i := sample cycle off now).
  assert (elapsed now now = 0) as E0
      by (unfold elapsed, u32; now rewrite Z.sub_diag).
  unfold loop. cbv zeta.
  pose proof (lamps_after_heartbeat i
                (handleHeartbeat i (handleOffButton i (handleCycleButton i s)))) as H4.
  pose proof (lamps_handleHeartbeat i (handleOffButton i (handleCycleButton i s))) as H3.
  pose proof (lamps_handleOffButton i (handleCycleButton i s)) as H2.
  pose proof (lamps_handleCycleButton i s) as H1.
  cbv zeta in H1, H2, H3, H4.
  change (millis i CycleActivity) with now in H1.
  change (millis i CycleLed) with now in H1.
  change (millis i OffActivity) with now in H2. change (millis i OffLed) with now in H2.
  change (millis i BeatLed) with now in H3.
  change (millis i LcdCheck) with now in H4. change (millis i LedCheck) with now in H4.
  destruct H4 as (-> & -> & -> & ->).
  revert H1 H2 H3.
  generalize (fst (checkOffButtonPress i (handleCycleButton i s))) as p2.
  generalize (fst (checkCycleButtonPress i s)) as p1.
  generalize (handleHeartbeat i (handleOffButton i (handleCycleButton i s))) as s3.
  generalize (handleOffButton i (handleCycleButton i s)) as s2.
  generalize (handleCycleButton i s) as s1.
  intros s1 s2 s3 p1 p2 H1 H2 (A3 & B3 & H3).
  assert (forall a b : list RadioPacket, length a <> length b -> a <> b) as Hneq
      by (intros a b Hl Hab; apply Hl; now rewrite Hab).
  assert ((LCD_TIMEOUT_MS <? 0) = false) as T0 by reflexivity.
  assert ((50 <=? 0) = false) as T1 by reflexivity.
  rewrite A3, B3.
  destruct p1, p2; cbn [orb];
    [ destruct H1 as (A1 & B1 & C1 & D1 & S1), H2 as (A2 & B2 & H2)
    | destruct H1 as (A1 & B1 & C1 & D1 & S1), H2 as (A2 & B2 & C2 & D2 & S2)
    | destruct H1 as (A1 & B1 & C1 & D1 & S1), H2 as (A2 & B2 & H2)
    | destruct H1 as (A1 & B1 & C1 & D1 & S1), H2 as (A2 & B2 & C2 & D2 & S2) ];
    try destruct H2 as [(C2 & D2 & S2) | (C2 & D2 & S2)];
    destruct H3 as [(C3 & D3 & S3) | (C3 & D3 & S3)];
    rewrite ?C3, ?D3, ?S3, ?A2, ?B2, ?C2, ?D2, ?S2, ?A1, ?B1, ?C1, ?D1, ?S1,
      ?E0, ?T0, ?T1;
    cbn [andb negb];
    (split; [reflexivity|]); (split; [reflexivity|]);
    (split; [intros N | intros Q]); try reflexivity;
    try (exfalso; apply N; reflexivity);
    try (exfalso; revert Q; apply Hneq; rewrite ?S3, ?S2, ?S1; lia).
Qed.

(** ** Concrete runs *)

(** C9 as stated fails for the off button when the sequence is already 0.  From
    power-on, the off button is seen down at 1000 ms (the heartbeat of that pass
    sends packet 1) and the press is debounced in the pass at 1060 ms; that pass
    sends nothing. *)
Lemma off_press_when_off_sends_nothing :
  let s := loop (sample HIGH LOW 1000) booted in
  let tick := sample HIGH LOW 1060 in
  currentSequence s = 0
  /\ fst (checkOffButtonPress tick (handleCycleButton tick s)) = true
  /\ sent (loop tick s) = sent s
  /\ length (sent (loop tick s)) = length (sent s).
Proof. vm_compute. repeat split; reflexivity. Qed.

Lemma remote_sends_one_packet_witness :
  let s := loop (sample LOW HIGH 1000) booted in
  let i := sample LOW HIGH 1060 in
  exists p, sent (handleCycleButton i s) = p :: sent s
            /\ Wire.sequenceId p = currentSequence (handleCycleButton i s)
            /\ (0 <= currentSequence s <= 5 ->
                currentSequence (handleCycleButton i s) = nextSequence (currentSequence s)).
Proof.
  cbv zeta.
  assert (fst (checkCycleButtonPress (sample LOW HIGH 1060)
                 (loop (sample LOW HIGH 1000) booted)) = true) as Hp
      by (vm_compute; reflexivity).
  pose proof (remote_sends_one_packet (sample LOW HIGH 1060)
                (loop (sample LOW HIGH 1000) booted)) as H.
  cbv zeta in H. destruct H as (Hcycle & _).
  exact (Hcycle Hp).
Defined.


(** The cycle button is held from 1000 ms on: the pass at 1060 ms reports the
    press, no later pass does. *)
Lemma held_button_reported_once_witness :
  (count_occ bool_dec
     (map fst (presses [sample LOW HIGH 1000; sample LOW HIGH 1060;
                        sample LOW HIGH 1500; sample LOW HIGH 9000] booted)) true
   <= 1)%nat.
Proof.
  assert (Forall (fun i => cycleReading i = LOW)
            [sample LOW HIGH 1000; sample LOW HIGH 1060;
             sample LOW HIGH 1500; sample LOW HIGH 9000]) as Hl
      by (repeat constructor).
  exact (proj1 (held_button_reported_once _ booted) Hl).
Defined.

(** A 40 ms pulse on the cycle pin, from 1000 ms to 1040 ms. *)
Lemma short_pulse_ignored_witness :
  Forall (fun p => fst p = false)
    (presses (sample LOW HIGH 1000 :: [sample LOW HIGH 1020; sample LOW HIGH 1040]
              ++ [sample HIGH HIGH 1045; sample HIGH HIGH 1200]) booted)
  /\ cycleButtonState
       (run (sample LOW HIGH 1000 :: [sample LOW HIGH 1020; sample LOW HIGH 1040]
             ++ [sample HIGH HIGH 1045; sample HIGH HIGH 1200]) booted) = HIGH.
Proof.
  assert (Forall (fun i => cycleReading i = LOW
                           /\ elapsed (millis i CycleSettle)
                                (millis (sample LOW HIGH 1000) CycleEdge)
                              <= DEBOUNCE_DELAY_MS)
            [sample LOW HIGH 1000; sample LOW HIGH 1020; sample LOW HIGH 1040]) as Hp
      by (repeat constructor; vm_compute; discriminate).
  assert (Forall (fun i => cycleReading i = HIGH)
            [sample HIGH HIGH 1045; sample HIGH HIGH 1200]) as Ha
      by (repeat constructor).
  exact (proj1 (short_pulse_ignored booted (sample LOW HIGH 1000)
                  [sample LOW HIGH 1020; sample LOW HIGH 1040]
                  [sample HIGH HIGH 1045; sample HIGH HIGH 1200])
           eq_refl eq_refl Hp Ha).
Defined.

(** The cycle button goes down at 1000 ms and stays down. *)
Lemma steady_press_reported_once_witness :
  count_occ bool_dec
    (map fst (presses (sample LOW HIGH 1000
                       :: [sample LOW HIGH 1020; sample LOW HIGH 1060;
                           sample LOW HIGH 3000]) booted)) true
  = 1%nat.
Proof.
  assert (Forall (fun i => cycleReading i = LOW)
            (sample LOW HIGH 1000
             :: [sample LOW HIGH 1020; sample LOW HIGH 1060; sample LOW HIGH 3000]))
    as Hl by (repeat constructor).
  assert (Exists (fun i => DEBOUNCE_DELAY_MS
                           < elapsed (millis i CycleSettle)
                               (millis (sample LOW HIGH 1000) CycleEdge))
            (sample LOW HIGH 1000
             :: [sample LOW HIGH 1020; sample LOW HIGH 1060; sample LOW HIGH 3000]))
    as Hex by (right; right; left; vm_compute; reflexivity).
  exact (proj1 (steady_press_reported_once booted (sample LOW HIGH 1000)
                  [sample LOW HIGH 1020; sample LOW HIGH 1060; sample LOW HIGH 3000])
           eq_refl eq_refl Hl Hex).
Defined.

End RemoteFacts.

(** * The remote and a receiver together *)

Module LinkFacts.

Import Wire Receiver ReceiverFacts.

Section WithDriver.
Context {drv : NeoPixelColor}.

(** X21.  What the remote shows is what the strip plays.  Take the newest
    packet the remote has sent at any point after its [setup()], and a receiver
    pass that receives it with no gesture to handle and no timeout due.  The pass
    ends with the receiver's sequence equal to the remote's current one, which is
    one of 0..5. *)
Theorem press_reaches_strip
    (now : Z) (l : list Remote.Input) (p : RadioPacket) (older : list RadioPacket)
    (j : Input) (rssi : Z) (s : State) :
  Remote.sent (Remote.run l (Remote.setup now)) = p :: older ->
  radio j = Some (p, rssi) ->
  gestureOf j s = NoGesture ->
  elapsed (millis j AtNoSignal) (millis j AtRecv) <= PACKET_TIMEOUT_MS ->
  elapsed (millis j AtIdle) (millis j AtActive) <= STRIP_TIMEOUT_MS ->
  elapsed (millis j AtIdle) (lastActiveAnimationTime s) <= STRIP_TIMEOUT_MS ->
  currentSequence (loop j s) = Remote.currentSequence (Remote.run l (Remote.setup now))
  /\ 0 <= currentSequence (loop j s) <= 5.
Proof.
  intros Hsent Hr Hg Hn Ha Hi.
  destruct (RemoteFacts.wellFormed_run l _ (RemoteFacts.wellFormed_setup now))
    as (Hs & _ & Hnew & _).
  pose proof (Hnew p older Hsent) as Hp.
  assert (currentSequence (loop j s) = sequenceId p) as E
      by (apply (received_sequence_stored j s p rssi); auto; lia).
  rewrite E, Hp. split; [reflexivity | exact Hs].
Qed.

End WithDriver.

(** ** Concrete runs *)

#[local] Existing Instance refDriver.

(** The remote beats at 1000 ms and debounces a press of the cycle button at
    1060 ms; a receiver fresh from power-on hears that second packet. *)
Lemma press_reaches_strip_witness :
  let l := [Remote.sample Remote.LOW Remote.HIGH 1000;
            Remote.sample Remote.LOW Remote.HIGH 1060] in
  let p := {| packetCounter := 2; sequenceId := 1 |} in
  let j := {| radio := Some (p, -40); pinLow := false; millis := fun _ => 2000;
              rnd := 0 |} in
  currentSequence (loop j booted)
  = Remote.currentSequence (Remote.run l (Remote.setup 1100))
  /\ 0 <= currentSequence (loop j booted) <= 5.
Proof.
  cbv zeta.
  set (l := [Remote.sample Remote.LOW Remote.HIGH 1000;
             Remote.sample Remote.LOW Remote.HIGH 1060]).
  set (p := {| packetCounter := 2; sequenceId := 1 |}).
  set (j := {| radio := Some (p, -40); pinLow := false; millis := fun _ => 2000;
               rnd := 0 |}).
  assert (Remote.sent (Remote.run l (Remote.setup 1100))
          = p :: [{| packetCounter := 1; sequenceId := 0 |}]) as Hsent
      by (vm_compute; reflexivity).
  assert (gestureOf j booted = NoGesture) as Hg by (vm_compute; reflexivity).
  assert (elapsed (millis j AtNoSignal) (millis j AtRecv) <= PACKET_TIMEOUT_MS) as Hn
      by (vm_compute; discriminate).
  assert (elapsed (millis j AtIdle) (millis j AtActive) <= STRIP_TIMEOUT_MS) as Ha
      by (vm_compute; discriminate).
  assert (elapsed (millis j AtIdle) (lastActiveAnimationTime booted) <= STRIP_TIMEOUT_MS)
    as Hi by (vm_compute; discriminate).
  exact (press_reaches_strip 1100 l p _ j (-40) booted Hsent eq_refl Hg Hn Ha Hi).
Defined.

End LinkFacts.
